(** * EcoRota Angola: route generation and personalisation engine

    A shallow embedding of the geographic calculator
    ([src/utils/geographic.py]), the route optimiser
    ([src/core/route_optimizer.py]), the validators
    ([src/utils/validators.py]), the rating engine
    ([src/ml/ml_recommendation_engine.py]) and the orchestrating system
    ([src/core/ecoturismo_system.py], and [ecoturismo_system.py] for the
    personalised routes).

    Python floats are read as the rational numbers they denote ([Q]); the
    arithmetic on them is exact.  Python exceptions are values of [exn]
    carried by the [result] type. *)

From Stdlib Require Import ZArith QArith Qround Qabs Qpower Reals Lra Lqa Lia List String
  DecimalString Permutation.
From stdpp Require Import base option list gmap strings sorting.
Import ListNotations.
Open Scope string_scope.
Open Scope list_scope.

(** ** Exceptions and the error monad *)

Inductive exn : Type :=
| ValueError (msg : string)
| IndexError
| KeyError (key : string)
| TypeError
| AttributeError
| NotFittedError.

Inductive result (A : Type) : Type :=
| Ok (a : A)
| Raise (e : exn).
Arguments Ok {A} a.
Arguments Raise {A} e.

Definition bind {A B : Type} (m : result A) (k : A -> result B) : result B :=
  match m with
  | Ok a => k a
  | Raise e => Raise e
  end.

Notation "'let!' x ':=' m 'in' k" := (bind m (fun x => k))
  (at level 10, x pattern, m at level 100, k at level 200).

(** [try: ... except Exception: return d] *)
Definition except_return {A : Type} (m : result A) (d : A) : A :=
  match m with
  | Ok a => a
  | Raise _ => d
  end.

(** A [for] loop whose body may raise. *)
Fixpoint for_each {S X : Type} (body : S -> X -> result S) (xs : list X) (s : S) : result S :=
  match xs with
  | [] => Ok s
  | x :: xs' => let! s' := body s x in for_each body xs' s'
  end.

(** [for _ in range(k)] *)
Fixpoint repeat_loop {S : Type} (k : nat) (body : S -> result S) (s : S) : result S :=
  match k with
  | O => Ok s
  | S k' => let! s' := body s in repeat_loop k' body s'
  end.

(** ** Python numerics *)

Definition Qltb (x y : Q) : bool := negb (Qle_bool y x).

(** [x or d] on an optional number: [None] and [0] are falsy. *)
Definition py_or_Z (x : option Z) (d : Z) : Z :=
  match x with
  | Some v => if (v =? 0)%Z then d else v
  | None => d
  end.

Definition py_or_Q (x : option Q) (d : Q) : Q :=
  match x with
  | Some v => if Qeq_bool v 0%Q then d else v
  | None => d
  end.

(** Nearest integer, ties to the even one. *)
Definition round_half_even (x : Q) : Z :=
  let f := Qfloor x in
  match Qcompare (x - inject_Z f)%Q (1 # 2)%Q with
  | Lt => f
  | Gt => (f + 1)%Z
  | Eq => if Z.even f then f else (f + 1)%Z
  end.

(** [round(x, ndigits)] *)
Definition py_round (x : Q) (ndigits : nat) : Q :=
  let s := inject_Z (10 ^ Z.of_nat ndigits) in
  (inject_Z (round_half_even (x * s)%Q) / s)%Q.

(** [np.clip(x, lo, hi)] *)
Definition np_clip (x lo hi : Q) : Q :=
  if Qltb x lo then lo else if Qltb hi x then hi else x.

Definition Qsum (xs : list Q) : Q := fold_left Qplus xs 0%Q.

(** [np.mean] of a non-empty list *)
Definition np_mean (xs : list Q) : Q := (Qsum xs / inject_Z (Z.of_nat (length xs)))%Q.

(** ** Python sequences *)

(** Truthiness of an optional value: the key is there. *)
Definition present {A : Type} (o : option A) : bool :=
  match o with
  | Some _ => true
  | None => false
  end.

(** Position designated by a Python index into a sequence of length [n]. *)
Definition py_position (n : nat) (i : Z) : option nat :=
  let j := if (i <? 0)%Z then (i + Z.of_nat n)%Z else i in
  if ((j <? 0) || (Z.of_nat n <=? j))%Z then None else Some (Z.to_nat j).

(** [l[i]] *)
Definition py_get {A : Type} (l : list A) (i : Z) : result A :=
  match py_position (length l) i with
  | Some p => match l !! p with Some x => Ok x | None => Raise IndexError end
  | None => Raise IndexError
  end.

(** [l[i] = x] *)
Definition py_set {A : Type} (l : list A) (i : Z) (x : A) : result (list A) :=
  match py_position (length l) i with
  | Some p => Ok (<[p := x]> l)
  | None => Raise IndexError
  end.

(** [l[:k]] *)
Definition py_slice_to {A : Type} (l : list A) (k : Z) : list A :=
  if (k <? 0)%Z then firstn (Z.to_nat (Z.of_nat (length l) + k)) l
  else firstn (Z.to_nat k) l.

(** [range(n)] *)
Definition range (n : nat) : list Z := map Z.of_nat (seq 0 n).

(** ** Geographic calculator ([GeographicCalculator]) *)

Definition coord : Type := Q * Q.

Definition _validate_coordinates (c : coord) : result unit :=
  let '(lat, lon) := c in
  if negb (Qle_bool (-90)%Q lat && Qle_bool lat 90%Q)
  then Raise (ValueError "Latitude invalida")
  else if negb (Qle_bool (-180)%Q lon && Qle_bool lon 180%Q)
  then Raise (ValueError "Longitude invalida")
  else Ok tt.

(** [calculate_distance]; [haversine] is the function of the [haversine]
    package the module imports. *)
Definition calculate_distance {D : Type} (haversine : coord -> coord -> D)
    (coord1 coord2 : coord) : result D :=
  let! _ := _validate_coordinates coord1 in
  let! _ := _validate_coordinates coord2 in
  Ok (haversine coord1 coord2).

Section Geographic.
Variable haversine : coord -> coord -> Q.

(** [float('inf')] is [None]; every distance is below it. *)
Definition below (distance : Q) (min_distance : option Q) : bool :=
  match min_distance with
  | None => true
  | Some m => Qltb distance m
  end.

(** Body of the inner loop [for i in range(n)] of [nearest_neighbor_route];
    the loop state is [(min_distance, next_index)]. *)
Definition nearest_scan (coordinates : list coord) (visited : list bool) (current : Z)
    (st : option Q * Z) (i : Z) : result (option Q * Z) :=
  let '(min_distance, next_index) := st in
  let! v := py_get visited i in
  if v then Ok st
  else
    let! c_current := py_get coordinates current in
    let! c_i := py_get coordinates i in
    let! distance := calculate_distance haversine c_current c_i in
    if below distance min_distance then Ok (Some distance, i) else Ok st.

(** Body of the outer loop [for _ in range(n - 1)]; the loop state is
    [(route, visited, current)]. *)
Definition nearest_step (coordinates : list coord) (n : nat)
    (st : list Z * list bool * Z) : result (list Z * list bool * Z) :=
  let '(route, visited, current) := st in
  let! found := for_each (nearest_scan coordinates visited current) (range n) (None, (-1)%Z) in
  let next_index := snd found in
  if (next_index =? -1)%Z then Ok st
  else
    let! visited' := py_set visited next_index true in
    Ok (route ++ [next_index], visited', next_index).

Fixpoint consecutive_distances (coordinates : list coord) (route_indices : list Z)
    (total_distance : Q) : result Q :=
  match route_indices with
  | current_idx :: ((next_idx :: _) as rest) =>
      let! c1 := py_get coordinates current_idx in
      let! c2 := py_get coordinates next_idx in
      let! distance := calculate_distance haversine c1 c2 in
      consecutive_distances coordinates rest (total_distance + distance)%Q
  | _ => Ok total_distance
  end.

Definition calculate_route_distance (coordinates : list coord) (route_indices : list Z)
    : result Q :=
  consecutive_distances coordinates route_indices 0%Q.

Definition nearest_neighbor_route (coordinates : list coord) (start_index : Z)
    : result (list Z) :=
  if (length coordinates <=? 1)%nat then Ok [0%Z]
  else
    let n := length coordinates in
    let visited := replicate n false in
    let route := [start_index] in
    let! visited := py_set visited start_index true in
    let current := start_index in
    let! final := repeat_loop (n - 1) (nearest_step coordinates n) (route, visited, current) in
    let route := fst (fst final) in
    (* the log line formats the total distance of the route *)
    let! _ := calculate_route_distance coordinates route in
    Ok route.
End Geographic.

(** *** What the tour is meant to be

    The following two predicates state the greedy rule in the words of the
    specification: starting from the start index, each next point is the
    unvisited point closest to the current one, the lowest index winning a
    tie. *)

Definition point (coordinates : list coord) (i : Z) : coord :=
  nth (Z.to_nat i) coordinates (0%Q, 0%Q).

Definition nearest_unvisited (haversine : coord -> coord -> Q) (coordinates : list coord)
    (seen : list Z) (cur nxt : Z) : Prop :=
  let d j := haversine (point coordinates cur) (point coordinates j) in
  In nxt (range (length coordinates)) /\ ~ In nxt seen /\
  forall j, In j (range (length coordinates)) -> ~ In j seen ->
    (d nxt <= d j)%Q /\ ((d j == d nxt)%Q -> (nxt <= j)%Z).

Definition greedy_tour (haversine : coord -> coord -> Q) (coordinates : list coord)
    (start : Z) (route : list Z) : Prop :=
  head route = Some start /\
  forall (k : nat) (cur nxt : Z),
    route !! k = Some cur -> route !! S k = Some nxt ->
    nearest_unvisited haversine coordinates (take (S k) route) cur nxt.

Definition valid_coord (c : coord) : Prop := _validate_coordinates c = Ok tt.

(** ** Configuration ([config/settings.py]) *)

Record RouteConfig : Type := {
  default_max_budget : Q;
  default_max_locations : Z;
  default_max_fragility : Z;
  default_num_routes : Z;
  weight_fragilidade : Q;
  weight_distancia : Q;
  weight_custo : Q;
  route_clustering : bool;
  min_cluster_size : Z
}.

Record Config : Type := {
  route : RouteConfig;
  (** [ml.clustering_params.get('n_clusters', 6)] *)
  ml_n_clusters : Z
}.

Definition default_route_config : RouteConfig := {|
  default_max_budget := 20000;
  default_max_locations := 6;
  default_max_fragility := 4;
  default_num_routes := 5;
  weight_fragilidade := 0.45;
  weight_distancia := 0.35;
  weight_custo := 0.20;
  route_clustering := true;
  min_cluster_size := 2
|}.

Definition default_config : Config := {|
  route := default_route_config;
  ml_n_clusters := 6
|}.

(** ** The site catalogue *)

(** A row of the catalogue.  The two scores are columns that feature
    engineering may have added. *)
Record Location : Type := {
  nome : string;
  provincia : string;
  latitude : Q;
  longitude : Q;
  fragilidade : Z;
  capacidade_diaria : Z;
  taxa_aoa : Q;
  tipo_ecosistema : string;
  descricao : string;
  sustentabilidade_score : option Q;
  atratividade_score : option Q
}.

(** A data frame: its rows and its [cluster] column, when it has one. *)
Record DataFrame : Type := {
  rows : list Location;
  cluster : option (list Z)
}.

(** A row as [to_dict('records')] gives it once the frame is clustered. *)
Record LocationRecord : Type := {
  site : Location;
  site_cluster : Z
}.

Definition coordinates_of (locs : list LocationRecord) : list coord :=
  map (fun loc => (latitude (site loc), longitude (site loc))) locs.

(** A route dictionary; [score] is absent until the route is scored. *)
Record Route : Type := {
  route_nome : string;
  locais : list LocationRecord;
  num_locais : nat;
  distancia_total_km : Q;
  custo_total_aoa : Q;
  fragilidade_media : Q;
  provincias : list string;
  tipos_ecosistema : list string;
  score : option Q
}.

(** ** Structural validation of a route ([DataValidator.validate_route_data]) *)

Definition required_route_fields : list string :=
  ["nome"; "provincia"; "latitude"; "longitude"; "fragilidade"; "taxa_aoa"].

(** The keys of a location dictionary. *)
Definition location_keys (loc : LocationRecord) : list string :=
  ["nome"; "provincia"; "latitude"; "longitude"; "fragilidade"; "capacidade_diaria";
   "taxa_aoa"; "tipo_ecosistema"; "descricao"]
  ++ (if present (sustentabilidade_score (site loc)) then ["sustentabilidade_score"] else [])
  ++ (if present (atratividade_score (site loc)) then ["atratividade_score"] else [])
  ++ ["cluster"].

(** [set(required_route_fields) - set(location.keys())] is empty; the
    [isinstance] tests on latitude, longitude and fragility hold of every
    [Location], whose fields are numbers. *)
Definition location_well_formed (loc : LocationRecord) : bool :=
  forallb (fun field => existsb (String.eqb field) (location_keys loc)) required_route_fields.

Definition validate_route_data (route_data : list LocationRecord) : bool :=
  match route_data with
  | [] => false
  | _ => forallb location_well_formed route_data
  end.

(** ** Route optimiser ([RouteOptimizer]) *)

(** What the optimiser takes from outside the repository. *)
Record Environment : Type := {
  (** [haversine.haversine], in kilometres *)
  haversine : coord -> coord -> Q;
  (** [StandardScaler().fit_transform] followed by
      [KMeans(n_clusters, random_state, n_init).fit_predict] on the feature
      matrix; the seed is fixed by the configuration *)
  kmeans_fit_predict : Z -> list (list Q) -> result (list Z);
  (** state of numpy's global random generator *)
  rng : Type;
  (** [np.random.randint(high)] *)
  randint : Z -> rng -> Z * rng;
  (** [DataFrame.sample(n, random_state)]: the positions drawn, without
      replacement, from a frame of the given length *)
  sample_positions : nat -> nat -> Z -> list nat;
  (** [list(set(xs))]: the distinct strings, in the order in which this
      interpreter process iterates the set (it follows the hash seed of the
      process) *)
  list_of_set : list string -> list string
}.

Definition str_Z (z : Z) : string := NilZero.string_of_int (Z.to_int z).

(** [series.unique()]: distinct values in order of first appearance. *)
Fixpoint unique (xs : list Z) : list Z :=
  match xs with
  | [] => []
  | x :: xs' => x :: List.filter (fun y => negb (y =? x)%Z) (unique xs')
  end.

(** [sorted(xs, key=...)]: stable insertion by increasing key. *)
Fixpoint insert_by_key {A : Type} (key : A -> Q) (x : A) (xs : list A) : list A :=
  match xs with
  | [] => [x]
  | y :: ys => if Qltb (key y) (key x) then y :: insert_by_key key x ys else x :: y :: ys
  end.

Definition sorted_by_key {A : Type} (key : A -> Q) (xs : list A) : list A :=
  fold_right (insert_by_key key) [] xs.

Section Optimizer.
Variable env : Environment.
Variable config : Config.

(** The feature matrix [df[features].values]. *)
Definition has_column (f : Location -> option Q) (df_rows : list Location) : bool :=
  forallb (fun r => present (f r)) df_rows.

Definition clustering_features (df_rows : list Location) : list (list Q) :=
  let with_sust := has_column sustentabilidade_score df_rows in
  let with_atr := has_column atratividade_score df_rows in
  map (fun r =>
         [latitude r; longitude r; inject_Z (fragilidade r);
          inject_Z (capacidade_diaria r); taxa_aoa r]
         ++ (if with_sust then option_list (sustentabilidade_score r) else [])
         ++ (if with_atr then option_list (atratividade_score r) else []))
      df_rows.

(** [route_clustering and clustering_params.get('n_clusters', 6) or 1] *)
Definition configured_clusters : Z :=
  if route_clustering (route config)
  then (if (ml_n_clusters config =? 0)%Z then 1%Z else ml_n_clusters config)
  else 1%Z.

Definition _create_geographic_clusters (df : DataFrame) : DataFrame :=
  let size := Z.of_nat (length (rows df)) in
  let n_clusters := Z.min (Z.min configured_clusters (size / 2)) size in
  let unclustered := {| rows := rows df; cluster := Some (map (fun _ => 0%Z) (rows df)) |} in
  if (n_clusters <? 2)%Z then unclustered
  else
    match kmeans_fit_predict env n_clusters (clustering_features (rows df)) with
    | Ok clusters =>
        (* the column must fit the frame, and the log line counts the labels
           with [np.bincount], which refuses negative ones *)
        if (length clusters =? length (rows df))%nat
           && forallb (fun c => (0 <=? c)%Z) clusters
        then {| rows := rows df; cluster := Some clusters |}
        else unclustered
    | Raise _ => unclustered
    end.

(** [df[df['cluster'] == cluster_id].to_dict('records')] *)
Definition cluster_records (df : DataFrame) (cluster_id : Z) : list LocationRecord :=
  match cluster df with
  | Some clusters =>
      map (fun rc => {| site := fst rc; site_cluster := snd rc |})
          (List.filter (fun rc => (snd rc =? cluster_id)%Z) (combine (rows df) clusters))
  | None => []
  end.

Definition build_route (locations : list LocationRecord) (total_cost : Q)
    : result Route :=
  let! optimized_indices :=
    nearest_neighbor_route (haversine env) (coordinates_of locations) 0 in
  let! optimized_locations :=
    for_each (fun acc i => let! loc := py_get locations i in Ok (acc ++ [loc]))
             optimized_indices [] in
  let! total_distance :=
    calculate_route_distance (haversine env) (coordinates_of optimized_locations)
                             (range (length optimized_locations)) in
  let avg_fragility :=
    np_mean (map (fun loc => inject_Z (fragilidade (site loc))) optimized_locations) in
  let! first := py_get locations 0 in
  Ok {| route_nome :=
          ("Rota Cluster " ++ str_Z (site_cluster first + 1) ++ " - "
           ++ str_Z (Z.of_nat (length optimized_locations)) ++ " locais")%string;
        locais := optimized_locations;
        num_locais := length optimized_locations;
        distancia_total_km := py_round total_distance 2;
        custo_total_aoa := total_cost;
        fragilidade_media := py_round avg_fragility 2;
        provincias :=
          list_of_set env (map (fun loc => provincia (site loc)) optimized_locations);
        tipos_ecosistema :=
          list_of_set env (map (fun loc => tipo_ecosistema (site loc)) optimized_locations);
        score := None |}.

(** [None] is returned when the budget is exceeded and when anything raises. *)
Definition _create_route_from_locations (locations : list LocationRecord) (max_budget : Q)
    : option Route :=
  let total_cost := Qsum (map (fun loc => taxa_aoa (site loc)) locations) in
  if Qltb max_budget total_cost then None
  else
    match build_route locations total_cost with
    | Ok route_data => Some route_data
    | Raise _ => None
    end.

(** [cluster_df.sample(n, random_state)]; a negative [n] raises. *)
Definition df_sample (cluster_df : list LocationRecord) (n : Z) (random_state : Z)
    : result (list LocationRecord) :=
  if (n <? 0)%Z then Raise (ValueError "n must be non-negative")
  else
    for_each (fun acc p => match cluster_df !! p with
                           | Some loc => Ok (acc ++ [loc])
                           | None => Raise IndexError
                           end)
             (sample_positions env (length cluster_df) (Z.to_nat n) random_state) [].

(** One pass of [for _ in range(min(3, cluster_size // 2))]. *)
Definition sample_attempt (cluster_df : list LocationRecord) (max_locations : Z)
    (max_budget : Q) (st : list Route * rng env) : result (list Route) * rng env :=
  let '(routes, g) := st in
  let '(random_state, g') := randint env 1000 g in
  match df_sample cluster_df (Z.min max_locations (Z.of_nat (length cluster_df)))
                  random_state with
  | Ok selected_locations =>
      match _create_route_from_locations selected_locations max_budget with
      | Some route_data => (Ok (routes ++ [route_data]), g')
      | None => (Ok routes, g')
      end
  | Raise e => (Raise e, g')
  end.

Fixpoint sample_attempts (k : nat) (cluster_df : list LocationRecord) (max_locations : Z)
    (max_budget : Q) (st : list Route * rng env) : result (list Route) * rng env :=
  match k with
  | O => (Ok (fst st), snd st)
  | S k' =>
      match sample_attempt cluster_df max_locations max_budget st with
      | (Ok routes, g') => sample_attempts k' cluster_df max_locations max_budget (routes, g')
      | (Raise e, g') => (Raise e, g')
      end
  end.

Definition _generate_cluster_routes (cluster_df : list LocationRecord) (max_locations : Z)
    (max_budget : Q) (g : rng env) : list Route * rng env :=
  let cluster_size := Z.of_nat (length cluster_df) in
  if (cluster_size <=? max_locations)%Z then
    match _create_route_from_locations cluster_df max_budget with
    | Some route_data => ([route_data], g)
    | None => ([], g)
    end
  else
    let attempts := Z.to_nat (Z.min 3 (cluster_size / 2)) in
    let '(outcome, g') := sample_attempts attempts cluster_df max_locations max_budget ([], g) in
    (except_return outcome [], g').

Definition score_route (route_data : Route) : Route :=
  let weights := route config in
  let s := (weight_fragilidade weights * fragilidade_media route_data
            + weight_distancia weights * (distancia_total_km route_data / 1000)
            + weight_custo weights * (custo_total_aoa route_data / 100000))%Q in
  {| route_nome := route_nome route_data;
     locais := locais route_data;
     num_locais := num_locais route_data;
     distancia_total_km := distancia_total_km route_data;
     custo_total_aoa := custo_total_aoa route_data;
     fragilidade_media := fragilidade_media route_data;
     provincias := provincias route_data;
     tipos_ecosistema := tipos_ecosistema route_data;
     score := Some (py_round s 3) |}.

Definition _calculate_route_scores (routes : list Route) : list Route :=
  map score_route routes.

(** The sort key [x['score']]; a route without one raises [KeyError]. *)
Definition score_key (route_data : Route) : Q := default 0%Q (score route_data).

Definition _select_best_routes (scored_routes : list Route) (num_routes : Z) : list Route :=
  match scored_routes with
  | [] => []
  | _ =>
      if forallb (fun r => present (score r)) scored_routes then
        let sorted_routes := sorted_by_key score_key scored_routes in
        let best_routes := py_slice_to sorted_routes num_routes in
        List.filter (fun r => validate_route_data (locais r)) best_routes
      else py_slice_to scored_routes num_routes
  end.

(** The loop over [df_clustered['cluster'].unique()]. *)
Fixpoint routes_of_clusters (df_clustered : DataFrame) (cluster_ids : list Z)
    (max_locations : Z) (max_budget : Q) (g : rng env) : list Route * rng env :=
  match cluster_ids with
  | [] => ([], g)
  | cluster_id :: rest =>
      let '(cluster_routes, g1) :=
        _generate_cluster_routes (cluster_records df_clustered cluster_id)
                                 max_locations max_budget g in
      let '(more, g2) := routes_of_clusters df_clustered rest max_locations max_budget g1 in
      (cluster_routes ++ more, g2)
  end.

(** [generate_routes] returns the routes; the frame it was given has gained
    a [cluster] column and the generator has advanced. *)
Definition generate_routes (df : DataFrame) (max_locations num_routes : option Z)
    (max_budget : option Q) (g : rng env) : list Route * DataFrame * rng env :=
  let max_locations := py_or_Z max_locations (default_max_locations (route config)) in
  let num_routes := py_or_Z num_routes (default_num_routes (route config)) in
  let max_budget := py_or_Q max_budget (default_max_budget (route config)) in
  match rows df with
  | [] => ([], df, g)
  | _ =>
      let df_clustered := _create_geographic_clusters df in
      let '(all_routes, g') :=
        routes_of_clusters df_clustered (unique (default [] (cluster df_clustered)))
                           max_locations max_budget g in
      let scored_routes := _calculate_route_scores all_routes in
      let best_routes := _select_best_routes scored_routes num_routes in
      (best_routes, df_clustered, g')
  end.

End Optimizer.

(** The candidates that [generate_routes] hands to [_select_best_routes]:
    the scored routes of all clusters, before they are sorted and cut. *)
Definition scored_candidates (env : Environment) (config : Config) (df : DataFrame)
    (max_locations : option Z) (max_budget : option Q) (g : rng env) : list Route :=
  let max_locations := py_or_Z max_locations (default_max_locations (route config)) in
  let max_budget := py_or_Q max_budget (default_max_budget (route config)) in
  match rows df with
  | [] => []
  | _ =>
      let df_clustered := _create_geographic_clusters env config df in
      _calculate_route_scores config
        (fst (routes_of_clusters env df_clustered
                                 (unique (default [] (cluster df_clustered)))
                                 max_locations max_budget g))
  end.

(** ** Another interpreter process

    The order in which a Python set of strings is iterated follows the hash
    seed of the interpreter process, which is drawn afresh for every process
    unless PYTHONHASHSEED fixes it.  K-means and [DataFrame.sample] are
    seeded by the program and the generator is passed along, so that another
    process running the same program differs from [env] in that order only. *)
Definition with_set_order (env : Environment) (order : list string -> list string)
    : Environment := {|
  haversine := haversine env;
  kmeans_fit_predict := kmeans_fit_predict env;
  rng := rng env;
  randint := randint env;
  sample_positions := sample_positions env;
  list_of_set := order
|}.

(** The route [r] with the provinces and the ecosystem types of its sites
    listed in the order [order]: what [list(set(...))] gives for the same
    sites in a process that iterates its sets in that order. *)
Definition relisted (order : list string -> list string) (r : Route) : Route := {|
  route_nome := route_nome r;
  locais := locais r;
  num_locais := num_locais r;
  distancia_total_km := distancia_total_km r;
  custo_total_aoa := custo_total_aoa r;
  fragilidade_media := fragilidade_media r;
  provincias := order (map (fun loc => provincia (site loc)) (locais r));
  tipos_ecosistema := order (map (fun loc => tipo_ecosistema (site loc)) (locais r));
  score := score r
|}.

(** ** The catalogue of the optimiser's self-test

    Three sites with prices 25000, 15000 and 30000 AOA and fragilities
    3, 2 and 4 (the [__main__] block of [route_optimizer.py]). *)

Definition site_kissama : Location := {|
  nome := "Parque Nacional da Kissama"; provincia := "Luanda";
  latitude := (-8.7500)%Q; longitude := 13.2500%Q;
  fragilidade := 3; capacidade_diaria := 150; taxa_aoa := 25000%Q;
  tipo_ecosistema := "savana"; descricao := "Reserva natural";
  sustentabilidade_score := None; atratividade_score := None |}.

Definition site_kalandula : Location := {|
  nome := "Cascatas de Kalandula"; provincia := "Malange";
  latitude := (-9.0833)%Q; longitude := 16.0167%Q;
  fragilidade := 2; capacidade_diaria := 200; taxa_aoa := 15000%Q;
  tipo_ecosistema := "floresta"; descricao := "Cachoeiras";
  sustentabilidade_score := None; atratividade_score := None |}.

Definition site_iona : Location := {|
  nome := "Parque Nacional de Iona"; provincia := "Namibe";
  latitude := (-16.7500)%Q; longitude := 12.2500%Q;
  fragilidade := 4; capacidade_diaria := 100; taxa_aoa := 30000%Q;
  tipo_ecosistema := "deserto"; descricao := "Deserto costeiro";
  sustentabilidade_score := None; atratividade_score := None |}.

Definition test_catalog : DataFrame :=
  {| rows := [site_kissama; site_kalandula; site_iona]; cluster := None |}.

(** Its rows as the records of the single cluster 0. *)
Definition test_records : list LocationRecord :=
  map (fun r => {| site := r; site_cluster := 0 |}) (rows test_catalog).

(** ** An environment to run the definitions on concrete inputs

    The stand-ins matter to no statement below: they are only asked for
    where the code under study never calls them, or where any other choice
    would do. *)

Definition sample_environment : Environment := {|
  haversine := fun a b => (Qabs (fst a - fst b) + Qabs (snd a - snd b))%Q;
  kmeans_fit_predict := fun _ features => Ok (map (fun _ => 0%Z) features);
  rng := Z;
  randint := fun high g => ((g mod high)%Z, (g + 1)%Z);
  sample_positions := fun _ n _ => seq 0 n;
  list_of_set := fun xs => xs
|}.

(** A catalogue with a single site. *)
Definition single_site_catalog : DataFrame :=
  {| rows := [site_kalandula]; cluster := None |}.

(** ** Great-circle distance over the real numbers *)

Definition radians (degrees : R) : R := (degrees * PI / 180)%R.

Definition AVG_EARTH_RADIUS_KM : R := 6371.0088%R.

(** Modelled from the spec: the function [haversine] of the [haversine]
    package, which [geographic.py] imports and which is not part of the
    repository.  The specification has the distance be "the great-circle
    distance between two coordinates, in kilometers, using the haversine
    formula"; the formula is read over the real numbers, with the mean
    earth radius of the package. *)
Definition haversine_formula (point1 point2 : coord) : R :=
  let lat1 := radians (Q2R (fst point1)) in
  let lng1 := radians (Q2R (snd point1)) in
  let lat2 := radians (Q2R (fst point2)) in
  let lng2 := radians (Q2R (snd point2)) in
  let lat := (lat2 - lat1)%R in
  let lng := (lng2 - lng1)%R in
  let d := ((sin (lat * 0.5)) ^ 2 + cos lat1 * cos lat2 * (sin (lng * 0.5)) ^ 2)%R in
  (2 * AVG_EARTH_RADIUS_KM * asin (sqrt d))%R.

(** ** User profiles ([validate_user_profile]) *)

Definition required_fields : list string :=
  ["idade"; "orcamento_max"; "preferencia_sustentabilidade";
   "preferencia_aventura"; "preferencia_cultura"].

Definition preference_fields : list string :=
  ["preferencia_sustentabilidade"; "preferencia_aventura"; "preferencia_cultura"].

(** [profile[field]] once the field is known to be there *)
Definition field_of (profile : gmap string Q) (field : string) : Q :=
  default 0%Q (profile !! field).

Definition validate_user_profile (profile : gmap string Q) : bool :=
  if negb (forallb (fun field => present (profile !! field)) required_fields) then false
  else if negb (Qle_bool 18 (field_of profile "idade")
                && Qle_bool (field_of profile "idade") 100) then false
  else if Qle_bool (field_of profile "orcamento_max") 0 then false
  else forallb (fun field => Qle_bool 0 (field_of profile field)
                             && Qle_bool (field_of profile field) 1)
               preference_fields.

(** A profile that breaks the invariant of the specification: age outside
    [18, 100], budget not strictly positive, or a preference weight outside
    [0, 1]. *)
Definition profile_out_of_range (profile : gmap string Q) : Prop :=
  (exists age, profile !! "idade" = Some age /\ (age < 18 \/ 100 < age)%Q)
  \/ (exists budget, profile !! "orcamento_max" = Some budget /\ (budget <= 0)%Q)
  \/ (exists field weight, In field preference_fields /\
                           profile !! field = Some weight /\
                           (weight < 0 \/ 1 < weight)%Q).

(** ** Rating engine ([MLRecommendationEngine]) *)

(** A fitted [LabelEncoder]: its classes, sorted and distinct. *)
Record LabelEncoder : Type := { classes_ : list string }.

Fixpoint insert_sorted (y : string) (classes : list string) : list string :=
  match classes with
  | [] => [y]
  | c :: rest =>
      if String.eqb y c then classes
      else if String.leb y c then y :: classes
      else c :: insert_sorted y rest
  end.

(** [LabelEncoder().fit(ys)] *)
Definition encoder_fit (ys : list string) : LabelEncoder :=
  {| classes_ := fold_right insert_sorted [] ys |}.

Fixpoint index_of (y : string) (classes : list string) : option nat :=
  match classes with
  | [] => None
  | c :: rest => if String.eqb y c then Some O else S <$> index_of y rest
  end.

(** [encoder.transform([y])[0]] *)
Definition encoder_transform (encoder : LabelEncoder) (y : string) : result Q :=
  match index_of y (classes_ encoder) with
  | Some i => Ok (inject_Z (Z.of_nat i))
  | None => Raise (ValueError "y contains previously unseen labels")
  end.

(** The engine: its data, the fitted scaler, encoders and models (absent
    until fitted), and the number of predictions the rating model has been
    asked for. *)
Record MLEngine : Type := {
  engine_df : option (list Location);
  scaler : option (list Q -> list Q);
  label_encoders : gmap string LabelEncoder;
  rating_model : option (list Q -> Q);
  clustering_model : option (list Q -> Z);
  rating_calls : nat
}.

Definition count_rating_call (engine : MLEngine) : MLEngine := {|
  engine_df := engine_df engine;
  scaler := scaler engine;
  label_encoders := label_encoders engine;
  rating_model := rating_model engine;
  clustering_model := clustering_model engine;
  rating_calls := S (rating_calls engine)
|}.

(** [d[key]] on a dictionary *)
Definition dict_get {V : Type} (d : gmap string V) (key : string) : result V :=
  match d !! key with
  | Some v => Ok v
  | None => Raise (KeyError key)
  end.

(** The feature row of [prever_rating_usuario], built left to right. *)
Definition rating_features (engine : MLEngine) (user_profile : gmap string Q)
    (local : Location) : result (list Q) :=
  let! idade := dict_get user_profile "idade" in
  let! orcamento_max := dict_get user_profile "orcamento_max" in
  let! sustentabilidade := dict_get user_profile "preferencia_sustentabilidade" in
  let! aventura := dict_get user_profile "preferencia_aventura" in
  let! cultura := dict_get user_profile "preferencia_cultura" in
  let! encoder_ecosistema := dict_get (label_encoders engine) "ecosistema" in
  let! ecosistema := encoder_transform encoder_ecosistema (tipo_ecosistema local) in
  let! encoder_provincia := dict_get (label_encoders engine) "provincia" in
  let! provincia_code := encoder_transform encoder_provincia (provincia local) in
  Ok [idade; orcamento_max; sustentabilidade; aventura; cultura;
      inject_Z (fragilidade local); taxa_aoa local; ecosistema; provincia_code].

Definition prever_rating_usuario (engine : MLEngine) (user_profile : gmap string Q)
    (local_id : Z) : result Q * MLEngine :=
  match rating_model engine with
  | None => (Ok 3%Q, engine)
  | Some model =>
      let prepared :=
        let! df := match engine_df engine with
                   | Some df => Ok df
                   | None => Raise AttributeError
                   end in
        let! local := py_get df local_id in
        let! features := rating_features engine user_profile local in
        match scaler engine with
        | Some transform => Ok (transform features)
        | None => Raise NotFittedError
        end in
      match prepared with
      | Ok features_scaled =>
          (Ok (np_clip (model features_scaled) 1 5), count_rating_call engine)
      | Raise e => (Raise e, engine)
      end
  end.

(** An entry of the ranking and of a personalised route: the site, its
    position in the catalogue and the rating predicted for it. *)
Record RatedSite : Type := {
  local_id : Z;
  rating_previsto : Q;
  local : Location
}.

Record PersonalizedRoute : Type := {
  p_nome : string;
  p_locais : list RatedSite;
  p_num_locais : nat;
  p_distancia_total_km : Q;
  p_custo_total_aoa : Q;
  p_rating_medio_previsto : Q;
  p_fragilidade_media : Q;
  p_score_personalizado : Q
}.

Section Personalization.
Variable env : Environment.

(** [_calcular_distancia_rota] *)
Fixpoint _calcular_distancia_rota (rota : list RatedSite) : Q :=
  match rota with
  | a :: ((b :: _) as rest) =>
      (haversine env (latitude (local a), longitude (local a))
                     (latitude (local b), longitude (local b))
       + _calcular_distancia_rota rest)%Q
  | _ => 0%Q
  end.

(** The loop [for idx, local in locais_viaveis.iterrows()]. *)
Fixpoint predict_ratings (engine : MLEngine) (user_profile : gmap string Q)
    (viaveis : list (Z * Location)) (acc : list RatedSite)
    : result (list RatedSite) * MLEngine :=
  match viaveis with
  | [] => (Ok acc, engine)
  | (idx, loc) :: rest =>
      match prever_rating_usuario engine user_profile idx with
      | (Ok rating, engine') =>
          predict_ratings engine' user_profile rest
            (acc ++ [{| local_id := idx; rating_previsto := rating; local := loc |}])
      | (Raise e, engine') => (Raise e, engine')
      end
  end.

(** One pass of the loop [for item in ratings_previstos]; the state is
    [(rota, orcamento_usado, clusters_usados)].  Once the route is full the
    loop is left, which later passes repeat. *)
Definition assemble_step (predict_cluster : list Q -> Z) (orcamento_max : Q) (max_locais : Z)
    (st : list RatedSite * Q * list Z) (item : RatedSite) : list RatedSite * Q * list Z :=
  let '(rota, orcamento_usado, clusters_usados) := st in
  if (max_locais <=? Z.of_nat (length rota))%Z then st
  else
    let loc := local item in
    let cluster_id :=
      predict_cluster [latitude loc; longitude loc; inject_Z (fragilidade loc);
                       inject_Z (capacidade_diaria loc); taxa_aoa loc] in
    if existsb (Z.eqb cluster_id) clusters_usados
       && (Z.of_nat (length rota) <? max_locais / 2)%Z
    then st
    else if Qle_bool (orcamento_usado + taxa_aoa loc) orcamento_max
    then (rota ++ [item], (orcamento_usado + taxa_aoa loc)%Q, clusters_usados ++ [cluster_id])
    else st.

Definition route_info (rotas : list PersonalizedRoute) (rota : list RatedSite)
    (orcamento_usado : Q) : PersonalizedRoute :=
  let rating_medio := np_mean (map rating_previsto rota) in
  let media := np_mean (map (fun l => inject_Z (fragilidade (local l))) rota) in
  {| p_nome := "Rota Personalizada " ++ str_Z (Z.of_nat (length rotas) + 1);
     p_locais := rota;
     p_num_locais := length rota;
     p_distancia_total_km := py_round (_calcular_distancia_rota rota) 2;
     p_custo_total_aoa := orcamento_usado;
     p_rating_medio_previsto := py_round rating_medio 2;
     p_fragilidade_media := py_round media 2;
     p_score_personalizado := py_round (rating_medio - media * 0.2) 2 |}.

(** The loop [for _ in range(n_rotas)]; the state is [(rotas, clusters_usados)]. *)
Fixpoint assemble_routes (k : nat) (predict_cluster : list Q -> Z)
    (ratings_previstos : list RatedSite) (orcamento_max : Q) (max_locais : Z)
    (st : list PersonalizedRoute * list Z) : list PersonalizedRoute :=
  match k with
  | O => fst st
  | S k' =>
      let '(rotas, clusters_usados) := st in
      let '(rota, orcamento_usado, clusters_usados') :=
        fold_left (assemble_step predict_cluster orcamento_max max_locais)
                  ratings_previstos ([], 0%Q, clusters_usados) in
      let rotas' :=
        match rota with
        | [] => rotas
        | _ => rotas ++ [route_info rotas rota orcamento_usado]
        end in
      assemble_routes k' predict_cluster ratings_previstos orcamento_max max_locais
                      (rotas', clusters_usados')
  end.

(** Rows with their positions, as [iterrows] yields them. *)
Definition iterrows (df : list Location) : list (Z * Location) :=
  combine (range (length df)) df.

Definition gerar_rotas_personalizadas (engine : MLEngine) (user_profile : gmap string Q)
    (orcamento_max : Q) (max_locais n_rotas : Z)
    : result (list PersonalizedRoute) * MLEngine :=
  match engine_df engine with
  | None => (Raise TypeError, engine)
  | Some df =>
      let locais_viaveis :=
        List.filter (fun il => Qle_bool (taxa_aoa (snd il)) (orcamento_max * 0.4))
                    (iterrows df) in
      match predict_ratings engine user_profile locais_viaveis [] with
      | (Ok ratings, engine') =>
          let ratings_previstos :=
            sorted_by_key (fun item => (- rating_previsto item)%Q) ratings in
          match clustering_model engine' with
          | Some predict_cluster =>
              (Ok (assemble_routes (Z.to_nat n_rotas) predict_cluster ratings_previstos
                                   orcamento_max max_locais ([], [])),
               engine')
          | None => (Ok [], engine')
          end
      | (Raise e, engine') => (Raise e, engine')
      end
  end.

End Personalization.

(** ** The orchestrating system ([EcoTurismoSystem]) *)

Record EcoTurismoSystem : Type := {
  use_ml : bool;
  ml_engine : option MLEngine;
  df : option DataFrame;
  recommended_routes : list (Route + PersonalizedRoute)
}.

Definition set_engine (system : EcoTurismoSystem) (engine : MLEngine) : EcoTurismoSystem := {|
  use_ml := use_ml system;
  ml_engine := Some engine;
  df := df system;
  recommended_routes := recommended_routes system
|}.

Definition set_routes (system : EcoTurismoSystem) (routes : list (Route + PersonalizedRoute))
    : EcoTurismoSystem := {|
  use_ml := use_ml system;
  ml_engine := ml_engine system;
  df := df system;
  recommended_routes := routes
|}.

Section System.
Variable env : Environment.
(** The training that the method runs when no rating model is there:
    [criar_features_engenharia], [criar_dados_sinteticos_usuarios],
    [treinar_modelo_rating] and [criar_clusters_locais], which run inside
    numpy and scikit-learn; it gives the outcome and the engine as training
    left it. *)
Variable train_models : MLEngine -> result unit * MLEngine.

(** [gerar_rotas_personalizadas_ml] of the top-level [ecoturismo_system.py]
    (its system has the same four attributes, the recommended routes under
    the name [rotas_recomendadas]).  The method [generate_ml_routes] of
    [src/core/ecoturismo_system.py] is not modelled: the statement after its
    [try:] stands at the column of the [try:] itself, so that the module is
    refused with an [IndentationError] when it is imported. *)
Definition gerar_rotas_personalizadas_ml (system : EcoTurismoSystem)
    (user_profile : gmap string Q) (orcamento_max : Q) (max_locais num_rotas : Z)
    : result (list PersonalizedRoute) * EcoTurismoSystem :=
  match (if use_ml system then ml_engine system else None) with
  | None => (Ok [], system)
  | Some engine =>
      match df system with
      | None => (Ok [], system)
      | Some _ =>
          let trained :=
            match rating_model engine with
            | None => train_models engine
            | Some _ => (Ok tt, engine)
            end in
          match trained with
          | (Raise e, engine1) => (Raise e, set_engine system engine1)
          | (Ok _, engine1) =>
              match gerar_rotas_personalizadas env engine1 user_profile orcamento_max
                                               max_locais num_rotas with
              | (Ok rotas_personalizadas, engine2) =>
                  (Ok rotas_personalizadas,
                   set_routes (set_engine system engine2) (map inr rotas_personalizadas))
              | (Raise e, engine2) => (Raise e, set_engine system engine2)
              end
          end
      end
  end.

End System.

(** ** A fitted engine and two profiles, for concrete runs *)

(** The profile of the engine's demonstration run. *)
Definition demo_profile : gmap string Q :=
  list_to_map [("idade", 35%Q); ("orcamento_max", 25000%Q);
               ("preferencia_sustentabilidade", 0.8%Q);
               ("preferencia_aventura", 0.6%Q);
               ("preferencia_cultura", 0.7%Q)].

(** The same profile for a child of ten. *)
Definition child_profile : gmap string Q := <["idade" := 10%Q]> demo_profile.

(** An engine over the self-test catalogue whose ecosystem encoder was
    fitted before the desert site was added: it knows "savana" and
    "floresta" only.  The rating model and the scaler are stand-ins. *)
Definition stale_engine : MLEngine := {|
  engine_df := Some (rows test_catalog);
  scaler := Some (fun features => features);
  label_encoders :=
    list_to_map [("ecosistema", encoder_fit ["savana"; "floresta"]);
                 ("provincia", encoder_fit ["Luanda"; "Malange"; "Namibe"])];
  rating_model := Some (fun _ => 4%Q);
  clustering_model := Some (fun _ => 0%Z);
  rating_calls := 0
|}.

Definition demo_system : EcoTurismoSystem := {|
  use_ml := true;
  ml_engine := Some stale_engine;
  df := Some test_catalog;
  recommended_routes := []
|}.

(** ** Concrete inputs for the statements below *)

(** The coordinates of the calculator's self-test: Luanda, Kalandula, Iona
    and Luando. *)
Definition test_coords : list coord :=
  [((-8.8390)%Q, 13.2894%Q); ((-9.0833)%Q, 16.0167%Q);
   ((-16.7500)%Q, 12.2500%Q); ((-11.5000)%Q, 17.0000%Q)].

(** Two points, the first with a latitude of 91 degrees. *)
Definition off_range_coords : list coord := [(91%Q, 0%Q); (0%Q, 0%Q)].

(** The candidates for the self-test catalogue with a budget of 80000. *)
Definition test_candidates : list Route :=
  fst (fst (generate_routes sample_environment default_config test_catalog
                            (Some 3%Z) (Some 2%Z) (Some 80000%Q) 0%Z)).

Definition empty_route : Route := {|
  route_nome := ""; locais := []; num_locais := 0;
  distancia_total_km := 0; custo_total_aoa := 0; fragilidade_media := 0;
  provincias := []; tipos_ecosistema := []; score := None |}.

Definition test_candidate : Route := nth 0 test_candidates empty_route.




(** ** Notions used by the statements and by the proofs *)

(** [DataFrame.sample] draws distinct positions, as many as it is asked for. *)
Definition samples_without_replacement (env : Environment) : Prop :=
  forall (len n : nat) (seed : Z),
    (n <= len)%nat ->
    NoDup (sample_positions env len n seed) /\
    length (sample_positions env len n seed) = n.

(** The inner loop without its plumbing: [d i] is the distance from the
    current point to point [i]. *)
Definition scan_pure (d : nat -> Q) (visited : list bool) (st : option Q * Z) (i : nat)
    : option Q * Z :=
  match visited !! i with
  | Some false => if below (d i) (fst st) then (Some (d i), Z.of_nat i) else st
  | _ => st
  end.

(** State of the outer loop: what holds of [(route, visited, current)]
    before each iteration. *)
Definition tour_invariant (haversine : coord -> coord -> Q) (coordinates : list coord)
    (start : Z)
    (st : list Z * list bool * Z) : Prop :=
  let '(route, visited, current) := st in
  let n := length coordinates in
  length visited = n /\
  last route = Some current /\
  NoDup route /\
  Forall (fun z => In z (range n)) route /\
  (forall i, (i < n)%nat -> visited !! i = Some true <-> In (Z.of_nat i) route) /\
  greedy_tour haversine coordinates start route.

(** The locations named by a list of indices, in that order. *)
Definition picked (locations : list LocationRecord) (d : LocationRecord) (order : list Z)
    : list LocationRecord :=
  map (fun i => nth (Z.to_nat i) locations d) order.

(** A pool of three scored routes: the best-scored one has no locations and
    fails validation, the two others are well formed. *)
Definition example_route (name : string) (sites : list LocationRecord) (s : Q) : Route := {|
  route_nome := name; locais := sites; num_locais := length sites;
  distancia_total_km := 0; custo_total_aoa := 0; fragilidade_media := 0;
  provincias := []; tipos_ecosistema := []; score := Some s |}.

Definition example_pool : list Route :=
  [ example_route "A" [] 0.1;
    example_route "B" [{| site := site_kissama; site_cluster := 0 |}] 0.2;
    example_route "C" [{| site := site_iona; site_cluster := 0 |}] 0.3 ].

(* ===================================================================== *)
(** * Further parts of the program

    The rest of the geographic calculator and of the route optimiser, the
    traditional route generation of the system with the filters of the
    data processor ([src/core/data_processor.py]) that it calls, and the
    loading of the catalogue by that processor. *)

(** ** More of the geographic calculator *)

(** [np.zeros((n, n))] *)
Definition np_zeros (n : nat) : list (list Q) := replicate n (replicate n 0%Q).

(** [m[i, j] = x] on a two-dimensional array *)
Definition np_set (m : list (list Q)) (i j : Z) (x : Q) : result (list (list Q)) :=
  let! row := py_get m i in
  let! row' := py_set row j x in
  py_set m i row'.

(** [m[i, j]], for positions inside the array *)
Definition matrix_entry (m : list (list Q)) (i j : nat) : option Q :=
  match m !! i with
  | Some row => row !! j
  | None => None
  end.

(** [range(a, b)] *)
Definition range_from (a b : nat) : list Z := map Z.of_nat (seq a (b - a)).

(** [enumerate(xs)] *)
Definition enumerate {A : Type} (xs : list A) : list (Z * A) := combine (range (length xs)) xs.

Section GeographicCalculator.
Variable haversine : coord -> coord -> Q.

(** Body of the inner loop [for j in range(i + 1, n)] of
    [calculate_distance_matrix]. *)
Definition matrix_cell (coordinates : list coord) (i : Z) (distance_matrix : list (list Q))
    (j : Z) : result (list (list Q)) :=
  let! ci := py_get coordinates i in
  let! cj := py_get coordinates j in
  let! distance := calculate_distance haversine ci cj in
  let! filled := np_set distance_matrix i j distance in
  np_set filled j i distance.

(** Body of the outer loop [for i in range(n)]. *)
Definition matrix_row (coordinates : list coord) (n : nat) (distance_matrix : list (list Q))
    (i : Z) : result (list (list Q)) :=
  for_each (matrix_cell coordinates i) (range_from (Z.to_nat i + 1) n) distance_matrix.

Definition calculate_distance_matrix (coordinates : list coord) : result (list (list Q)) :=
  let n := length coordinates in
  for_each (matrix_row coordinates n) (range n) (np_zeros n).

(** [calculate_distance_from_reference], for a calculator built with the
    given reference point. *)
Definition calculate_distance_from_reference (reference_point coordinate : coord)
    : result Q :=
  calculate_distance haversine reference_point coordinate.

(** [find_nearest_points] *)
Definition find_nearest_points (target_coord : coord) (coordinates : list coord) (k : Z)
    : result (list (Z * Q)) :=
  let! distances :=
    for_each (fun distances ic =>
                let! distance := calculate_distance haversine target_coord (snd ic) in
                Ok (distances ++ [(fst ic, distance)]))
             (enumerate coordinates) [] in
  Ok (py_slice_to (sorted_by_key snd distances) k).

End GeographicCalculator.

(** Notions for the proofs about the distance matrix: the pairs [(a, b)],
    [a < b], that the loops have filled once row [i] has reached column [j]. *)
Definition filled (i j a b : nat) : bool :=
  (a <? i)%nat || ((a =? i)%nat && (b <? j)%nat).

Definition matrix_filled (haversine : coord -> coord -> Q) (coordinates : list coord)
    (i j : nat) (m : list (list Q)) : Prop :=
  let n := length coordinates in
  length m = n /\
  Forall (fun row => length row = n) m /\
  forall a b, (a < n)%nat -> (b < n)%nat ->
    matrix_entry m a b
    = Some (if (a =? b)%nat then 0%Q
            else if filled i j (Nat.min a b) (Nat.max a b)
                 then haversine (point coordinates (Z.of_nat (Nat.min a b)))
                                (point coordinates (Z.of_nat (Nat.max a b)))
                 else 0%Q).

(** The order in which [find_nearest_points] lists its pairs
    [(index, distance)]: by distance, and by index among equal distances. *)
Definition closer (x y : Z * Q) : Prop :=
  (snd x < snd y)%Q \/ ((snd x == snd y)%Q /\ (fst x < fst y)%Z).

(** Sorted by a key, the elements of equal key staying in the order
    [before] they had. *)
Definition key_then {A : Type} (key : A -> Q) (before : A -> A -> Prop) (x y : A) : Prop :=
  (key x < key y)%Q \/ ((key x == key y)%Q /\ before x y).

(** Two outcomes that agree: the same error, or values related by [R]. *)
Definition outcomes_agree {S : Type} (R : S -> S -> Prop) (m1 m2 : result S) : Prop :=
  match m1, m2 with
  | Ok a, Ok b => R a b
  | Raise e1, Raise e2 => e1 = e2
  | _, _ => False
  end.

(** Two states of the tour's outer loop that differ only in the name given
    to the starting point. *)
Definition same_tour (coordinates : list coord) (start1 start2 : Z)
    (s1 s2 : list Z * list bool * Z) : Prop :=
  let '(route1, visited1, current1) := s1 in
  let '(route2, visited2, current2) := s2 in
  visited1 = visited2 /\
  py_get coordinates current1 = py_get coordinates current2 /\
  exists tail, route1 = start1 :: tail /\ route2 = start2 :: tail.

(** ** Configuration of the data ([DataConfig]) and user profiles *)

(** [config.data] *)
Record DataConfig : Type := {
  min_fragilidade : Z;
  max_fragilidade : Z;
  fragilidade_sustentavel : Z;
  luanda_coords : coord
}.

Definition default_data_config : DataConfig := {|
  min_fragilidade := 1;
  max_fragilidade := 5;
  fragilidade_sustentavel := 4;
  luanda_coords := ((-8.8390)%Q, 13.2894%Q)
|}.

(** What [validate_user_profile] accepts, in the words of its tests. *)
Definition profile_in_range (profile : gmap string Q) : Prop :=
  exists idade orcamento_max sustentabilidade aventura cultura,
    profile !! "idade" = Some idade /\
    profile !! "orcamento_max" = Some orcamento_max /\
    profile !! "preferencia_sustentabilidade" = Some sustentabilidade /\
    profile !! "preferencia_aventura" = Some aventura /\
    profile !! "preferencia_cultura" = Some cultura /\
    (18 <= idade <= 100)%Q /\
    (0 < orcamento_max)%Q /\
    (0 <= sustentabilidade <= 1)%Q /\
    (0 <= aventura <= 1)%Q /\
    (0 <= cultura <= 1)%Q.

(** ** More of the route optimiser *)

Section OptimizerMore.
Variable env : Environment.

(** [optimize_existing_route]: the locations in the order of the tour, or
    as they were given when there is at most one or when anything raises. *)
Definition optimize_existing_route (locations : list LocationRecord)
    : list LocationRecord :=
  if (length locations <=? 1)%nat then locations
  else
    except_return
      (let! optimized_indices :=
         nearest_neighbor_route (haversine env) (coordinates_of locations) 0 in
       for_each (fun acc i => let! loc := py_get locations i in Ok (acc ++ [loc]))
                optimized_indices [])
      locations.

End OptimizerMore.

(** The length of a path through the given points, in their order. *)
Fixpoint path_length (haversine : coord -> coord -> Q) (points : list coord) : Q :=
  match points with
  | a :: ((b :: _) as rest) => (haversine a b + path_length haversine rest)%Q
  | _ => 0%Q
  end.

(** The all-zero labelling that the optimiser falls back on. *)
Definition single_cluster (df : DataFrame) : list Z := map (fun _ => 0%Z) (rows df).

(** ** Notions for the personalised routes *)

(** The fees of the sites of a personalised route. *)
Definition fees (rota : list RatedSite) : list Q := map (fun item => taxa_aoa (local item)) rota.

(** The coordinates of the sites of a personalised route. *)
Definition coordinates_of_rota (rota : list RatedSite) : list coord :=
  map (fun item => (latitude (local item), longitude (local item))) rota.

(** The cluster the clustering model assigns to a site. *)
Definition cluster_of (predict_cluster : list Q -> Z) (loc : Location) : Z :=
  predict_cluster [latitude loc; longitude loc; inject_Z (fragilidade loc);
                   inject_Z (capacidade_diaria loc); taxa_aoa loc].

(** What holds of a personalised route assembled from the ranking [items]. *)
Definition personal_route_ok (orcamento_max : Q) (max_locais : Z) (items : list RatedSite)
    (r : PersonalizedRoute) : Prop :=
  p_locais r <> [] /\
  sublist (p_locais r) items /\
  (Z.of_nat (length (p_locais r)) <= max_locais)%Z /\
  p_num_locais r = length (p_locais r) /\
  p_custo_total_aoa r = Qsum (fees (p_locais r)) /\
  (p_custo_total_aoa r <= orcamento_max)%Q.

(** ** More of the orchestrating system *)

(** The data processor: its processed frame, absent until [load_data]. *)
Record DataProcessor : Type := { processor_df : option (list Location) }.

(** [get_sustainable_locations]; subscripting the absent frame raises
    [TypeError]. *)
Definition get_sustainable_locations (data : DataConfig) (processor : DataProcessor)
    (max_fragility : option Z) : result (list Location) :=
  let max_fragility := default (fragilidade_sustentavel data) max_fragility in
  match processor_df processor with
  | Some df_rows => Ok (List.filter (fun r => (fragilidade r <=? max_fragility)%Z) df_rows)
  | None => Raise TypeError
  end.

(** [get_locations_by_budget] *)
Definition get_locations_by_budget (processor : DataProcessor) (max_budget : Q)
    : result (list Location) :=
  match processor_df processor with
  | Some df_rows => Ok (List.filter (fun r => Qle_bool (taxa_aoa r) max_budget) df_rows)
  | None => Raise TypeError
  end.

Definition option_Q_eqb (a b : option Q) : bool :=
  match a, b with
  | Some x, Some y => Qeq_bool x y
  | None, None => true
  | _, _ => false
  end.

(** Two rows that agree on every column. *)
Definition location_eqb (a b : Location) : bool :=
  String.eqb (nome a) (nome b) && String.eqb (provincia a) (provincia b)
  && Qeq_bool (latitude a) (latitude b) && Qeq_bool (longitude a) (longitude b)
  && (fragilidade a =? fragilidade b)%Z && (capacidade_diaria a =? capacidade_diaria b)%Z
  && Qeq_bool (taxa_aoa a) (taxa_aoa b)
  && String.eqb (tipo_ecosistema a) (tipo_ecosistema b)
  && String.eqb (descricao a) (descricao b)
  && option_Q_eqb (sustentabilidade_score a) (sustentabilidade_score b)
  && option_Q_eqb (atratividade_score a) (atratividade_score b).

(** [pd.merge(left, right, how='inner')] of two frames with the same
    columns: the join is on all of them, so that each row of [left] comes
    once for every row of [right] that equals it, in the order of [left]. *)
Definition merge_inner (left right : list Location) : list Location :=
  flat_map (fun l => map (fun _ => l) (List.filter (location_eqb l) right)) left.

Section TraditionalRoutes.
Variable env : Environment.
Variable config : Config.
Variable data : DataConfig.

(** [generate_traditional_routes]: the outcome, the system and the random
    generator after the call. *)
Definition generate_traditional_routes (system : EcoTurismoSystem) (processor : DataProcessor)
    (max_budget : option Q) (max_locations max_fragility num_routes : option Z)
    (g : rng env) : result (list Route) * EcoTurismoSystem * rng env :=
  match df system with
  | None => (Raise (ValueError "Dados nao carregados"), system, g)
  | Some _ =>
      let max_budget := py_or_Q max_budget (default_max_budget (route config)) in
      let max_locations := py_or_Z max_locations (default_max_locations (route config)) in
      let max_fragility := py_or_Z max_fragility (default_max_fragility (route config)) in
      let num_routes := py_or_Z num_routes (default_num_routes (route config)) in
      match get_sustainable_locations data processor (Some max_fragility) with
      | Raise e => (Raise e, system, g)
      | Ok [] => (Ok [], system, g)
      | Ok sustainable_df =>
          match get_locations_by_budget processor max_budget with
          | Raise e => (Raise e, system, g)
          | Ok [] => (Ok [], system, g)
          | Ok budget_df =>
              match merge_inner sustainable_df budget_df with
              | [] => (Ok [], system, g)
              | filtered_df =>
                  let '(routes, _, g') :=
                    generate_routes env config {| rows := filtered_df; cluster := None |}
                                    (Some max_locations) (Some num_routes) (Some max_budget)
                                    g in
                  (Ok routes, set_routes system (map inl routes), g')
              end
          end
      end
  end.

End TraditionalRoutes.

(** ** The data processor ([DataProcessor.load_data])

    The frame is the one that [pd.read_csv] returned: the nine required
    columns, the four text columns holding strings and the five numeric
    columns holding numbers or blanks, each numeric column with the dtype
    that pandas gave it.  A float is read as the rational it denotes, or is
    NaN or an infinity. *)

(** A cell of a numeric column: a number, NaN (a blank cell of the file, or
    0/0), or an infinity. *)
Inductive cell : Type :=
| Num (q : Q)
| NaN
| Inf (positive : bool).

(** [c < q], [c > q], [c <= q] and [c >= q] against a number; a comparison
    with NaN is false. *)
Definition cell_lt (c : cell) (q : Q) : bool :=
  match c with
  | Num x => Qltb x q
  | NaN => false
  | Inf s => negb s
  end.

Definition cell_gt (c : cell) (q : Q) : bool :=
  match c with
  | Num x => Qltb q x
  | NaN => false
  | Inf s => s
  end.

Definition cell_le (c : cell) (q : Q) : bool :=
  match c with
  | Num x => Qle_bool x q
  | NaN => false
  | Inf s => negb s
  end.

Definition cell_ge (c : cell) (q : Q) : bool :=
  match c with
  | Num x => Qle_bool q x
  | NaN => false
  | Inf s => s
  end.

(** [isnull] *)
Definition cell_isnull (c : cell) : bool :=
  match c with
  | NaN => true
  | _ => false
  end.

(** [a - c + b] for two numbers [a] and [b] *)
Definition cell_rsub_add (a : Q) (c : cell) (b : Q) : cell :=
  match c with
  | Num q => Num (a - q + b)
  | NaN => NaN
  | Inf s => Inf (negb s)
  end.

(** [x / y] on floats, as numpy and pandas compute it: a division by zero
    gives an infinity, or NaN for 0/0. *)
Definition cell_div (x y : cell) : cell :=
  match x, y with
  | NaN, _ | _, NaN => NaN
  | Inf _, Inf _ => NaN
  | Num _, Inf _ => Num 0
  | Inf s, Num b => Inf (if Qltb b 0 then negb s else s)
  | Num a, Num b =>
      if Qeq_bool b 0 then (if Qeq_bool a 0 then NaN else Inf (Qltb 0 a))
      else Num (a / b)
  end.

(** [w * c] *)
Definition cell_scale (w : Q) (c : cell) : cell :=
  match c with
  | Num q => Num (w * q)
  | NaN => NaN
  | Inf s => if Qeq_bool w 0 then NaN else Inf (if Qltb 0 w then s else negb s)
  end.

(** [1 - c] *)
Definition cell_one_minus (c : cell) : cell :=
  match c with
  | Num q => Num (1 - q)
  | NaN => NaN
  | Inf s => Inf (negb s)
  end.

(** [a + b] *)
Definition cell_add (a b : cell) : cell :=
  match a, b with
  | Num x, Num y => Num (x + y)
  | NaN, _ | _, NaN => NaN
  | Inf s, Num _ | Num _, Inf s => Inf s
  | Inf s, Inf t => if Bool.eqb s t then Inf s else NaN
  end.

(** The greater and the lesser of two cells that are not NaN. *)
Definition cell_max (a b : cell) : cell :=
  match a, b with
  | Num x, Num y => if Qltb x y then b else a
  | Inf true, _ | _, Inf false => a
  | _, _ => b
  end.

Definition cell_min (a b : cell) : cell :=
  match a, b with
  | Num x, Num y => if Qltb y x then b else a
  | Inf false, _ | _, Inf true => a
  | _, _ => b
  end.

(** [series.max()] and [series.min()]: NaN cells are skipped, and a column
    with no other cell gives NaN. *)
Definition column_max (column : list cell) : cell :=
  match List.filter (fun c => negb (cell_isnull c)) column with
  | [] => NaN
  | c :: rest => fold_left cell_max rest c
  end.

Definition column_min (column : list cell) : cell :=
  match List.filter (fun c => negb (cell_isnull c)) column with
  | [] => NaN
  | c :: rest => fold_left cell_min rest c
  end.

(** A row of the catalogue as it was read. *)
Record CatalogueRow : Type := {
  raw_nome : string;
  raw_provincia : string;
  raw_latitude : cell;
  raw_longitude : cell;
  raw_fragilidade : cell;
  raw_capacidade_diaria : cell;
  raw_taxa_aoa : cell;
  raw_tipo_ecosistema : string;
  raw_descricao : string
}.

(** The numeric columns of the file, and the frame: its rows, and which of
    these columns pandas typed float64 (the others are int64). *)
Inductive NumericColumn : Type :=
| col_latitude | col_longitude | col_fragilidade | col_capacidade_diaria | col_taxa_aoa.

Record Catalogue : Type := {
  catalogue_rows : list CatalogueRow;
  is_float64 : NumericColumn -> bool
}.

(** [config.ml.feature_weights] *)
Record FeatureWeights : Type := {
  w_sustentabilidade : Q;
  w_capacidade : Q;
  w_popularidade : Q;
  w_acessibilidade : Q;
  w_custo : Q
}.

Definition default_feature_weights : FeatureWeights := {|
  w_sustentabilidade := 0.3;
  w_capacidade := 0.2;
  w_popularidade := 0.2;
  w_acessibilidade := 0.2;
  w_custo := 0.1
|}.

(** A row of the processed frame: the row of the catalogue and the columns
    that [_create_derived_features] adds. *)
Record ProcessedRow : Type := {
  base : CatalogueRow;
  distancia_luanda : cell;
  row_sustentabilidade_score : cell;
  capacidade_relativa : cell;
  custo_relativo : cell;
  acessibilidade_score : cell;
  row_atratividade_score : cell
}.

(** *** The validators *)

(** [validate_dataframe_structure]: the frame is not empty; it has the
    required columns. *)
Definition validate_dataframe_structure (df_rows : list CatalogueRow) : bool :=
  match df_rows with
  | [] => false
  | _ => true
  end.

(** [validate_value_ranges]: each test looks for a row out of range; a NaN
    cell is out of no range. *)
Definition validate_value_ranges (data : DataConfig) (df_rows : list CatalogueRow) : bool :=
  if existsb (fun r => cell_lt (raw_fragilidade r) (inject_Z (min_fragilidade data))
                       || cell_gt (raw_fragilidade r) (inject_Z (max_fragilidade data)))
             df_rows
  then false
  else if existsb (fun r => cell_lt (raw_latitude r) (-90) || cell_gt (raw_latitude r) 90)
                  df_rows
  then false
  else if existsb (fun r => cell_lt (raw_longitude r) (-180) || cell_gt (raw_longitude r) 180)
                  df_rows
  then false
  else if existsb (fun r => cell_le (raw_capacidade_diaria r) 0) df_rows then false
  else if existsb (fun r => cell_le (raw_taxa_aoa r) 0) df_rows then false
  else true.

(** [validate_data_types]: the five numeric columns are numeric and the
    four text columns hold strings, in every frame here. *)
Definition validate_data_types (df_rows : list CatalogueRow) : bool := true.

(** [validate_critical_nulls]: no null in the name and the province, which
    are strings here, nor in the coordinates and the fragility. *)
Definition validate_critical_nulls (df_rows : list CatalogueRow) : bool :=
  negb (existsb (fun r => cell_isnull (raw_latitude r)) df_rows)
  && negb (existsb (fun r => cell_isnull (raw_longitude r)) df_rows)
  && negb (existsb (fun r => cell_isnull (raw_fragilidade r)) df_rows).

(** [validate_geographic_consistency]: sites outside Angola are logged, not
    refused. *)
Definition validate_geographic_consistency (df_rows : list CatalogueRow) : bool := true.

(** [validate_data_content] *)
Definition validate_data_content (data : DataConfig) (df_rows : list CatalogueRow) : bool :=
  if negb (validate_value_ranges data df_rows) then false
  else if negb (validate_data_types df_rows) then false
  else if negb (validate_critical_nulls df_rows) then false
  else if negb (validate_geographic_consistency df_rows) then false
  else true.

(** [(df[col] < 0) | (df[col] > 1)] *)
Definition out_of_unit (c : cell) : bool := cell_lt c 0 || cell_gt c 1.

(** [validate_derived_features] on the processed frame. *)
Definition validate_derived_features (data : DataConfig) (processed : list ProcessedRow)
    : bool :=
  if existsb (fun p => cell_lt (row_sustentabilidade_score p) 0
                       || cell_gt (row_sustentabilidade_score p)
                                  (inject_Z (max_fragilidade data))) processed
  then false
  else if existsb (fun p => out_of_unit (capacidade_relativa p)) processed then false
  else if existsb (fun p => out_of_unit (custo_relativo p)) processed then false
  else if existsb (fun p => out_of_unit (acessibilidade_score p)) processed then false
  else if existsb (fun p => out_of_unit (row_atratividade_score p)) processed then false
  else true.

(** *** The processor *)

(** [np.finfo(np.float32).max] *)
Definition FLOAT32_MAX : Q := inject_Z 340282346638528859811704183484516925440.

(** The binary exponent of a number that is not zero: the [e] with
    [2 ^ e <= |q| < 2 ^ (e + 1)]. *)
Definition binary_exponent (q : Q) : Z :=
  let a := Qabs q in
  if Qle_bool 1 a then Z.log2 (Qfloor a) else (- Z.log2_up (Qceiling (/ a)))%Z.

(** [astype('float32')] on a number within the range of float32: the
    nearest number with a significand of 24 bits, ties to the even one;
    below [2 ^ -126] the numbers of the format are [2 ^ -149] apart. *)
Definition float32 (q : Q) : Q :=
  if Qeq_bool q 0 then 0
  else
    let ulp := (2 ^ (Z.max (binary_exponent q) (-126) - 23))%Q in
    inject_Z (round_half_even (q / ulp)) * ulp.

(** The coordinates of a row are validated as [_validate_coordinates] does
    it: a cell that is no number is within no range. *)
Definition _validate_cell_coordinates (lat lon : cell) : result coord :=
  match lat with
  | Num la =>
      if negb (Qle_bool (-90) la && Qle_bool la 90)
      then Raise (ValueError "Latitude invalida")
      else match lon with
           | Num lo =>
               if negb (Qle_bool (-180) lo && Qle_bool lo 180)
               then Raise (ValueError "Longitude invalida")
               else Ok (la, lo)
           | _ => Raise (ValueError "Longitude invalida")
           end
  | _ => Raise (ValueError "Latitude invalida")
  end.

(** [astype('float32')] on a cell *)
Definition cell_float32 (c : cell) : cell :=
  match c with
  | Num q => Num (float32 q)
  | _ => c
  end.

Section Processor.
Variable haversine : coord -> coord -> Q.
Variable data : DataConfig.
Variable weights : FeatureWeights.
(** [str.strip] and [str.title] *)
Variable str_strip : string -> string.
Variable str_title : string -> string.
(** The frame after the loop of [_handle_missing_values] over the numeric
    columns that hold nulls, [self.df[col].fillna(median, inplace=True)]:
    whether the frame takes the values depends on the version of pandas
    (the call is a chained assignment). *)
Variable fill_numeric_nulls : list CatalogueRow -> list CatalogueRow.

Definition has_null (r : CatalogueRow) : bool :=
  cell_isnull (raw_latitude r) || cell_isnull (raw_longitude r)
  || cell_isnull (raw_fragilidade r) || cell_isnull (raw_capacidade_diaria r)
  || cell_isnull (raw_taxa_aoa r).

(** [_handle_missing_values]; the text columns hold no null once
    [astype(str)] went over them. *)
Definition _handle_missing_values (df_rows : list CatalogueRow) : list CatalogueRow :=
  if existsb has_null df_rows then fill_numeric_nulls df_rows else df_rows.

(** The text columns of a row after [_clean_data]: stripped, names and
    provinces put in title case. *)
Definition clean_row (r : CatalogueRow) : CatalogueRow := {|
  raw_nome := str_title (str_strip (raw_nome r));
  raw_provincia := str_title (str_strip (raw_provincia r));
  raw_latitude := raw_latitude r;
  raw_longitude := raw_longitude r;
  raw_fragilidade := raw_fragilidade r;
  raw_capacidade_diaria := raw_capacidade_diaria r;
  raw_taxa_aoa := raw_taxa_aoa r;
  raw_tipo_ecosistema := str_strip (raw_tipo_ecosistema r);
  raw_descricao := str_strip (raw_descricao r)
|}.

Definition _clean_data (df_rows : list CatalogueRow) : list CatalogueRow :=
  _handle_missing_values (map clean_row df_rows).

(** [geo_calc.calculate_distance_from_reference((row['latitude'],
    row['longitude']))]: the reference point is validated first. *)
Definition distance_of_row (r : CatalogueRow) : result Q :=
  let! _ := _validate_coordinates (luanda_coords data) in
  let! coordinate := _validate_cell_coordinates (raw_latitude r) (raw_longitude r) in
  Ok (haversine (luanda_coords data) coordinate).

(** The derived columns of one row. *)
Definition derive_row (max_capacidade max_custo max_distancia : cell) (r : CatalogueRow)
    (distancia : Q) : ProcessedRow :=
  let sustentabilidade :=
    cell_rsub_add (inject_Z (max_fragilidade data)) (raw_fragilidade r) 1 in
  let capacidade := cell_div (raw_capacidade_diaria r) max_capacidade in
  let custo := cell_div (raw_taxa_aoa r) max_custo in
  let acessibilidade := cell_one_minus (cell_div (Num distancia) max_distancia) in
  {| base := r;
     distancia_luanda := Num distancia;
     row_sustentabilidade_score := sustentabilidade;
     capacidade_relativa := capacidade;
     custo_relativo := custo;
     acessibilidade_score := acessibilidade;
     row_atratividade_score :=
       cell_add
         (cell_add
            (cell_add (cell_scale (w_sustentabilidade weights) sustentabilidade)
                      (cell_scale (w_capacidade weights) capacidade))
            (cell_scale (w_acessibilidade weights) acessibilidade))
         (cell_scale (w_custo weights) (cell_one_minus custo)) |}.

(** [_create_derived_features] *)
Definition _create_derived_features (df_rows : list CatalogueRow)
    : result (list ProcessedRow) :=
  let! distances :=
    for_each (fun acc r => let! d := distance_of_row r in Ok (acc ++ [d])) df_rows [] in
  let max_capacidade := column_max (map raw_capacidade_diaria df_rows) in
  let max_custo := column_max (map raw_taxa_aoa df_rows) in
  let max_distancia := column_max (map Num distances) in
  Ok (map (fun rd => derive_row max_capacidade max_custo max_distancia (fst rd) (snd rd))
          (combine df_rows distances)).

(** The test of [_optimize_data_types] on a float64 column: its least and
    its greatest cell are within the range of float32. *)
Definition fits_float32 (column : list cell) : bool :=
  cell_ge (column_min column) (- FLOAT32_MAX) && cell_le (column_max column) FLOAT32_MAX.

(** The cell of a column after [_optimize_data_types]: converted when the
    column is float64 and fits. *)
Definition optimized {R : Type} (float64 : bool) (column : R -> cell) (frame : list R)
    (r : R) : cell :=
  if float64 && fits_float32 (map column frame) then cell_float32 (column r) else column r.

(** [_optimize_data_types]: the two categorical columns keep their values;
    a derived column is float64, but for the sustainability score, which
    has the dtype of the fragility. *)
Definition _optimize_data_types (float64 : NumericColumn -> bool)
    (processed : list ProcessedRow) : list ProcessedRow :=
  let cell_of (column : CatalogueRow -> cell) (p : ProcessedRow) := column (base p) in
  map (fun p =>
         {| base :=
              {| raw_nome := raw_nome (base p);
                 raw_provincia := raw_provincia (base p);
                 raw_latitude :=
                   optimized (float64 col_latitude) (cell_of raw_latitude) processed p;
                 raw_longitude :=
                   optimized (float64 col_longitude) (cell_of raw_longitude) processed p;
                 raw_fragilidade :=
                   optimized (float64 col_fragilidade) (cell_of raw_fragilidade) processed p;
                 raw_capacidade_diaria :=
                   optimized (float64 col_capacidade_diaria) (cell_of raw_capacidade_diaria)
                             processed p;
                 raw_taxa_aoa :=
                   optimized (float64 col_taxa_aoa) (cell_of raw_taxa_aoa) processed p;
                 raw_tipo_ecosistema := raw_tipo_ecosistema (base p);
                 raw_descricao := raw_descricao (base p) |};
            distancia_luanda := optimized true distancia_luanda processed p;
            row_sustentabilidade_score :=
              optimized (float64 col_fragilidade) row_sustentabilidade_score processed p;
            capacidade_relativa := optimized true capacidade_relativa processed p;
            custo_relativo := optimized true custo_relativo processed p;
            acessibilidade_score := optimized true acessibilidade_score processed p;
            row_atratividade_score := optimized true row_atratividade_score processed p |})
      processed.

(** [_validate_processed_data] *)
Definition _validate_processed_data (processed : list ProcessedRow) : result unit :=
  if negb (validate_value_ranges data (map base processed))
  then Raise (ValueError "Ranges de valores invalidos")
  else if negb (validate_derived_features data processed)
  then Raise (ValueError "Features derivadas inconsistentes")
  else Ok tt.

(** [_process_loaded_data] *)
Definition _process_loaded_data (df : Catalogue) : result (list ProcessedRow) :=
  let cleaned := _clean_data (catalogue_rows df) in
  let! derived := _create_derived_features cleaned in
  let processed := _optimize_data_types (is_float64 df) derived in
  let! _ := _validate_processed_data processed in
  Ok processed.

(** [load_data], from the frame read from the file on. *)
Definition load_data (df : Catalogue) : result (list ProcessedRow) :=
  if negb (validate_dataframe_structure (catalogue_rows df))
  then Raise (ValueError "Estrutura dos dados invalida")
  else if negb (validate_data_content data (catalogue_rows df))
  then Raise (ValueError "Conteudo dos dados invalido")
  else _process_loaded_data df.

End Processor.

(** A cell that holds a number, and a row whose five numeric cells do. *)
Definition is_number (c : cell) : bool :=
  match c with
  | Num _ => true
  | _ => false
  end.

Definition complete_row (r : CatalogueRow) : bool :=
  is_number (raw_latitude r) && is_number (raw_longitude r)
  && is_number (raw_fragilidade r) && is_number (raw_capacidade_diaria r)
  && is_number (raw_taxa_aoa r).

(** *** The self-test catalogue as a file would give it

    The coordinates are read as float64; the fragilities, the capacities
    and the fees, written as whole numbers, as int64. *)

Definition catalogue_row_of (l : Location) : CatalogueRow := {|
  raw_nome := nome l;
  raw_provincia := provincia l;
  raw_latitude := Num (latitude l);
  raw_longitude := Num (longitude l);
  raw_fragilidade := Num (inject_Z (fragilidade l));
  raw_capacidade_diaria := Num (inject_Z (capacidade_diaria l));
  raw_taxa_aoa := Num (taxa_aoa l);
  raw_tipo_ecosistema := tipo_ecosistema l;
  raw_descricao := descricao l
|}.

Definition test_catalogue_file : Catalogue := {|
  catalogue_rows := map catalogue_row_of (rows test_catalog);
  is_float64 := fun column =>
    match column with
    | col_latitude | col_longitude => true
    | _ => false
    end
|}.

(** The same file with every cell of the capacity column left blank: the
    column is read as float64 and holds NaN only. *)
Definition blank_capacity_file : Catalogue := {|
  catalogue_rows :=
    map (fun l =>
           let r := catalogue_row_of l in
           {| raw_nome := raw_nome r;
              raw_provincia := raw_provincia r;
              raw_latitude := raw_latitude r;
              raw_longitude := raw_longitude r;
              raw_fragilidade := raw_fragilidade r;
              raw_capacidade_diaria := NaN;
              raw_taxa_aoa := raw_taxa_aoa r;
              raw_tipo_ecosistema := raw_tipo_ecosistema r;
              raw_descricao := raw_descricao r |})
        (rows test_catalog);
  is_float64 := fun column =>
    match column with
    | col_latitude | col_longitude | col_capacidade_diaria => true
    | _ => false
    end
|}.

(** ** Concrete inputs for the further statements *)

(** The processor once the self-test catalogue is its frame. *)
Definition demo_processor : DataProcessor :=
  {| processor_df := Some (rows test_catalog) |}.

(** Two rated sites of the self-test catalogue. *)
Definition demo_rota : list RatedSite :=
  [ {| local_id := 0; rating_previsto := 4; local := site_kissama |};
    {| local_id := 1; rating_previsto := 4; local := site_kalandula |} ].

(** The personalised routes of the demonstration profile with a budget of
    70000, which leaves out the desert site that the encoder does not know. *)
Definition demo_personal_run : result (list PersonalizedRoute) * MLEngine :=
  gerar_rotas_personalizadas sample_environment stale_engine demo_profile 70000 3 2.

Definition demo_personal_routes : list PersonalizedRoute :=
  match fst demo_personal_run with
  | Ok routes => routes
  | Raise _ => []
  end.

(** The traditional routes of the system over the self-test catalogue. *)
Definition demo_traditional_run : result (list Route) * EcoTurismoSystem * Z :=
  generate_traditional_routes sample_environment default_config default_data_config
                              demo_system demo_processor
                              (Some 80000%Q) (Some 3%Z) (Some 4%Z) (Some 2%Z) 0%Z.

Definition demo_traditional_routes : list Route :=
  match fst (fst demo_traditional_run) with
  | Ok routes => routes
  | Raise _ => []
  end.

(* ===================================================================== *)
(** * Properties *)

(** ** The definitions at work *)

Example py_round_half_even :
  (py_round 0.125 2, py_round 2.5 0, py_round 3.5 0, py_round (-1.5) 0)
  = (0.12%Q, 2%Q, 4%Q, (-2)%Q).
Proof. reflexivity. Qed.

Example py_slice_to_negative : py_slice_to [1; 2; 3]%Z (-1) = [1; 2]%Z.
Proof. reflexivity. Qed.

Example nearest_neighbor_route_test_coords :
  nearest_neighbor_route (haversine sample_environment) test_coords 0
  = Ok [0; 1; 3; 2]%Z.
Proof. reflexivity. Qed.

Example nearest_neighbor_route_from_the_end :
  nearest_neighbor_route (haversine sample_environment) test_coords (-1)
  = Ok [-1; 1; 0; 2]%Z.
Proof. reflexivity. Qed.

Example nearest_neighbor_route_past_the_end :
  nearest_neighbor_route (haversine sample_environment) test_coords 4 = Raise IndexError.
Proof. reflexivity. Qed.

Example test_candidates_summary :
  map (fun r => (route_nome r, map (fun loc => nome (site loc)) (locais r),
                 custo_total_aoa r, fragilidade_media r))
      test_candidates
  = [("Rota Cluster 1 - 3 locais",
      ["Parque Nacional da Kissama"; "Cascatas de Kalandula"; "Parque Nacional de Iona"],
      70000%Q, 3.00%Q)].
Proof. reflexivity. Qed.

Example validate_user_profile_examples :
  (validate_user_profile demo_profile, validate_user_profile child_profile,
   validate_user_profile (delete "idade" demo_profile))
  = (true, false, false).
Proof. reflexivity. Qed.

Example encoder_fit_sorts :
  classes_ (encoder_fit ["savana"; "floresta"; "deserto"; "savana"])
  = ["deserto"; "floresta"; "savana"].
Proof. reflexivity. Qed.

(** ** Python sequences *)

Lemma py_position_nat (n i : nat) :
  (i < n)%nat -> py_position n (Z.of_nat i) = Some i.
Proof.
  intros Hi. unfold py_position.
  destruct (Z.ltb_spec (Z.of_nat i) 0); [lia|].
  destruct (Z.ltb_spec (Z.of_nat i) 0); [lia|].
  destruct (Z.leb_spec (Z.of_nat n) (Z.of_nat i)); [lia|].
  simpl. now rewrite Nat2Z.id.
Qed.

Lemma py_get_nat {A : Type} (l : list A) (i : nat) (x : A) :
  l !! i = Some x -> py_get l (Z.of_nat i) = Ok x.
Proof.
  intros Hx. unfold py_get.
  rewrite py_position_nat by (eapply lookup_lt_Some; eauto).
  now rewrite Hx.
Qed.

Lemma py_set_nat {A : Type} (l : list A) (i : nat) (x : A) :
  (i < length l)%nat -> py_set l (Z.of_nat i) x = Ok (<[i := x]> l).
Proof.
  intros Hi. unfold py_set. now rewrite py_position_nat.
Qed.

Lemma in_range (n : nat) (z : Z) :
  In z (range n) <-> (0 <= z < Z.of_nat n)%Z.
Proof.
  unfold range. rewrite in_map_iff. split.
  - intros (i & <- & Hi). apply in_seq in Hi. lia.
  - intros Hz. exists (Z.to_nat z). split; [lia|]. apply in_seq. lia.
Qed.

Lemma point_lookup (coordinates : list coord) (i : nat) (c : coord) :
  coordinates !! i = Some c -> point coordinates (Z.of_nat i) = c.
Proof.
  intros Hc. unfold point. rewrite Nat2Z.id. now apply nth_lookup_Some.
Qed.

(** ** Rational comparisons *)

Ltac qlra := Lqa.lra.
Ltac rlra := Lra.lra.

Lemma Qltb_lt (x y : Q) : Qltb x y = true <-> (x < y)%Q.
Proof.
  unfold Qltb. rewrite negb_true_iff. split.
  - intros H. apply Qnot_le_lt. intros Hle.
    apply Qle_bool_iff in Hle. congruence.
  - intros H. destruct (Qle_bool y x) eqn:E; [|reflexivity].
    apply Qle_bool_iff in E. apply Qlt_not_le in H. contradiction.
Qed.

Lemma Qltb_ge (x y : Q) : Qltb x y = false <-> (y <= x)%Q.
Proof.
  unfold Qltb. rewrite negb_false_iff. apply Qle_bool_iff.
Qed.

(** ** The nearest-neighbour tour *)

Section GeographicFacts.
Variable haversine : coord -> coord -> Q.

Lemma calculate_distance_valid {D : Type} (h : coord -> coord -> D) (c1 c2 : coord) :
  valid_coord c1 -> valid_coord c2 -> calculate_distance h c1 c2 = Ok (h c1 c2).
Proof.
  unfold valid_coord, calculate_distance. intros -> ->. reflexivity.
Qed.

Lemma nearest_scan_pure (coordinates : list coord) (visited : list bool) (cur : nat) :
  Forall valid_coord coordinates ->
  length visited = length coordinates ->
  (cur < length coordinates)%nat ->
  forall (idx : list nat) (st : option Q * Z),
    Forall (fun i => (i < length coordinates)%nat) idx ->
    for_each (nearest_scan haversine coordinates visited (Z.of_nat cur))
             (map Z.of_nat idx) st
    = Ok (fold_left
            (scan_pure (fun i => haversine (point coordinates (Z.of_nat cur))
                                           (point coordinates (Z.of_nat i))) visited)
            idx st).
Proof.
  intros Hvalid Hlen Hcur idx.
  induction idx as [|i idx IH]; intros st Hidx; [reflexivity|].
  inversion Hidx as [|? ? Hi Hidx']; subst.
  cbn [map for_each fold_left].
  destruct (lookup_lt_is_Some_2 visited i ltac:(lia)) as [v Hv].
  destruct (lookup_lt_is_Some_2 coordinates i Hi) as [ci Hci].
  destruct (lookup_lt_is_Some_2 coordinates cur Hcur) as [cc Hcc].
  assert (Hstep : nearest_scan haversine coordinates visited (Z.of_nat cur) st (Z.of_nat i)
                  = Ok (scan_pure (fun i => haversine (point coordinates (Z.of_nat cur))
                                           (point coordinates (Z.of_nat i))) visited st i)).
  { unfold nearest_scan, scan_pure. destruct st as [m k].
    rewrite (py_get_nat _ _ _ Hv). cbn [bind]. rewrite Hv.
    destruct v; [reflexivity|].
    rewrite (py_get_nat _ _ _ Hcc), (py_get_nat _ _ _ Hci). cbn [bind].
    rewrite calculate_distance_valid.
    - cbn [bind fst]. rewrite (point_lookup _ _ _ Hcc), (point_lookup _ _ _ Hci).
      destruct (below (haversine cc ci) m); reflexivity.
    - eapply Forall_lookup_1; eauto.
    - eapply Forall_lookup_1; eauto. }
  rewrite Hstep. cbn [bind]. now apply IH.
Qed.

(** What the scan has found after looking at the first [m] points. *)
Lemma scan_pure_spec (d : nat -> Q) (visited : list bool) (m : nat) :
  let r := fold_left (scan_pure d visited) (seq 0 m) (None, (-1)%Z) in
  (r = (None, (-1)%Z) /\ forall j, (j < m)%nat -> visited !! j <> Some false)
  \/ (exists k, (k < m)%nat /\ visited !! k = Some false /\
                r = (Some (d k), Z.of_nat k) /\
                forall j, (j < m)%nat -> visited !! j = Some false ->
                          (d k <= d j)%Q /\ ((j < k)%nat -> (d k < d j)%Q)).
Proof.
  induction m as [|m IH]; cbn zeta.
  - left. split; [reflexivity|]. intros j Hj. lia.
  - rewrite seq_S, fold_left_app. cbn [fold_left Nat.add].
    cbn zeta in IH. destruct IH as [[Hr Hnone] | (k & Hk & Hvk & Hr & Hmin)]; rewrite Hr.
    + unfold scan_pure. destruct (visited !! m) as [[|]|] eqn:Hvm.
      * left. split; [reflexivity|]. intros j Hj.
        destruct (Nat.eq_dec j m) as [->|]; [congruence | apply Hnone; lia].
      * right. exists m. cbn [fst below].
        split; [lia|]. split; [assumption|]. split; [reflexivity|].
        intros j Hj Hvj.
        destruct (Nat.eq_dec j m) as [->|Hne].
        -- split; [apply Qle_refl | lia].
        -- exfalso. apply (Hnone j); [lia | assumption].
      * left. split; [reflexivity|]. intros j Hj.
        destruct (Nat.eq_dec j m) as [->|]; [congruence | apply Hnone; lia].
    + assert (Hkeep : forall j, (j < S m)%nat -> j <> m -> visited !! j = Some false ->
                                (d k <= d j)%Q /\ ((j < k)%nat -> (d k < d j)%Q)).
      { intros j Hj Hne Hvj. apply Hmin; [lia | assumption]. }
      unfold scan_pure. destruct (visited !! m) as [[|]|] eqn:Hvm.
      * right. exists k.
        split; [lia|]. split; [assumption|]. split; [reflexivity|].
        intros j Hj Hvj. apply Hkeep; try assumption. congruence.
      * cbn [fst below]. destruct (Qltb (d m) (d k)) eqn:Hlt.
        -- apply Qltb_lt in Hlt. right. exists m.
           split; [lia|]. split; [assumption|]. split; [reflexivity|].
           intros j Hj Hvj.
           destruct (Nat.eq_dec j m) as [->|Hne].
           ++ split; [apply Qle_refl | lia].
           ++ destruct (Hkeep j Hj Hne Hvj) as [Hle _].
              split; [| intros _]; qlra.
        -- apply Qltb_ge in Hlt. right. exists k.
           split; [lia|]. split; [assumption|]. split; [reflexivity|].
           intros j Hj Hvj.
           destruct (Nat.eq_dec j m) as [->|Hne].
           ++ split; [assumption | lia].
           ++ now apply Hkeep.
      * right. exists k.
        split; [lia|]. split; [assumption|]. split; [reflexivity|].
        intros j Hj Hvj. apply Hkeep; try assumption. congruence.
Qed.

Lemma all_visited_length (n : nat) (route : list Z) :
  (forall i, (i < n)%nat -> In (Z.of_nat i) route) -> (n <= length route)%nat.
Proof.
  intros Hall.
  assert (Hincl : incl (range n) route).
  { intros z Hz. unfold range in Hz. apply in_map_iff in Hz.
    destruct Hz as (i & <- & Hi). apply in_seq in Hi. apply Hall. lia. }
  apply List.NoDup_incl_length in Hincl.
  - unfold range in Hincl. now rewrite length_map, length_seq in Hincl.
  - unfold range. apply Finite.Injective_map_NoDup; [|apply List.seq_NoDup].
    intros a b. apply Nat2Z.inj.
Qed.

Lemma nearest_step_invariant (coordinates : list coord) (start : Z)
    (route : list Z) (visited : list bool) (current : Z) :
  Forall valid_coord coordinates ->
  tour_invariant haversine coordinates start (route, visited, current) ->
  (length route < length coordinates)%nat ->
  exists route' visited' current',
    nearest_step haversine coordinates (length coordinates) (route, visited, current)
      = Ok (route', visited', current') /\
    tour_invariant haversine coordinates start (route', visited', current') /\
    length route' = S (length route).
Proof.
  intros Hvalid (Hlen & Hlast & Hnodup & Hrange & Hvis & Hhead & Hgreedy) Hshort.
  set (n := length coordinates) in *.
  assert (Hcur : In current route).
  { apply last_Some in Hlast as [l' ->]. apply in_or_app. right. now left. }
  assert (Hcur_range : In current (range n)).
  { rewrite List.Forall_forall in Hrange. now apply Hrange. }
  apply in_range in Hcur_range.
  assert (Hc : current = Z.of_nat (Z.to_nat current)) by lia.
  set (c := Z.to_nat current) in *.
  unfold nearest_step. unfold range. rewrite Hc.
  rewrite nearest_scan_pure; try assumption; try (subst n; lia).
  2:{ apply List.Forall_forall. intros i Hi. apply in_seq in Hi. subst n. lia. }
  cbn [bind].
  set (d := fun i : nat => haversine (point coordinates (Z.of_nat c))
                                     (point coordinates (Z.of_nat i))).
  destruct (scan_pure_spec d visited n) as [[Hr Hnone] | (k & Hk & Hvk & Hr & Hmin)];
    cbn zeta in *; subst n; rewrite Hr; cbn [snd].
  - exfalso.
    assert (length coordinates <= length route)%nat; [|lia].
    apply all_visited_length. intros i Hi. apply Hvis; [assumption|].
    destruct (lookup_lt_is_Some_2 visited i ltac:(lia)) as [[|] Hb]; [assumption|].
    exfalso. now apply (Hnone i).
  - destruct (Z.eqb_spec (Z.of_nat k) (-1)); [lia|].
    rewrite py_set_nat by lia. cbn [bind].
    exists (route ++ [Z.of_nat k]), (<[k := true]> visited), (Z.of_nat k).
    split; [reflexivity|].
    assert (Hk_new : ~ In (Z.of_nat k) route).
    { intros Hin. apply Hvis in Hin; [congruence | assumption]. }
    split; [|rewrite length_app; cbn; lia].
    split; [now rewrite length_insert|].
    split; [now rewrite last_snoc|].
    split.
    { apply NoDup_app. split; [assumption|]. split; [|apply NoDup_singleton].
      intros x Hx Hx'. apply list_elem_of_singleton in Hx'. subst x.
      apply Hk_new. now apply list_elem_of_In. }
    split.
    { apply Forall_app. split; [assumption|].
      apply Forall_singleton. apply in_range. lia. }
    split.
    { intros i Hi. rewrite in_app_iff. cbn [In].
      destruct (Nat.eq_dec i k) as [->|Hne].
      - rewrite list_lookup_insert_eq by lia. intuition.
      - rewrite list_lookup_insert_ne by congruence. rewrite (Hvis i Hi).
        split; [intuition|]. intros [H|[H|[]]]; [assumption|]. lia. }
    split.
    { destruct route; [discriminate | assumption]. }
    intros kk cur nxt Hcur' Hnxt.
    destruct (Nat.lt_ge_cases (S kk) (length route)) as [Hlt|Hge].
    + rewrite lookup_app_l in Hcur' by lia. rewrite lookup_app_l in Hnxt by lia.
      rewrite take_app_le by lia. now apply (Hgreedy kk).
    + assert (HS : S kk = length route).
      { apply lookup_lt_Some in Hnxt. rewrite length_app in Hnxt. cbn in Hnxt. lia. }
      rewrite HS, take_app_length.
      rewrite lookup_app_l in Hcur' by lia.
      rewrite HS, lookup_app_r in Hnxt by lia.
      rewrite Nat.sub_diag in Hnxt. cbn in Hnxt. injection Hnxt as <-.
      assert (cur = current).
      { rewrite last_lookup in Hlast. rewrite <- HS in Hlast. cbn in Hlast. congruence. }
      subst cur. rewrite Hc.
      split; [apply in_range; lia|]. split; [assumption|].
      intros j Hj Hj_new. apply in_range in Hj.
      assert (Hjn : j = Z.of_nat (Z.to_nat j)) by lia.
      assert (Hvj : visited !! Z.to_nat j = Some false).
      { destruct (lookup_lt_is_Some_2 visited (Z.to_nat j) ltac:(lia)) as [[|] Hb];
          [|assumption].
        exfalso. apply Hj_new. rewrite Hjn. apply Hvis; [lia | assumption]. }
      destruct (Hmin (Z.to_nat j) ltac:(lia) Hvj) as [Hle Hstrict].
      rewrite Hjn. fold (d k). fold (d (Z.to_nat j)).
      split; [assumption|].
      intros Heq. destruct (Nat.lt_ge_cases (Z.to_nat j) k) as [Hjk|Hjk]; [|lia].
      apply Hstrict in Hjk. qlra.
Qed.

Lemma nearest_loop_invariant (coordinates : list coord) (start : Z) (k : nat) :
  Forall valid_coord coordinates ->
  forall (route : list Z) (visited : list bool) (current : Z),
    tour_invariant haversine coordinates start (route, visited, current) ->
    (length route + k <= length coordinates)%nat ->
    exists route' visited' current',
      repeat_loop k (nearest_step haversine coordinates (length coordinates))
                  (route, visited, current)
        = Ok (route', visited', current') /\
      tour_invariant haversine coordinates start (route', visited', current') /\
      length route' = (length route + k)%nat.
Proof.
  intros Hvalid. induction k as [|k IH]; intros route visited current Hinv Hlen.
  - exists route, visited, current.
    split; [reflexivity|]. split; [assumption | lia].
  - destruct (nearest_step_invariant coordinates start route visited current)
      as (r1 & v1 & c1 & Hstep & Hinv1 & Hlen1); try assumption; try lia.
    destruct (IH r1 v1 c1 Hinv1 ltac:(lia)) as (r2 & v2 & c2 & Hloop & Hinv2 & Hlen2).
    exists r2, v2, c2. cbn [repeat_loop]. rewrite Hstep. cbn [bind].
    split; [assumption|]. split; [assumption | lia].
Qed.

Lemma consecutive_distances_cons (coordinates : list coord) (a b : Z) (rest : list Z)
    (total : Q) :
  consecutive_distances haversine coordinates (a :: b :: rest) total
  = (let! c1 := py_get coordinates a in
     let! c2 := py_get coordinates b in
     let! distance := calculate_distance haversine c1 c2 in
     consecutive_distances haversine coordinates (b :: rest) (total + distance)%Q).
Proof. reflexivity. Qed.

Lemma consecutive_distances_defined (coordinates : list coord) (route : list Z) :
  Forall valid_coord coordinates ->
  Forall (fun z => In z (range (length coordinates))) route ->
  forall total, exists q, consecutive_distances haversine coordinates route total = Ok q.
Proof.
  intros Hvalid. induction route as [|a route IH]; intros Hrange total.
  - now exists total.
  - destruct route as [|b route]; [now exists total|].
    inversion Hrange as [|? ? Ha Hrange']; subst.
    inversion Hrange' as [|? ? Hb _]; subst.
    apply in_range in Ha. apply in_range in Hb.
    destruct (lookup_lt_is_Some_2 coordinates (Z.to_nat a) ltac:(lia)) as [ca Hca].
    destruct (lookup_lt_is_Some_2 coordinates (Z.to_nat b) ltac:(lia)) as [cb Hcb].
    assert (Hga : py_get coordinates a = Ok ca).
    { replace a with (Z.of_nat (Z.to_nat a)) by lia. now apply py_get_nat. }
    assert (Hgb : py_get coordinates b = Ok cb).
    { replace b with (Z.of_nat (Z.to_nat b)) by lia. now apply py_get_nat. }
    rewrite consecutive_distances_cons, Hga, Hgb. cbn [bind].
    rewrite calculate_distance_valid by (eapply Forall_lookup_1; eauto).
    cbn [bind]. apply IH. assumption.
Qed.

(** On coordinates that pass validation the tour is defined, visits every
    index once and follows the greedy rule. *)
Lemma nearest_neighbor_route_tour :
  forall (coordinates : list coord) (start_index : Z),
    ((2 <= length coordinates)%nat -> Forall valid_coord coordinates) ->
    (0 <= start_index < Z.of_nat (length coordinates))%Z ->
    exists route,
      nearest_neighbor_route haversine coordinates start_index = Ok route /\
      Permutation route (range (length coordinates)) /\
      NoDup route /\
      greedy_tour haversine coordinates start_index route.
Proof.
  intros coordinates start_index Hvalid Hstart.
  unfold nearest_neighbor_route.
  destruct (Nat.leb_spec (length coordinates) 1) as [Hshort|Hlong].
  - assert (Hn : length coordinates = 1%nat) by lia.
    assert (start_index = 0%Z) by lia. subst start_index.
    exists [0%Z]. rewrite Hn. cbn.
    split; [reflexivity|]. split; [reflexivity|].
    split; [apply NoDup_singleton|].
    split; [reflexivity|]. intros k cur nxt _ Hnxt. destruct k; discriminate.
  - specialize (Hvalid ltac:(lia)).
    set (n := length coordinates) in *.
    set (s := Z.to_nat start_index).
    assert (Hs : start_index = Z.of_nat s) by lia.
    rewrite Hs. rewrite py_set_nat by (rewrite length_replicate; lia). cbn [bind].
    assert (Hinit : tour_invariant haversine coordinates (Z.of_nat s)
                      ([Z.of_nat s], <[s := true]> (replicate n false), Z.of_nat s)).
    { split; [now rewrite length_insert, length_replicate|].
      split; [reflexivity|].
      split; [apply NoDup_singleton|].
      split; [apply Forall_singleton, in_range; lia|].
      split.
      - intros i Hi. cbn [In].
        destruct (Nat.eq_dec i s) as [->|Hne].
        + rewrite list_lookup_insert_eq by (rewrite length_replicate; lia). intuition.
        + rewrite list_lookup_insert_ne by congruence.
          rewrite lookup_replicate_2 by lia.
          split; [discriminate|]. intros [H|[]]. lia.
      - split; [reflexivity|]. intros k cur nxt _ Hnxt. destruct k; discriminate. }
    destruct (nearest_loop_invariant coordinates (Z.of_nat s) (n - 1) Hvalid _ _ _ Hinit)
      as (route & visited & current & Hloop & Hinv & Hlen); [cbn; lia|].
    fold n in Hloop. rewrite Hloop. cbn [bind fst].
    destruct Hinv as (_ & _ & Hnodup & Hrange & _ & Hgreedy).
    destruct (consecutive_distances_defined coordinates route Hvalid Hrange 0%Q) as [q Hq].
    unfold calculate_route_distance. rewrite Hq. cbn [bind].
    exists route. split; [reflexivity|].
    split; [|split; assumption].
    apply NoDup_Permutation; [assumption | |].
    + unfold range. apply NoDup_ListNoDup.
      apply Finite.Injective_map_NoDup; [|apply List.seq_NoDup].
      intros a b. apply Nat2Z.inj.
    + intros x. rewrite !list_elem_of_In. split.
      * intros Hx. rewrite List.Forall_forall in Hrange. now apply Hrange.
      * revert x. apply List.NoDup_length_incl; [now apply NoDup_ListNoDup| |].
        -- unfold range. rewrite length_map, length_seq. cbn in Hlen. lia.
        -- intros x Hx. rewrite List.Forall_forall in Hrange. now apply Hrange.
Qed.

(** C2 (amended): on coordinates that pass validation the tour is a
    permutation of the indices [0 .. n-1] without repeats, it starts at the
    start index, and every next point is the closest unvisited one, the
    lowest index winning a tie.  Lists of two or more points are validated;
    a shorter list is not looked at. *)
Theorem nearest_neighbor_route_greedy_permutation :
  forall (coordinates : list coord) (start_index : Z),
    ((2 <= length coordinates)%nat -> Forall valid_coord coordinates) ->
    (0 <= start_index < Z.of_nat (length coordinates))%Z ->
    exists route,
      nearest_neighbor_route haversine coordinates start_index = Ok route /\
      Permutation route (range (length coordinates)) /\
      NoDup route /\
      greedy_tour haversine coordinates start_index route.
Proof. exact nearest_neighbor_route_tour. Qed.

(** C10: a list of at most one point gets the tour [0] whatever the start
    index is; the empty list gets it too, although it has no point 0. *)
Theorem nearest_neighbor_route_short :
  forall (coordinates : list coord) (start_index : Z),
    (length coordinates <= 1)%nat ->
    nearest_neighbor_route haversine coordinates start_index = Ok [0%Z] /\
    (coordinates = [] -> py_get coordinates 0 = Raise IndexError).
Proof.
  intros coordinates start_index Hlen. split.
  - unfold nearest_neighbor_route.
    destruct (Nat.leb_spec (length coordinates) 1); [reflexivity | lia].
  - intros ->. reflexivity.
Qed.

End GeographicFacts.

(** ** Building a route from a set of locations *)

Section OptimizerFacts.
Variable env : Environment.
Variable config : Config.

Lemma pick_locations (locations : list LocationRecord) (d : LocationRecord) :
  forall (order : list Z) (acc : list LocationRecord),
    Forall (fun z => In z (range (length locations))) order ->
    for_each (fun acc i => let! loc := py_get locations i in Ok (acc ++ [loc])) order acc
    = Ok (acc ++ picked locations d order).
Proof.
  induction order as [|i order IH]; intros acc Hrange.
  - cbn. now rewrite app_nil_r.
  - inversion Hrange as [|? ? Hi Hrest]; subst. apply in_range in Hi.
    destruct (lookup_lt_is_Some_2 locations (Z.to_nat i) ltac:(lia)) as [loc Hloc].
    assert (Hget : py_get locations i = Ok loc).
    { replace i with (Z.of_nat (Z.to_nat i)) by lia. now apply py_get_nat. }
    cbn [for_each]. rewrite Hget. cbn [bind]. rewrite IH by assumption.
    cbn [picked map]. rewrite (nth_lookup_Some _ _ d _ Hloc).
    now rewrite <- app_assoc.
Qed.

Lemma picked_range (locations : list LocationRecord) (d : LocationRecord) :
  picked locations d (range (length locations)) = locations.
Proof.
  unfold picked, range. rewrite map_map.
  induction locations as [|x locations IH] using rev_ind; [reflexivity|].
  rewrite length_app. cbn [length]. rewrite Nat.add_1_r, seq_S, map_app. cbn [map].
  f_equal.
  - etransitivity; [|exact IH]. apply map_ext_in. intros i Hi. apply in_seq in Hi.
    rewrite !Nat2Z.id. now rewrite app_nth1 by lia.
  - rewrite Nat2Z.id. cbn. now rewrite nth_middle.
Qed.

Lemma picked_permutation (locations : list LocationRecord) (d : LocationRecord)
    (order : list Z) :
  Permutation order (range (length locations)) ->
  Permutation (picked locations d order) locations.
Proof.
  intros Hperm. rewrite <- (picked_range locations d) at 2.
  unfold picked. now apply Permutation_map.
Qed.

Lemma coordinates_of_valid_picked (locations : list LocationRecord) (d : LocationRecord)
    (order : list Z) :
  Forall valid_coord (coordinates_of locations) ->
  Forall (fun z => In z (range (length locations))) order ->
  Forall valid_coord (coordinates_of (picked locations d order)).
Proof.
  intros Hvalid Hrange. unfold coordinates_of, picked. rewrite map_map.
  apply List.Forall_forall. intros c Hc. apply in_map_iff in Hc.
  destruct Hc as (i & <- & Hi).
  rewrite List.Forall_forall in Hrange. apply Hrange, in_range in Hi.
  rewrite List.Forall_forall in Hvalid. apply Hvalid.
  unfold coordinates_of.
  apply (in_map (fun loc => (latitude (site loc), longitude (site loc)))).
  apply nth_In. lia.
Qed.

Lemma range_in_range (n : nat) : Forall (fun z => In z (range n)) (range n).
Proof. apply List.Forall_forall. auto. Qed.

(** A non-empty set of locations whose coordinates pass validation (a lone
    location is not validated) always yields a route: the locations in the
    order of the nearest-neighbour tour from index 0. *)
Lemma build_route_defined (locations : list LocationRecord) (first : LocationRecord)
    (total_cost : Q) :
  head locations = Some first ->
  ((2 <= length locations)%nat -> Forall valid_coord (coordinates_of locations)) ->
  exists order route_data,
    nearest_neighbor_route (haversine env) (coordinates_of locations) 0 = Ok order /\
    Permutation order (range (length locations)) /\
    build_route env locations total_cost = Ok route_data /\
    locais route_data = picked locations first order /\
    num_locais route_data = length locations /\
    custo_total_aoa route_data = total_cost /\
    fragilidade_media route_data
      = py_round (np_mean (map (fun loc => inject_Z (fragilidade (site loc)))
                               (picked locations first order))) 2 /\
    score route_data = None.
Proof.
  intros Hfirst Hvalid.
  assert (Hlen : (0 < length locations)%nat).
  { destruct locations; [discriminate | cbn; lia]. }
  assert (Hclen : length (coordinates_of locations) = length locations).
  { unfold coordinates_of. apply length_map. }
  destruct (nearest_neighbor_route_tour (haversine env)
              (coordinates_of locations) 0)
    as (order & Hnn & Hperm & Hnodup & Hgreedy).
  { now rewrite Hclen. }
  { rewrite Hclen. lia. }
  rewrite Hclen in Hperm.
  assert (Hrange : Forall (fun z => In z (range (length locations))) order).
  { apply List.Forall_forall. intros z Hz.
    eapply Permutation_in; [exact Hperm | exact Hz]. }
  assert (Hplen : length (picked locations first order) = length locations).
  { unfold picked. rewrite length_map. apply Permutation_length in Hperm.
    unfold range in Hperm. now rewrite length_map, length_seq in Hperm. }
  assert (Hdist : exists q,
             calculate_route_distance (haversine env)
               (coordinates_of (picked locations first order))
               (range (length (picked locations first order))) = Ok q).
  { destruct (Nat.le_gt_cases 2 (length locations)) as [Hbig|Hsmall].
    - apply consecutive_distances_defined.
      + apply coordinates_of_valid_picked; auto.
      + unfold coordinates_of at 1. rewrite length_map. apply range_in_range.
    - rewrite Hplen. replace (length locations) with 1%nat by lia.
      cbn. now eexists. }
  destruct Hdist as [q Hq].
  exists order. eexists.
  split; [exact Hnn|]. split; [exact Hperm|].
  unfold build_route. rewrite Hnn. cbn [bind].
  rewrite (pick_locations locations first) by assumption. cbn [bind app].
  rewrite Hq. cbn [bind].
  assert (Hget0 : py_get locations 0 = Ok first).
  { change 0%Z with (Z.of_nat 0). apply py_get_nat.
    destruct locations; [discriminate|]. cbn in *. congruence. }
  rewrite Hget0. cbn [bind].
  split; [reflexivity|]. cbn.
  repeat split; auto.
Qed.

End OptimizerFacts.

(** ** Route generation on the self-test catalogue *)

Section ScenarioFacts.
Variable env : Environment.

Lemma location_well_formed_always (loc : LocationRecord) : location_well_formed loc = true.
Proof.
  unfold location_well_formed, location_keys.
  destruct (present (sustentabilidade_score (site loc)));
    destruct (present (atratividade_score (site loc))); reflexivity.
Qed.

Lemma validate_route_data_nonempty (route_data : list LocationRecord) :
  route_data <> [] -> validate_route_data route_data = true.
Proof.
  intros Hne. destruct route_data as [|loc rest]; [congruence|].
  unfold validate_route_data. apply forallb_forall.
  intros x _. apply location_well_formed_always.
Qed.

Lemma test_catalog_clustered :
  _create_geographic_clusters env default_config test_catalog
  = {| rows := rows test_catalog; cluster := Some [0; 0; 0]%Z |}.
Proof. reflexivity. Qed.

Lemma test_records_valid : Forall valid_coord (coordinates_of test_records).
Proof. repeat constructor. Qed.

(** C3: with a budget of 50000 the three sites, which cost 70000 together,
    give no candidate; with a budget of 80000 they give exactly one, which
    holds the three sites in the order of the nearest-neighbour tour from
    index 0 and costs 70000.  The number of routes asked for is left to the
    caller, as long as it is not negative. *)
Theorem generate_routes_test_catalog :
  forall (num_routes : option Z) (g : rng env),
    (forall n, num_routes = Some n -> (0 <= n)%Z) ->
    fst (fst (generate_routes env default_config test_catalog
                              (Some 3%Z) num_routes (Some 50000%Q) g)) = []
    /\
    exists order candidate,
      fst (fst (generate_routes env default_config test_catalog
                                (Some 3%Z) num_routes (Some 80000%Q) g)) = [candidate] /\
      nearest_neighbor_route (haversine env) (coordinates_of test_records) 0 = Ok order /\
      locais candidate = picked test_records (nth 0 test_records
                                                  {| site := site_kissama; site_cluster := 0 |})
                                order /\
      Permutation (locais candidate) test_records /\
      custo_total_aoa candidate = 70000%Q.
Proof.
  intros num_routes g Hnum.
  set (n := py_or_Z num_routes (default_num_routes (route default_config))).
  assert (Hn : (1 <= n)%Z).
  { subst n. unfold py_or_Z. destruct num_routes as [m|]; cbn; [|lia].
    specialize (Hnum m eq_refl). destruct (Z.eqb_spec m 0); lia. }
  split.
  - unfold generate_routes. fold n. cbn [rows test_catalog].
    rewrite test_catalog_clustered. reflexivity.
  - destruct (build_route_defined env test_records
                {| site := site_kissama; site_cluster := 0 |} 70000%Q eq_refl
                (fun _ => test_records_valid))
      as (order & r & Hnn & Hperm & Hbuild & Hlocais & Hnum_locais & Hcost & Hfrag & Hscore).
    exists order, (score_route default_config r).
    assert (Hgen : _generate_cluster_routes env test_records 3 80000%Q g = ([r], g)).
    { unfold _generate_cluster_routes.
      replace (Z.of_nat (length test_records) <=? 3)%Z with true by reflexivity.
      unfold _create_route_from_locations.
      change (Qsum (map (fun loc => taxa_aoa (site loc)) test_records)) with 70000%Q.
      replace (Qltb 80000 70000) with false by reflexivity.
      rewrite Hbuild. reflexivity. }
    assert (Hne : locais r <> []).
    { rewrite Hlocais. intros Hnil. apply (f_equal (@length _)) in Hnil.
      unfold picked in Hnil. rewrite length_map in Hnil.
      apply Permutation_length in Hperm. rewrite Hnil in Hperm. discriminate. }
    split; [|split; [exact Hnn|]; split; [exact Hlocais|]; split].
    + unfold generate_routes. fold n. cbn [rows test_catalog].
      rewrite test_catalog_clustered.
      change (py_or_Z (Some 3%Z) (default_max_locations (route default_config))) with 3%Z.
      change (py_or_Q (Some 80000%Q) (default_max_budget (route default_config)))
        with 80000%Q.
      cbn [cluster].
      change (unique (default [] (Some [0; 0; 0]%Z))) with [0%Z].
      cbn [routes_of_clusters].
      change (cluster_records
                {| rows := rows test_catalog; cluster := Some [0; 0; 0]%Z |} 0)
        with test_records.
      rewrite Hgen. cbn [app fst snd _calculate_route_scores map].
      unfold _select_best_routes. cbn [forallb score score_route present andb].
      cbn [sorted_by_key fold_right insert_by_key].
      unfold py_slice_to. destruct (Z.ltb_spec n 0); [lia|].
      replace (Z.to_nat n) with (S (Z.to_nat (n - 1))) by lia.
      cbn [firstn List.filter locais score_route].
      rewrite firstn_nil. cbn [List.filter].
      now rewrite validate_route_data_nonempty.
    + cbn [locais score_route]. rewrite Hlocais. now apply picked_permutation.
    + exact Hcost.
Qed.

End ScenarioFacts.

(** ** Selecting the best routes *)

Lemma length_py_slice_to {A : Type} (l : list A) (k : Z) :
  (0 <= k)%Z -> (length (py_slice_to l k) <= Z.to_nat k)%nat.
Proof.
  intros Hk. unfold py_slice_to. destruct (Z.ltb_spec k 0); [lia|].
  rewrite length_take. lia.
Qed.

Lemma select_best_routes_length (scored_routes : list Route) (num_routes : Z) :
  (0 <= num_routes)%Z ->
  (length (_select_best_routes scored_routes num_routes) <= Z.to_nat num_routes)%nat.
Proof.
  intros Hnum. unfold _select_best_routes.
  destruct scored_routes as [|r rest]; [cbn; lia|].
  destruct (forallb _ _).
  - etransitivity; [apply List.filter_length_le | now apply length_py_slice_to].
  - now apply length_py_slice_to.
Qed.

(** C9, as first stated, fails when no route is asked for: the default of
    five routes applies and the single-site catalogue returns one route. *)
Lemma generate_routes_zero_requested :
  ~ (length (fst (fst (generate_routes sample_environment default_config
                                       single_site_catalog
                                       (Some 3%Z) (Some 0%Z) (Some 20000%Q) 0%Z)))
     <= Z.to_nat 0)%nat.
Proof. vm_compute. lia. Qed.

(** ** Routes of a single site *)

Section SingleSiteFacts.
Variable env : Environment.

(** C1: on a catalogue of one site, within budget, the optimiser returns a
    candidate that holds that one site only, where the claim asks for at
    least two. *)
Theorem generate_routes_single_site :
  forall (g : rng env),
    map (fun r => (map site (locais r), num_locais r, custo_total_aoa r))
        (fst (fst (generate_routes env default_config single_site_catalog
                                   (Some 3%Z) (Some 2%Z) (Some 20000%Q) g)))
    = [([site_kalandula], 1%nat, 15000%Q)].
Proof. intros g. reflexivity. Qed.

End SingleSiteFacts.

(** ** Running the generation twice *)

Section DeterminismFacts.
Variable env : Environment.
Variable config : Config.

Lemma create_geographic_clusters_rows (df df' : DataFrame) :
  rows df = rows df' ->
  _create_geographic_clusters env config df = _create_geographic_clusters env config df'.
Proof.
  intros Hrows. unfold _create_geographic_clusters. now rewrite Hrows.
Qed.

Lemma create_geographic_clusters_keeps_rows (df : DataFrame) :
  rows (_create_geographic_clusters env config df) = rows df.
Proof.
  unfold _create_geographic_clusters.
  destruct (_ <? 2)%Z; [reflexivity|].
  destruct (kmeans_fit_predict _ _ _); [|reflexivity].
  destruct (_ && _); reflexivity.
Qed.

Lemma generate_routes_empty (df : DataFrame) (max_locations num_routes : option Z)
    (max_budget : option Q) (g : rng env) :
  rows df = [] ->
  generate_routes env config df max_locations num_routes max_budget g = ([], df, g).
Proof. intros Hrows. unfold generate_routes. now rewrite Hrows. Qed.

Lemma generate_routes_rows (df df' : DataFrame) (max_locations num_routes : option Z)
    (max_budget : option Q) (g : rng env) :
  rows df = rows df' -> rows df <> [] ->
  generate_routes env config df max_locations num_routes max_budget g
  = generate_routes env config df' max_locations num_routes max_budget g.
Proof.
  intros Hrows Hne. unfold generate_routes.
  rewrite (create_geographic_clusters_rows df df' Hrows). rewrite <- Hrows.
  destruct (rows df); [congruence | reflexivity].
Qed.

(** The frame a call leaves behind has the rows of the frame it was given. *)
Lemma generate_routes_frame (df : DataFrame) (max_locations num_routes : option Z)
    (max_budget : option Q) (g : rng env) :
  rows (snd (fst (generate_routes env config df max_locations num_routes max_budget g)))
  = rows df.
Proof.
  unfold generate_routes. destruct (rows df) as [|row rest] eqn:Hrows; [assumption|].
  destruct (routes_of_clusters _ _ _ _ _ _) as [all_routes g'].
  cbn [fst snd]. rewrite <- Hrows. apply create_geographic_clusters_keeps_rows.
Qed.

(** In one process, a second call with the same arguments, made with the
    random generator in the state it had before the first call, returns the
    same candidate list and leaves the generator in the same state, also
    when it is given the frame as the first call left it (with its
    [cluster] column written). *)
Lemma generate_routes_again :
  forall (df : DataFrame) (max_locations num_routes : option Z) (max_budget : option Q)
         (g : rng env),
    let first_run := generate_routes env config df max_locations num_routes max_budget g in
    let frame_after := snd (fst first_run) in
    let second_run :=
      generate_routes env config frame_after max_locations num_routes max_budget g in
    fst (fst second_run) = fst (fst first_run) /\
    snd second_run = snd first_run /\
    snd (fst second_run) = frame_after.
Proof.
  intros df max_locations num_routes max_budget g. cbn zeta.
  destruct (rows df) as [|row rest] eqn:Hrows.
  - rewrite (generate_routes_empty df) by assumption. cbn [fst snd].
    rewrite (generate_routes_empty df) by assumption. auto.
  - rewrite (generate_routes_rows _ df).
    + auto.
    + apply generate_routes_frame.
    + rewrite generate_routes_frame. congruence.
Qed.

End DeterminismFacts.

(** ** Running the generation in another process *)

Lemma with_set_order_same (env : Environment) : with_set_order env (list_of_set env) = env.
Proof. destruct env. reflexivity. Qed.

Lemma insert_by_key_map {A : Type} (key : A -> Q) (f : A -> A) (x : A) (l : list A) :
  (forall y, key (f y) = key y) ->
  insert_by_key key (f x) (map f l) = map f (insert_by_key key x l).
Proof.
  intros Hkey. induction l as [|y l IH]; cbn [insert_by_key map]; [reflexivity|].
  rewrite !Hkey. destruct (Qltb (key y) (key x)); cbn [map]; [now rewrite IH | reflexivity].
Qed.

Lemma sorted_by_key_map {A : Type} (key : A -> Q) (f : A -> A) (l : list A) :
  (forall y, key (f y) = key y) ->
  sorted_by_key key (map f l) = map f (sorted_by_key key l).
Proof.
  intros Hkey. induction l as [|x l IH]; [reflexivity|].
  change (sorted_by_key key (map f (x :: l)))
    with (insert_by_key key (f x) (sorted_by_key key (map f l))).
  rewrite IH. now apply insert_by_key_map.
Qed.

Lemma py_slice_to_map {A B : Type} (f : A -> B) (l : list A) (k : Z) :
  py_slice_to (map f l) k = map f (py_slice_to l k).
Proof.
  unfold py_slice_to. rewrite length_map. destruct (k <? 0)%Z; apply List.firstn_map.
Qed.

Lemma filter_map_same {A : Type} (p : A -> bool) (f : A -> A) (l : list A) :
  (forall x, p (f x) = p x) -> List.filter p (map f l) = map f (List.filter p l).
Proof.
  intros Hp. induction l as [|x l IH]; cbn [List.filter map]; [reflexivity|].
  rewrite Hp, IH. now destruct (p x).
Qed.

Lemma forallb_map_same {A : Type} (p : A -> bool) (f : A -> A) (l : list A) :
  (forall x, p (f x) = p x) -> forallb p (map f l) = forallb p l.
Proof.
  intros Hp. induction l as [|x l IH]; cbn [forallb map]; [reflexivity|].
  now rewrite Hp, IH.
Qed.

Section ProcessFacts.
Variable env : Environment.
Variable config : Config.
Variable order : list string -> list string.

Lemma build_route_relisted (locations : list LocationRecord) (total_cost : Q) :
  build_route (with_set_order env order) locations total_cost
  = match build_route env locations total_cost with
    | Ok r => Ok (relisted order r)
    | Raise e => Raise e
    end.
Proof.
  unfold build_route. cbn [with_set_order haversine list_of_set].
  destruct (nearest_neighbor_route (haversine env) (coordinates_of locations) 0)
    as [optimized_indices|e]; cbn [bind]; [|reflexivity].
  destruct (for_each _ optimized_indices []) as [optimized_locations|e];
    cbn [bind]; [|reflexivity].
  destruct (calculate_route_distance _ _ _) as [total_distance|e];
    cbn [bind]; [|reflexivity].
  destruct (py_get locations 0) as [first|e]; cbn [bind]; reflexivity.
Qed.

Lemma create_route_relisted (locations : list LocationRecord) (max_budget : Q) :
  _create_route_from_locations (with_set_order env order) locations max_budget
  = option_map (relisted order) (_create_route_from_locations env locations max_budget).
Proof.
  unfold _create_route_from_locations. destruct (Qltb _ _); [reflexivity|].
  rewrite build_route_relisted. now destruct (build_route env _ _).
Qed.

Lemma sample_attempts_relisted (cluster_df : list LocationRecord) (max_locations : Z)
    (max_budget : Q) :
  forall (k : nat) (routes : list Route) (g : rng env),
    sample_attempts (with_set_order env order) k cluster_df max_locations max_budget
                    (map (relisted order) routes, g)
    = (match fst (sample_attempts env k cluster_df max_locations max_budget (routes, g)) with
       | Ok out => Ok (map (relisted order) out)
       | Raise e => Raise e
       end,
       snd (sample_attempts env k cluster_df max_locations max_budget (routes, g))).
Proof.
  induction k as [|k IH]; intros routes g; cbn [sample_attempts]; [reflexivity|].
  unfold sample_attempt. cbn [with_set_order randint].
  destruct (randint env 1000 g) as [random_state g'].
  change (df_sample (with_set_order env order)) with (df_sample env).
  destruct (df_sample env cluster_df _ random_state) as [selected|e]; [|reflexivity].
  rewrite create_route_relisted.
  destruct (_create_route_from_locations env selected max_budget) as [route_data|];
    cbn [option_map].
  - rewrite <- (IH (routes ++ [route_data]) g'). now rewrite map_app.
  - apply IH.
Qed.

Lemma generate_cluster_routes_relisted (cluster_df : list LocationRecord)
    (max_locations : Z) (max_budget : Q) (g : rng env) :
  _generate_cluster_routes (with_set_order env order) cluster_df max_locations max_budget g
  = (map (relisted order)
         (fst (_generate_cluster_routes env cluster_df max_locations max_budget g)),
     snd (_generate_cluster_routes env cluster_df max_locations max_budget g)).
Proof.
  unfold _generate_cluster_routes. destruct (_ <=? _)%Z.
  - rewrite create_route_relisted.
    now destruct (_create_route_from_locations env cluster_df max_budget).
  - pose proof (sample_attempts_relisted cluster_df max_locations max_budget
                  (Z.to_nat (Z.min 3 (Z.of_nat (length cluster_df) / 2))) [] g) as H.
    cbn [map] in H. cbn [with_set_order rng]. rewrite H.
    destruct (sample_attempts env _ cluster_df max_locations max_budget ([], g))
      as [[out|e] g']; reflexivity.
Qed.

Lemma routes_of_clusters_relisted (df_clustered : DataFrame) (max_locations : Z)
    (max_budget : Q) :
  forall (cluster_ids : list Z) (g : rng env),
    routes_of_clusters (with_set_order env order) df_clustered cluster_ids
                       max_locations max_budget g
    = (map (relisted order)
           (fst (routes_of_clusters env df_clustered cluster_ids max_locations
                                    max_budget g)),
       snd (routes_of_clusters env df_clustered cluster_ids max_locations max_budget g)).
Proof.
  induction cluster_ids as [|cluster_id rest IH]; intros g; cbn [routes_of_clusters];
    [reflexivity|].
  rewrite generate_cluster_routes_relisted.
  destruct (_generate_cluster_routes env _ max_locations max_budget g)
    as [cluster_routes g1]. cbn [fst snd].
  rewrite IH.
  destruct (routes_of_clusters env df_clustered rest max_locations max_budget g1)
    as [more g2]. cbn [fst snd]. now rewrite map_app.
Qed.

Lemma select_best_routes_relisted (scored_routes : list Route) (num_routes : Z) :
  _select_best_routes (map (relisted order) scored_routes) num_routes
  = map (relisted order) (_select_best_routes scored_routes num_routes).
Proof.
  unfold _select_best_routes. destruct scored_routes as [|r rest]; [reflexivity|].
  change (map (relisted order) (r :: rest))
    with (relisted order r :: map (relisted order) rest) at 1.
  cbv iota. change (relisted order r :: map (relisted order) rest)
    with (map (relisted order) (r :: rest)).
  rewrite (forallb_map_same (fun r => present (score r))) by reflexivity.
  destruct (forallb _ (r :: rest)).
  - rewrite sorted_by_key_map by reflexivity. rewrite py_slice_to_map.
    now apply filter_map_same.
  - apply py_slice_to_map.
Qed.

Lemma generate_routes_relisted (df : DataFrame) (max_locations num_routes : option Z)
    (max_budget : option Q) (g : rng env) :
  generate_routes (with_set_order env order) config df max_locations num_routes
                  max_budget g
  = (map (relisted order)
         (fst (fst (generate_routes env config df max_locations num_routes max_budget g))),
     snd (fst (generate_routes env config df max_locations num_routes max_budget g)),
     snd (generate_routes env config df max_locations num_routes max_budget g)).
Proof.
  unfold generate_routes. destruct (rows df) as [|row rest]; [reflexivity|].
  change (_create_geographic_clusters (with_set_order env order) config df)
    with (_create_geographic_clusters env config df).
  rewrite routes_of_clusters_relisted.
  destruct (routes_of_clusters env _ _ _ _ g) as [all_routes g']. cbn [fst snd].
  unfold _calculate_route_scores. rewrite map_map.
  rewrite (map_ext (fun r => score_route config (relisted order r))
                   (fun r => relisted order (score_route config r)))
    by reflexivity.
  rewrite <- (map_map (score_route config) (relisted order)).
  now rewrite select_best_routes_relisted.
Qed.

End ProcessFacts.

(** C6 (amended): a call in another interpreter process, with the same
    arguments and the random generator in the same state, returns the same
    candidates in the same order, each with the same name, sites, number of
    sites, distance, cost, mean fragility and score, and leaves the frame and
    the generator as the first call does; only the provinces and the
    ecosystem types of a candidate, which come out of a set, are listed in
    the order of that process.  A second call in the same process, also on
    the frame as the first call left it, returns the very same list. *)
Theorem generate_routes_across_processes :
  forall (env : Environment) (config : Config) (order : list string -> list string)
         (df : DataFrame) (max_locations num_routes : option Z) (max_budget : option Q)
         (g : rng env),
    let first_run := generate_routes env config df max_locations num_routes max_budget g in
    let other_process :=
      generate_routes (with_set_order env order) config df max_locations num_routes
                      max_budget g in
    let same_process :=
      generate_routes env config (snd (fst first_run)) max_locations num_routes
                      max_budget g in
    fst (fst other_process) = map (relisted order) (fst (fst first_run)) /\
    snd (fst other_process) = snd (fst first_run) /\
    snd other_process = snd first_run /\
    map (relisted (list_of_set env)) (fst (fst first_run)) = fst (fst first_run) /\
    fst (fst same_process) = fst (fst first_run) /\
    snd same_process = snd first_run.
Proof.
  intros env config order df max_locations num_routes max_budget g. cbn zeta.
  rewrite generate_routes_relisted. cbn [fst snd].
  split; [reflexivity|]. split; [reflexivity|]. split; [reflexivity|].
  destruct (generate_routes_again env config df max_locations num_routes max_budget g)
    as (Hroutes & Hgen & _).
  split; [|split; assumption].
  clear Hroutes Hgen.
  destruct env as [distance kmeans generator draw positions listing].
  pose proof (generate_routes_relisted
                {| haversine := distance; kmeans_fit_predict := kmeans; rng := generator;
                   randint := draw; sample_positions := positions;
                   list_of_set := listing |}
                config listing df max_locations num_routes max_budget g) as H.
  apply (f_equal (fun run => fst (fst run))) in H. cbn [fst snd] in H.
  symmetry. exact H.
Qed.

(** C6, as first stated, fails between two processes that iterate a set of
    strings in different orders: on the self-test catalogue the one
    candidate lists the provinces of its three sites in one order in the one
    process and in the reverse order in the other. *)
Lemma generate_routes_set_order_differs :
  fst (fst (generate_routes sample_environment default_config test_catalog
                            (Some 3%Z) (Some 2%Z) (Some 80000%Q) 0%Z))
  <> fst (fst (generate_routes (with_set_order sample_environment (@rev string))
                               default_config test_catalog
                               (Some 3%Z) (Some 2%Z) (Some 80000%Q) 0%Z))
  /\
  map provincias
      (fst (fst (generate_routes sample_environment default_config test_catalog
                                 (Some 3%Z) (Some 2%Z) (Some 80000%Q) 0%Z)))
  = [["Luanda"; "Malange"; "Namibe"]]
  /\
  map provincias
      (fst (fst (generate_routes (with_set_order sample_environment (@rev string))
                                 default_config test_catalog
                                 (Some 3%Z) (Some 2%Z) (Some 80000%Q) 0%Z)))
  = [["Namibe"; "Malange"; "Luanda"]].
Proof.
  split; [|split; vm_compute; reflexivity].
  intros H. apply (f_equal (map provincias)) in H. vm_compute in H. discriminate H.
Qed.

(** ** Rounding *)

Lemma round_half_even_bounds (x : Q) :
  (x - (1 # 2) <= inject_Z (round_half_even x) <= x + (1 # 2))%Q.
Proof.
  unfold round_half_even.
  pose proof (Qfloor_le x) as Hlo. pose proof (Qlt_floor x) as Hhi.
  rewrite inject_Z_plus in Hhi. change (inject_Z 1) with 1%Q in Hhi.
  destruct (Qcompare_spec (x - inject_Z (Qfloor x)) (1 # 2)) as [Heq|Hlt|Hgt].
  - destruct (Z.even (Qfloor x));
      [|rewrite inject_Z_plus; change (inject_Z 1) with 1%Q]; split; qlra.
  - split; qlra.
  - rewrite inject_Z_plus. change (inject_Z 1) with 1%Q. split; qlra.
Qed.

Lemma round_half_even_integer (z : Z) : round_half_even (inject_Z z) = z.
Proof.
  unfold round_half_even. rewrite Qfloor_Z.
  destruct (Qcompare_spec (inject_Z z - inject_Z z) (1 # 2)) as [Heq|Hlt|Hgt];
    [exfalso; qlra | reflexivity | exfalso; qlra].
Qed.

Lemma round_half_even_le (x y : Q) :
  (x <= y)%Q -> (round_half_even x <= round_half_even y)%Z.
Proof.
  intros Hxy.
  pose proof (Qfloor_resp_le x y Hxy) as Hfloor.
  pose proof (Qfloor_le x) as Hx. pose proof (Qlt_floor x) as Hx'.
  pose proof (Qfloor_le y) as Hy. pose proof (Qlt_floor y) as Hy'.
  rewrite inject_Z_plus in Hx', Hy'. change (inject_Z 1) with 1%Q in Hx', Hy'.
  destruct (Z.eq_dec (Qfloor x) (Qfloor y)) as [Heq|Hne].
  - unfold round_half_even. rewrite <- Heq.
    destruct (Qcompare_spec (x - inject_Z (Qfloor x)) (1 # 2)) as [E1|L1|G1];
      destruct (Qcompare_spec (y - inject_Z (Qfloor x)) (1 # 2)) as [E2|L2|G2];
      try destruct (Z.even (Qfloor x)); try lia; exfalso; qlra.
  - assert (Hstep : (Qfloor x + 1 <= Qfloor y)%Z) by lia.
    assert (Hrx : (round_half_even x <= Qfloor x + 1)%Z).
    { unfold round_half_even. destruct (Qcompare _ _); try destruct (Z.even _); lia. }
    assert (Hry : (Qfloor y <= round_half_even y)%Z).
    { unfold round_half_even. destruct (Qcompare _ _); try destruct (Z.even _); lia. }
    lia.
Qed.

Lemma py_round_2_bounds (x : Q) :
  (x - (1 # 200) <= py_round x 2 <= x + (1 # 200))%Q.
Proof.
  unfold py_round. change (inject_Z (10 ^ Z.of_nat 2)) with 100%Q.
  pose proof (round_half_even_bounds (x * 100)) as [Hlo Hhi].
  set (r := inject_Z (round_half_even (x * 100))) in *.
  assert (E : (r / 100 == r * (1 # 100))%Q) by field.
  split; qlra.
Qed.



(** Rounding to two decimals does not cross an integer bound. *)
Lemma py_round_2_le_integer (x : Q) (m : Z) :
  (x <= inject_Z m)%Q -> (py_round x 2 <= inject_Z m)%Q.
Proof.
  intros Hx. unfold py_round. change (inject_Z (10 ^ Z.of_nat 2)) with 100%Q.
  assert (H100 : (x * 100 <= inject_Z (m * 100))%Q).
  { rewrite inject_Z_mult. change (inject_Z 100) with 100%Q. qlra. }
  apply round_half_even_le in H100. rewrite round_half_even_integer in H100.
  rewrite Zle_Qle, inject_Z_mult in H100. change (inject_Z 100) with 100%Q in H100.
  set (r := inject_Z (round_half_even (x * 100))) in *.
  assert (E : (r / 100 == r * (1 # 100))%Q) by field.
  qlra.
Qed.

(** ** Scoring *)

Section ScoringFacts.
Variable env : Environment.

(** What a route that was built is made of. *)
Lemma build_route_inversion (locations : list LocationRecord) (total_cost : Q)
    (route_data : Route) :
  build_route env locations total_cost = Ok route_data ->
  exists order optimized total_distance first,
    nearest_neighbor_route (haversine env) (coordinates_of locations) 0 = Ok order /\
    for_each (fun acc i => let! loc := py_get locations i in Ok (acc ++ [loc])) order []
      = Ok optimized /\
    calculate_route_distance (haversine env) (coordinates_of optimized)
                             (range (length optimized)) = Ok total_distance /\
    py_get locations 0 = Ok first /\
    locais route_data = optimized /\
    num_locais route_data = length optimized /\
    distancia_total_km route_data = py_round total_distance 2 /\
    custo_total_aoa route_data = total_cost /\
    fragilidade_media route_data
      = py_round (np_mean (map (fun loc => inject_Z (fragilidade (site loc))) optimized)) 2 /\
    score route_data = None.
Proof.
  unfold build_route. intros Hbuild.
  destruct (nearest_neighbor_route _ _ _) as [order|] eqn:Hnn; [|discriminate].
  cbn [bind] in Hbuild.
  destruct (for_each _ order []) as [optimized|] eqn:Hpick; [|discriminate].
  cbn [bind] in Hbuild.
  destruct (calculate_route_distance _ _ _) as [total_distance|] eqn:Hdist; [|discriminate].
  cbn [bind] in Hbuild.
  destruct (py_get locations 0) as [first|] eqn:Hfirst; [|discriminate].
  cbn [bind] in Hbuild. injection Hbuild as <-.
  exists order, optimized, total_distance, first. cbn.
  split; [reflexivity|]. split; [exact Hpick|]. split; [exact Hdist|].
  repeat split; reflexivity.
Qed.

Lemma create_route_inversion (locations : list LocationRecord) (max_budget : Q)
    (route_data : Route) :
  _create_route_from_locations env locations max_budget = Some route_data ->
  (Qsum (map (fun loc => taxa_aoa (site loc)) locations) <= max_budget)%Q /\
  build_route env locations (Qsum (map (fun loc => taxa_aoa (site loc)) locations))
    = Ok route_data.
Proof.
  unfold _create_route_from_locations. intros Hcreate.
  destruct (Qltb _ _) eqn:Hbudget; [discriminate|].
  apply Qltb_ge in Hbudget. split; [assumption|].
  destruct (build_route _ _ _); [congruence | discriminate].
Qed.


End ScoringFacts.

(** ** Great-circle distance *)

Lemma sin_half_square (x y : R) :
  ((sin ((y - x) * 0.5)) ^ 2 = (sin ((x - y) * 0.5)) ^ 2)%R.
Proof.
  replace ((y - x) * 0.5)%R with (- ((x - y) * 0.5))%R by rlra.
  rewrite sin_neg. ring.
Qed.

Lemma haversine_formula_symmetric (a b : coord) :
  haversine_formula a b = haversine_formula b a.
Proof.
  unfold haversine_formula. cbv zeta.
  rewrite (sin_half_square (radians (Q2R (fst a)))).
  rewrite (sin_half_square (radians (Q2R (snd a)))).
  now rewrite (Rmult_comm (cos (radians (Q2R (fst a))))).
Qed.

Lemma haversine_formula_same_point (a : coord) : haversine_formula a a = 0%R.
Proof.
  unfold haversine_formula. cbv zeta.
  rewrite !Rminus_diag, Rmult_0_l, sin_0.
  replace (0 ^ 2 + cos (radians (Q2R (fst a))) * cos (radians (Q2R (fst a))) * 0 ^ 2)%R
    with 0%R by ring.
  rewrite sqrt_0, asin_0. ring.
Qed.

(** C8: on coordinates that pass validation the distance does not depend on
    the order of its two arguments, and the distance from a point to itself
    is 0. *)
Theorem calculate_distance_symmetric :
  forall a b : coord,
    valid_coord a -> valid_coord b ->
    (exists d, calculate_distance haversine_formula a b = Ok d /\
               calculate_distance haversine_formula b a = Ok d) /\
    calculate_distance haversine_formula a a = Ok 0%R.
Proof.
  intros a b Ha Hb. split.
  - exists (haversine_formula a b).
    rewrite !calculate_distance_valid by assumption.
    now rewrite (haversine_formula_symmetric b a).
  - rewrite calculate_distance_valid by assumption.
    now rewrite haversine_formula_same_point.
Qed.

(** ** User profiles *)

Lemma field_of_lookup (profile : gmap string Q) (field : string) (v : Q) :
  profile !! field = Some v -> field_of profile field = v.
Proof. unfold field_of. now intros ->. Qed.

Lemma validate_user_profile_out_of_range (profile : gmap string Q) :
  profile_out_of_range profile -> validate_user_profile profile = false.
Proof.
  intros Hbad. unfold validate_user_profile.
  destruct (forallb _ required_fields) eqn:Hfields; [cbn [negb] | reflexivity].
  destruct Hbad as [(age & Hage & Hrange) | [(budget & Hbudget & Hrange)
                                            | (field & weight & Hin & Hweight & Hrange)]].
  - rewrite !(field_of_lookup _ _ _ Hage).
    destruct (Qle_bool 18 age) eqn:H18; [|reflexivity].
    destruct (Qle_bool age 100) eqn:H100; [|reflexivity].
    apply Qle_bool_iff in H18, H100. exfalso. destruct Hrange; qlra.
  - destruct (negb _); [reflexivity|].
    rewrite (field_of_lookup _ _ _ Hbudget).
    apply Qle_bool_iff in Hrange. now rewrite Hrange.
  - destruct (negb _); [reflexivity|].
    destruct (Qle_bool (field_of profile "orcamento_max") 0); [reflexivity|].
    destruct (forallb _ preference_fields) eqn:Hprefs; [|reflexivity].
    exfalso. rewrite forallb_forall in Hprefs. specialize (Hprefs field Hin).
    rewrite !(field_of_lookup _ _ _ Hweight) in Hprefs.
    apply andb_prop in Hprefs as [H0 H1].
    apply Qle_bool_iff in H0, H1. destruct Hrange; qlra.
Qed.

(** C5 fails on the code.  [validate_user_profile] refuses every profile
    that is out of range, the profile of a child of ten among them; but the
    runnable method for personalised routes, [gerar_rotas_personalizadas_ml],
    never calls it: for that profile, on a system with a fitted engine and
    its data loaded, it asks the rating model for a prediction for each of
    the two affordable sites, returns a route and stores it as the
    recommended routes of the system. *)
Theorem gerar_rotas_personalizadas_ml_unvalidated :
  (forall profile : gmap string Q,
      profile_out_of_range profile -> validate_user_profile profile = false) /\
  validate_user_profile child_profile = false /\
  exists (rotas : list PersonalizedRoute) (engine' : MLEngine),
    gerar_rotas_personalizadas_ml sample_environment (fun engine => (Ok tt, engine))
                                  demo_system child_profile 70000 3 2
    = (Ok rotas, set_routes (set_engine demo_system engine') (map inr rotas)) /\
    rotas <> [] /\
    ml_engine demo_system = Some stale_engine /\
    rating_calls stale_engine = 0%nat /\
    rating_calls engine' = 2%nat.
Proof.
  split; [exact validate_user_profile_out_of_range|].
  split; [reflexivity|].
  destruct (gerar_rotas_personalizadas sample_environment stale_engine child_profile
                                       70000 3 2) as [[rotas|e] engine'] eqn:Hrun.
  - exists rotas, engine'.
    assert (Hcall : gerar_rotas_personalizadas_ml sample_environment
                      (fun engine => (Ok tt, engine)) demo_system child_profile 70000 3 2
                    = (Ok rotas, set_routes (set_engine demo_system engine')
                                            (map inr rotas))).
    { unfold gerar_rotas_personalizadas_ml.
      cbn [demo_system use_ml ml_engine df stale_engine rating_model].
      fold stale_engine. now rewrite Hrun. }
    split; [exact Hcall|].
    vm_compute in Hrun. injection Hrun as <- <-.
    split; [discriminate|]. split; [reflexivity|]. split; reflexivity.
  - vm_compute in Hrun. discriminate Hrun.
Qed.

(** ** Rating prediction *)

Lemma insert_sorted_In (x y : string) (classes : list string) :
  In x (insert_sorted y classes) <-> x = y \/ In x classes.
Proof.
  induction classes as [|c rest IH]; cbn [insert_sorted].
  - cbn. intuition.
  - destruct (String.eqb_spec y c) as [->|Hne].
    + cbn. intuition.
    + destruct (String.leb y c); cbn [In]; [intuition|].
      rewrite IH. intuition.
Qed.

Lemma encoder_fit_classes (x : string) (ys : list string) :
  In x (classes_ (encoder_fit ys)) <-> In x ys.
Proof.
  unfold encoder_fit. cbn [classes_].
  induction ys as [|y ys IH]; cbn [fold_right]; [reflexivity|].
  rewrite insert_sorted_In, IH. cbn. intuition.
Qed.

Lemma index_of_None (y : string) (classes : list string) :
  index_of y classes = None <-> ~ In y classes.
Proof.
  induction classes as [|c rest IH]; cbn [index_of In]; [intuition|].
  destruct (String.eqb_spec y c) as [->|Hne].
  - split; [discriminate | intuition].
  - destruct (index_of y rest); cbn.
    + split; [discriminate|]. intros H. exfalso. apply H. right.
      destruct (in_dec String.string_dec y rest) as [Hin|Hnin]; [assumption|].
      apply IH in Hnin. discriminate.
    + split; [|reflexivity]. intros _ [H|H]; [congruence|].
      now apply (proj1 IH).
Qed.

Lemma encoder_transform_unseen (ys : list string) (y : string) :
  ~ In y ys ->
  encoder_transform (encoder_fit ys) y
  = Raise (ValueError "y contains previously unseen labels").
Proof.
  intros Hy. unfold encoder_transform.
  rewrite <- encoder_fit_classes in Hy. apply index_of_None in Hy. now rewrite Hy.
Qed.

Lemma encoder_transform_cases (encoder : LabelEncoder) (y : string) :
  (exists code, encoder_transform encoder y = Ok code)
  \/ encoder_transform encoder y = Raise (ValueError "y contains previously unseen labels").
Proof.
  unfold encoder_transform. destruct (index_of y (classes_ encoder)); eauto.
Qed.

(** C4 (amended): without a rating model the prediction is the neutral 3.0.
    With one, a site whose ecosystem or province the fitted encoders have
    not seen makes the prediction raise the encoder's error, which reaches
    the caller; the model is not asked and the engine is as it was. *)
Theorem prever_rating_usuario_unseen_category :
  forall (engine : MLEngine) (user_profile : gmap string Q) (local_id : Z),
    (rating_model engine = None ->
     prever_rating_usuario engine user_profile local_id = (Ok 3%Q, engine))
    /\
    (forall (catalog : list Location) (site : Location) (seen_ecosistemas seen_provincias : list string),
        rating_model engine <> None ->
        engine_df engine = Some catalog ->
        py_get catalog local_id = Ok site ->
        (forall field, In field required_fields -> user_profile !! field <> None) ->
        label_encoders engine !! "ecosistema" = Some (encoder_fit seen_ecosistemas) ->
        label_encoders engine !! "provincia" = Some (encoder_fit seen_provincias) ->
        ~ In (tipo_ecosistema site) seen_ecosistemas \/ ~ In (provincia site) seen_provincias ->
        prever_rating_usuario engine user_profile local_id
        = (Raise (ValueError "y contains previously unseen labels"), engine)).
Proof.
  intros engine user_profile local_id. split.
  - intros Hnone. unfold prever_rating_usuario. now rewrite Hnone.
  - intros catalog site seen_eco seen_prov Hmodel Hdf Hsite Hfields Heco Hprov Hunseen.
    unfold prever_rating_usuario.
    destruct (rating_model engine) as [model|]; [|congruence].
    rewrite Hdf. cbn [bind]. rewrite Hsite. cbn [bind].
    assert (Hfeatures : rating_features engine user_profile site
                        = Raise (ValueError "y contains previously unseen labels")).
    { unfold rating_features, dict_get.
      destruct (user_profile !! "idade") eqn:E1;
        [|exfalso; apply (Hfields "idade"); cbn; auto 10].
      destruct (user_profile !! "orcamento_max") eqn:E2;
        [|exfalso; apply (Hfields "orcamento_max"); cbn; auto 10].
      destruct (user_profile !! "preferencia_sustentabilidade") eqn:E3;
        [|exfalso; apply (Hfields "preferencia_sustentabilidade"); cbn; auto 10].
      destruct (user_profile !! "preferencia_aventura") eqn:E4;
        [|exfalso; apply (Hfields "preferencia_aventura"); cbn; auto 10].
      destruct (user_profile !! "preferencia_cultura") eqn:E5;
        [|exfalso; apply (Hfields "preferencia_cultura"); cbn; auto 10].
      rewrite Heco, Hprov. cbn [bind].
      destruct (encoder_transform_cases (encoder_fit seen_eco) (tipo_ecosistema site))
        as [[code Hcode] | Hraise]; [|now rewrite Hraise].
      rewrite Hcode. cbn [bind].
      destruct Hunseen as [Hu|Hu].
      - rewrite (encoder_transform_unseen _ _ Hu) in Hcode. discriminate.
      - now rewrite (encoder_transform_unseen _ _ Hu). }
    now rewrite Hfeatures.
Qed.

(** C4, as first stated, fails on the engine whose ecosystem encoder has
    not seen "deserto": asked to rate the desert site (row 2), it raises
    instead of answering 3.0. *)
Lemma prever_rating_usuario_raises :
  fst (prever_rating_usuario stale_engine demo_profile 2)
  = Raise (ValueError "y contains previously unseen labels")
  /\ fst (prever_rating_usuario stale_engine demo_profile 2) <> Ok 3%Q.
Proof. split; [vm_compute; reflexivity | vm_compute; discriminate]. Qed.

(** ** A tour that was returned was computed on valid coordinates *)

Section TourSuccessFacts.
Variable haversine : coord -> coord -> Q.

Lemma calculate_distance_success (c1 c2 : coord) (d : Q) :
  calculate_distance haversine c1 c2 = Ok d -> valid_coord c1 /\ valid_coord c2.
Proof.
  unfold calculate_distance, valid_coord.
  destruct (_validate_coordinates c1) as [[]|]; [|discriminate].
  destruct (_validate_coordinates c2) as [[]|]; [|discriminate].
  auto.
Qed.

Lemma nearest_scan_success (coordinates : list coord) (visited : list bool) (cur : nat)
    (ccur : coord) :
  coordinates !! cur = Some ccur ->
  forall (idx : list nat) (st st' : option Q * Z),
    for_each (nearest_scan haversine coordinates visited (Z.of_nat cur))
             (map Z.of_nat idx) st = Ok st' ->
    forall i ci, In i idx -> visited !! i = Some false -> coordinates !! i = Some ci ->
                 valid_coord ccur /\ valid_coord ci.
Proof.
  intros Hcur idx. induction idx as [|j idx IH]; intros st st' Hrun i ci Hin Hvis Hci.
  - destruct Hin.
  - cbn [map for_each] in Hrun.
    destruct (nearest_scan haversine coordinates visited (Z.of_nat cur) st (Z.of_nat j))
      as [st1|] eqn:Hstep; [|discriminate].
    cbn [bind] in Hrun.
    destruct Hin as [->|Hin]; [|eapply IH; eauto].
    unfold nearest_scan in Hstep. destruct st as [m k].
    rewrite (py_get_nat _ _ _ Hvis) in Hstep. cbn [bind] in Hstep.
    rewrite (py_get_nat _ _ _ Hcur), (py_get_nat _ _ _ Hci) in Hstep. cbn [bind] in Hstep.
    destruct (calculate_distance haversine ccur ci) as [d|] eqn:Hd; [|discriminate].
    eapply calculate_distance_success; eauto.
Qed.

(** When the tour from index 0 of two or more points is returned, every
    point has passed validation. *)
Lemma nearest_neighbor_route_success_valid (coordinates : list coord) (route : list Z) :
  (2 <= length coordinates)%nat ->
  nearest_neighbor_route haversine coordinates 0 = Ok route ->
  Forall valid_coord coordinates.
Proof.
  intros Hlen Hnn. unfold nearest_neighbor_route in Hnn.
  destruct (Nat.leb_spec (length coordinates) 1) as [|_]; [lia|].
  set (n := length coordinates) in *.
  change 0%Z with (Z.of_nat 0) in Hnn.
  rewrite py_set_nat in Hnn by (rewrite length_replicate; lia). cbn [bind] in Hnn.
  destruct (repeat_loop (n - 1) _ _) as [final|] eqn:Hloop; [|discriminate].
  replace (n - 1)%nat with (S (n - 2)) in Hloop by lia.
  cbn [repeat_loop] in Hloop.
  destruct (nearest_step haversine coordinates n _) as [st1|] eqn:Hstep; [|discriminate].
  unfold nearest_step in Hstep.
  destruct (for_each _ (range n) _) as [found|] eqn:Hscan; [|discriminate].
  destruct (lookup_lt_is_Some_2 coordinates 0 ltac:(lia)) as [c0 Hc0].
  apply Forall_lookup_2. intros i ci Hci.
  unfold range in Hscan.
  destruct (Nat.eq_dec i 0) as [->|Hne].
  - destruct (lookup_lt_is_Some_2 coordinates 1 ltac:(lia)) as [c1 Hc1].
    assert (ci = c0) by congruence. subst ci.
    eapply (nearest_scan_success coordinates _ 0 c0 Hc0 _ _ _ Hscan 1%nat c1); eauto.
    + apply in_seq. lia.
    + rewrite list_lookup_insert_ne by lia. apply lookup_replicate_2. lia.
  - eapply (nearest_scan_success coordinates _ 0 c0 Hc0 _ _ _ Hscan i ci); eauto.
    + apply in_seq. apply lookup_lt_Some in Hci. lia.
    + rewrite list_lookup_insert_ne by lia. apply lookup_replicate_2.
      apply lookup_lt_Some in Hci. lia.
Qed.

(** A tour returned for a non-empty list of points is a permutation of
    their indices. *)
Lemma nearest_neighbor_route_success_permutation (coordinates : list coord)
    (route : list Z) :
  coordinates <> [] ->
  nearest_neighbor_route haversine coordinates 0 = Ok route ->
  Permutation route (range (length coordinates)).
Proof.
  intros Hne Hnn.
  destruct (nearest_neighbor_route_tour haversine coordinates 0)
    as (route' & Hnn' & Hperm & _).
  - intros Hlen. eapply nearest_neighbor_route_success_valid; eauto.
  - destruct coordinates; [congruence | cbn; lia].
  - congruence.
Qed.

End TourSuccessFacts.

(** ** Means and sums *)

Lemma Qsum_from_le (xs : list Q) (m acc : Q) :
  Forall (fun x => (x <= m)%Q) xs ->
  (fold_left Qplus xs acc <= acc + inject_Z (Z.of_nat (length xs)) * m)%Q.
Proof.
  revert acc. induction xs as [|x xs IH]; intros acc Hall.
  - cbn [fold_left length]. change (inject_Z (Z.of_nat 0)) with 0%Q. qlra.
  - inversion Hall as [|? ? Hx Hrest]; subst.
    cbn [fold_left length]. specialize (IH (acc + x)%Q Hrest).
    rewrite Nat2Z.inj_succ, <- Z.add_1_r, inject_Z_plus.
    change (inject_Z 1) with 1%Q.
    set (L := inject_Z (Z.of_nat (length xs))) in *.
    assert (E : ((L + 1) * m == L * m + m)%Q) by ring.
    qlra.
Qed.

Lemma np_mean_le (xs : list Q) (m : Q) :
  xs <> [] -> Forall (fun x => (x <= m)%Q) xs -> (np_mean xs <= m)%Q.
Proof.
  intros Hne Hall. unfold np_mean, Qsum.
  apply Qle_shift_div_r.
  - change 0%Q with (inject_Z 0). rewrite <- Zlt_Qlt.
    destruct xs; [congruence | cbn [length]; lia].
  - pose proof (Qsum_from_le xs m 0 Hall) as H.
    set (L := inject_Z (Z.of_nat (length xs))) in *.
    assert (E : (m * L == L * m)%Q) by ring. qlra.
Qed.

(** ** Where the selected routes come from *)

Lemma In_insert_by_key {A : Type} (key : A -> Q) (x y : A) (l : list A) :
  In x (insert_by_key key y l) <-> x = y \/ In x l.
Proof.
  induction l as [|z l IH]; cbn [insert_by_key].
  - cbn. intuition.
  - destruct (Qltb (key z) (key y)); cbn [In]; [rewrite IH|]; intuition.
Qed.

Lemma In_sorted_by_key {A : Type} (key : A -> Q) (x : A) (l : list A) :
  In x (sorted_by_key key l) <-> In x l.
Proof.
  unfold sorted_by_key. induction l as [|y l IH]; cbn [fold_right]; [reflexivity|].
  rewrite In_insert_by_key, IH. cbn. intuition.
Qed.

Lemma insert_by_key_Permutation {A : Type} (key : A -> Q) (x : A) (l : list A) :
  Permutation (insert_by_key key x l) (x :: l).
Proof.
  induction l as [|y l IH]; cbn [insert_by_key]; [reflexivity|].
  destruct (Qltb (key y) (key x)); [|reflexivity].
  rewrite IH. apply perm_swap.
Qed.

Lemma sorted_by_key_Permutation {A : Type} (key : A -> Q) (l : list A) :
  Permutation (sorted_by_key key l) l.
Proof.
  induction l as [|x l IH]; [reflexivity|].
  unfold sorted_by_key in *. cbn [fold_right].
  rewrite insert_by_key_Permutation. now constructor.
Qed.

Lemma In_take {A : Type} (x : A) (k : nat) (l : list A) : In x (take k l) -> In x l.
Proof.
  intros Hin. rewrite <- (take_drop k l). apply in_or_app. now left.
Qed.

Lemma In_py_slice_to {A : Type} (x : A) (l : list A) (k : Z) :
  In x (py_slice_to l k) -> In x l.
Proof.
  unfold py_slice_to. destruct (k <? 0)%Z; apply In_take.
Qed.

Lemma select_best_routes_In (scored_routes : list Route) (num_routes : Z) (r : Route) :
  In r (_select_best_routes scored_routes num_routes) ->
  In r scored_routes /\
  (forallb (fun r => present (score r)) scored_routes = true ->
   validate_route_data (locais r) = true).
Proof.
  unfold _select_best_routes. destruct scored_routes as [|r0 rest]; [intros []|].
  destruct (forallb _ (r0 :: rest)) eqn:Hscored.
  - intros Hin. apply filter_In in Hin as [Hin Hvalid].
    apply In_py_slice_to, In_sorted_by_key in Hin. auto.
  - intros Hin. apply In_py_slice_to in Hin. split; [assumption | discriminate].
Qed.

(** ** The candidates of the optimiser *)

Section CandidateFacts.
Variable env : Environment.
Variable config : Config.

Lemma routes_of_clusters_In (df_clustered : DataFrame) (max_locations : Z) (max_budget : Q)
    (r : Route) :
  forall (cluster_ids : list Z) (g : rng env),
    In r (fst (routes_of_clusters env df_clustered cluster_ids max_locations max_budget g)) ->
    exists cluster_id g0,
      In r (fst (_generate_cluster_routes env (cluster_records df_clustered cluster_id)
                                          max_locations max_budget g0)).
Proof.
  induction cluster_ids as [|cluster_id rest IH]; intros g Hin; [destruct Hin|].
  cbn [routes_of_clusters] in Hin.
  destruct (_generate_cluster_routes env _ max_locations max_budget g)
    as [cluster_routes g1] eqn:Hcluster.
  destruct (routes_of_clusters env df_clustered rest max_locations max_budget g1)
    as [more g2] eqn:Hmore.
  cbn [fst] in Hin. apply in_app_or in Hin as [Hin|Hin].
  - exists cluster_id, g. now rewrite Hcluster.
  - apply (IH g1). now rewrite Hmore.
Qed.

Lemma sample_attempts_In (cluster_df : list LocationRecord) (max_locations : Z)
    (max_budget : Q) (r : Route) :
  forall (k : nat) (routes out : list Route) (g g' : rng env),
    sample_attempts env k cluster_df max_locations max_budget (routes, g) = (Ok out, g') ->
    In r out ->
    In r routes \/
    exists seed selected,
      df_sample env cluster_df (Z.min max_locations (Z.of_nat (length cluster_df))) seed
        = Ok selected /\
      _create_route_from_locations env selected max_budget = Some r.
Proof.
  induction k as [|k IH]; intros routes out g g' Hrun Hin.
  - cbn in Hrun. injection Hrun as <- <-. now left.
  - cbn [sample_attempts] in Hrun. unfold sample_attempt in Hrun.
    destruct (randint env 1000 g) as [seed g1].
    destruct (df_sample env cluster_df _ seed) as [selected|] eqn:Hsample;
      [|discriminate].
    destruct (_create_route_from_locations env selected max_budget) as [r1|] eqn:Hcreate.
    + destruct (IH _ _ _ _ Hrun Hin) as [Hold|Hnew]; [|now right].
      apply in_app_or in Hold as [Hold|[<-|[]]]; [now left|].
      right. exists seed, selected. auto.
    + apply (IH _ _ _ _ Hrun Hin).
Qed.

Lemma generate_cluster_routes_In (cluster_df : list LocationRecord) (max_locations : Z)
    (max_budget : Q) (g : rng env) (r : Route) :
  In r (fst (_generate_cluster_routes env cluster_df max_locations max_budget g)) ->
  exists selected,
    _create_route_from_locations env selected max_budget = Some r /\
    ((selected = cluster_df /\ (Z.of_nat (length cluster_df) <= max_locations)%Z)
     \/ (exists seed,
           (max_locations < Z.of_nat (length cluster_df))%Z /\
           df_sample env cluster_df max_locations seed = Ok selected)).
Proof.
  unfold _generate_cluster_routes.
  destruct (Z.leb_spec (Z.of_nat (length cluster_df)) max_locations) as [Hsmall|Hbig].
  - destruct (_create_route_from_locations env cluster_df max_budget) as [r0|] eqn:Hcreate;
      cbn [fst]; [|intros []].
    intros [<-|[]]. exists cluster_df. auto.
  - destruct (sample_attempts env _ cluster_df max_locations max_budget ([], g))
      as [outcome g'] eqn:Hrun.
    cbn [fst]. destruct outcome as [out|e]; cbn [except_return]; [|intros []].
    intros Hin. destruct (sample_attempts_In _ _ _ _ _ _ _ _ _ Hrun Hin)
      as [[]|(seed & selected & Hsample & Hcreate)].
    exists selected. split; [assumption|]. right. exists seed. split; [assumption|].
    now rewrite Z.min_l in Hsample by lia.
Qed.

Lemma sample_lookups (cluster_df : list LocationRecord) :
  forall (positions : list nat) (acc out : list LocationRecord),
    for_each (fun acc p => match cluster_df !! p with
                           | Some loc => Ok (acc ++ [loc])
                           | None => Raise IndexError
                           end) positions acc = Ok out ->
    exists picks, out = acc ++ picks /\
                  Forall2 (fun p x => cluster_df !! p = Some x) positions picks.
Proof.
  induction positions as [|p positions IH]; intros acc out Hrun.
  - cbn in Hrun. injection Hrun as <-. exists []. split; [now rewrite app_nil_r | constructor].
  - cbn [for_each] in Hrun. destruct (cluster_df !! p) as [x|] eqn:Hp; [|discriminate].
    cbn [bind] in Hrun. destruct (IH _ _ Hrun) as (picks & -> & Hall).
    exists (x :: picks). split; [now rewrite <- app_assoc | now constructor].
Qed.

Lemma lookups_NoDup (cluster_df : list LocationRecord) :
  NoDup (map site cluster_df) ->
  forall (positions : list nat) (picks : list LocationRecord),
    NoDup positions ->
    Forall2 (fun p x => cluster_df !! p = Some x) positions picks ->
    NoDup (map site picks).
Proof.
  intros Hsites positions picks Hpos Hall.
  induction Hall as [|p x positions picks Hp Hall IH]; [constructor|].
  apply NoDup_cons in Hpos as [Hfresh Hpos].
  cbn [map]. apply NoDup_cons. split; [|auto].
  intros Hdup. apply list_elem_of_In, in_map_iff in Hdup as (x' & Hsame & Hx').
  apply Hfresh. clear IH Hfresh Hpos.
  induction Hall as [|p' y positions picks Hp' Hall IH]; [destruct Hx'|].
  destruct Hx' as [->|Hx'].
  - assert (p' = p); [|subst; apply list_elem_of_here].
    change (map site cluster_df) with (site <$> cluster_df) in Hsites.
    apply (NoDup_lookup _ _ _ (site x) Hsites); rewrite list_lookup_fmap.
    + rewrite Hp'. cbn. now f_equal.
    + now rewrite Hp.
  - apply list_elem_of_further. auto.
Qed.

Lemma df_sample_spec (cluster_df selected : list LocationRecord) (n seed : Z) :
  samples_without_replacement env ->
  (n <= Z.of_nat (length cluster_df))%Z ->
  df_sample env cluster_df n seed = Ok selected ->
  (0 <= n)%Z /\
  length selected = Z.to_nat n /\
  (forall x, In x selected -> In x cluster_df) /\
  (NoDup (map site cluster_df) -> NoDup (map site selected)).
Proof.
  intros Hsample Hn Hrun. unfold df_sample in Hrun.
  destruct (Z.ltb_spec n 0) as [|Hnonneg]; [discriminate|].
  destruct (sample_lookups _ _ _ _ Hrun) as (picks & -> & Hall). cbn [app].
  destruct (Hsample (length cluster_df) (Z.to_nat n) seed ltac:(lia)) as [Hnodup Hlen].
  split; [assumption|]. split; [|split].
  - apply Forall2_length in Hall. congruence.
  - intros x Hx. clear Hnodup Hlen Hrun.
    induction Hall as [|p y ? ? Hp Hall IH]; [destruct Hx|].
    destruct Hx as [<-|Hx]; [|now apply IH].
    apply list_elem_of_In. now apply (list_elem_of_lookup_2 _ p).
  - intros Hsites. eapply lookups_NoDup; eauto.
Qed.

Lemma combine_filter_sites (f : Location * Z -> bool) :
  forall (sites : list Location) (clusters : list Z),
    NoDup sites ->
    NoDup (map fst (List.filter f (combine sites clusters))) /\
    (forall x, In x (map fst (List.filter f (combine sites clusters))) -> In x sites).
Proof.
  induction sites as [|a sites IH]; intros clusters Hnodup.
  - cbn. split; [constructor | auto].
  - destruct clusters as [|c clusters]; [cbn; split; [constructor | intros x []]|].
    apply NoDup_cons in Hnodup as [Hfresh Hnodup].
    destruct (IH clusters Hnodup) as [IHnodup IHin].
    cbn [combine List.filter]. destruct (f (a, c)); cbn [map fst In].
    + split.
      * apply NoDup_cons. split; [|assumption].
        intros Hin. apply Hfresh. apply list_elem_of_In. apply IHin.
        now apply list_elem_of_In.
      * intros x [->|Hx]; auto.
    + split; [assumption | auto].
Qed.

Lemma cluster_records_sites (df_clustered : DataFrame) (cluster_id : Z) :
  NoDup (rows df_clustered) ->
  NoDup (map site (cluster_records df_clustered cluster_id)) /\
  (forall x, In x (cluster_records df_clustered cluster_id) ->
             In (site x) (rows df_clustered)).
Proof.
  intros Hnodup. unfold cluster_records.
  destruct (cluster df_clustered) as [clusters|]; [|cbn; split; [constructor | intros x []]].
  destruct (combine_filter_sites (fun rc => (snd rc =? cluster_id)%Z)
              (rows df_clustered) clusters Hnodup) as [Hnd Hin].
  rewrite map_map. cbn [site]. split; [exact Hnd|].
  intros x Hx. apply Hin. apply in_map_iff in Hx as (rc & <- & Hrc). cbn [site].
  now apply in_map.
Qed.

(** A route that was created holds the selected locations, each once, in
    the order of the tour; its cost is within the budget. *)
Lemma create_route_spec (selected : list LocationRecord) (max_budget : Q) (r : Route) :
  _create_route_from_locations env selected max_budget = Some r ->
  (custo_total_aoa r <= max_budget)%Q /\
  Permutation (locais r) selected /\
  selected <> [] /\
  fragilidade_media r
    = py_round (np_mean (map (fun loc => inject_Z (fragilidade (site loc))) (locais r))) 2.
Proof.
  intros Hcreate. apply create_route_inversion in Hcreate as [Hbudget Hbuild].
  apply build_route_inversion in Hbuild
    as (order & optimized & dist & first & Hnn & Hpick & _ & Hfirst & Hlocais & _ & _
        & Hcost & Hfrag & _).
  assert (Hne : selected <> []).
  { intros ->. discriminate Hfirst. }
  assert (Hperm : Permutation order (range (length selected))).
  { replace (length selected) with (length (coordinates_of selected))
      by (unfold coordinates_of; apply length_map).
    apply (nearest_neighbor_route_success_permutation (haversine env)); [|assumption].
    destruct selected; [congruence | discriminate]. }
  rewrite (pick_locations selected first) in Hpick.
  2:{ apply List.Forall_forall. intros z Hz. eapply Permutation_in; eauto. }
  injection Hpick as <-. cbn [app] in *.
  split; [now rewrite Hcost|]. split; [|split; [assumption|]].
  - rewrite Hlocais. now apply picked_permutation.
  - now rewrite Hfrag, Hlocais.
Qed.

(** What holds of every candidate that [generate_routes] returns, on a
    catalogue of distinct sites none of which is more fragile than
    [max_fragility]; a candidate is never empty. *)
Lemma generate_routes_candidates_bounds :
  forall (df : DataFrame) (max_locations num_routes : option Z) (max_budget : option Q)
         (g : rng env) (max_fragility : Z) (r : Route),
    samples_without_replacement env ->
    NoDup (rows df) ->
    Forall (fun row => (fragilidade row <= max_fragility)%Z) (rows df) ->
    In r (fst (fst (generate_routes env config df max_locations num_routes max_budget g))) ->
    (custo_total_aoa r <= py_or_Q max_budget (default_max_budget (route config)))%Q /\
    (fragilidade_media r <= inject_Z max_fragility)%Q /\
    (1 <= length (locais r))%nat /\
    (Z.of_nat (length (locais r))
     <= py_or_Z max_locations (default_max_locations (route config)))%Z /\
    NoDup (map site (locais r)).
Proof.
  intros df max_locations num_routes max_budget g max_fragility r
         Hsample Hnodup Hfragile Hin.
  unfold generate_routes in Hin.
  set (limit := py_or_Z max_locations (default_max_locations (route config))) in *.
  set (budget := py_or_Q max_budget (default_max_budget (route config))) in *.
  destruct (rows df) as [|row0 rest] eqn:Hrows; [destruct Hin|].
  rewrite <- Hrows in *. clear Hrows row0 rest.
  pose proof (create_geographic_clusters_keeps_rows env config df) as Hkeep.
  set (df_clustered := _create_geographic_clusters env config df) in *.
  destruct (routes_of_clusters env df_clustered _ limit budget g)
    as [all_routes g'] eqn:Hall.
  cbn [fst] in Hin.
  apply select_best_routes_In in Hin as [Hin _].
  unfold _calculate_route_scores in Hin. apply in_map_iff in Hin as (r0 & <- & Hin).
  cbn [score_route custo_total_aoa fragilidade_media locais].
  assert (Hin' : In r0 (fst (routes_of_clusters env df_clustered
                               (unique (default [] (cluster df_clustered)))
                               limit budget g))) by now rewrite Hall.
  apply routes_of_clusters_In in Hin' as (cluster_id & g0 & Hcluster).
  apply generate_cluster_routes_In in Hcluster as (selected & Hcreate & Hselected).
  apply create_route_spec in Hcreate as (Hcost & Hperm & Hne & Hfrag).
  rewrite <- Hkeep in Hnodup.
  destruct (cluster_records_sites df_clustered cluster_id Hnodup) as [Hsites Hfrom].
  set (cluster_df := cluster_records df_clustered cluster_id) in *.
  assert (Hsel : (Z.of_nat (length selected) <= limit)%Z /\
                 (forall x, In x selected -> In x cluster_df) /\
                 NoDup (map site selected)).
  { destruct Hselected as [[-> Hsmall] | (seed & Hbig & Hrun)]; [auto|].
    apply df_sample_spec in Hrun as (Hnonneg & Hlen & Hsub & Hnd); [|assumption|lia].
    split; [lia | auto]. }
  destruct Hsel as (Hlimit & Hsub & Hnd).
  assert (Hlength : length (locais r0) = length selected) by now apply Permutation_length.
  split; [assumption|]. split; [|split; [|split]].
  - rewrite Hfrag. apply py_round_2_le_integer. apply np_mean_le.
    + intros Hnil. apply (f_equal (@length _)) in Hnil. rewrite length_map in Hnil.
      destruct selected; [congruence | cbn in *; lia].
    + apply List.Forall_forall. intros q Hq. apply in_map_iff in Hq as (loc & <- & Hloc).
      rewrite <- Zle_Qle.
      rewrite List.Forall_forall in Hfragile. apply Hfragile.
      rewrite <- Hkeep. apply Hfrom, Hsub. eapply Permutation_in; eauto.
  - destruct selected; [congruence | cbn in *; lia].
  - lia.
  - rewrite (Permutation_map site Hperm). assumption.
Qed.

(** C1 (amended): on a catalogue of distinct sites none of which is more
    fragile than [max_fragility], every candidate that [generate_routes]
    returns costs no more than the budget in force, has a mean fragility of
    at most [max_fragility], holds no more locations than the maximum in
    force, and holds no site twice.  The budget and the maximum in force are
    the arguments given, or the configured defaults when an argument is 0 or
    absent. *)
Theorem generate_routes_candidates :
  forall (df : DataFrame) (max_locations num_routes : option Z) (max_budget : option Q)
         (g : rng env) (max_fragility : Z) (r : Route),
    samples_without_replacement env ->
    NoDup (rows df) ->
    Forall (fun row => (fragilidade row <= max_fragility)%Z) (rows df) ->
    In r (fst (fst (generate_routes env config df max_locations num_routes max_budget g))) ->
    (custo_total_aoa r <= py_or_Q max_budget (default_max_budget (route config)))%Q /\
    (fragilidade_media r <= inject_Z max_fragility)%Q /\
    (Z.of_nat (length (locais r))
     <= py_or_Z max_locations (default_max_locations (route config)))%Z /\
    NoDup (map site (locais r)).
Proof.
  intros df max_locations num_routes max_budget g max_fragility r
         Hsample Hnodup Hfragile Hin.
  destruct (generate_routes_candidates_bounds df max_locations num_routes max_budget g
              max_fragility r Hsample Hnodup Hfragile Hin)
    as (Hcost & Hfrag & _ & Hlimit & Hsites).
  auto.
Qed.

End CandidateFacts.

(** ** Selecting among the candidates *)

Section SelectionFacts.
Variable env : Environment.
Variable config : Config.

Lemma generate_routes_selection (df : DataFrame) (max_locations num_routes : option Z)
    (max_budget : option Q) (g : rng env) :
  fst (fst (generate_routes env config df max_locations num_routes max_budget g))
  = _select_best_routes (scored_candidates env config df max_locations max_budget g)
                        (py_or_Z num_routes (default_num_routes (route config))).
Proof.
  unfold generate_routes, scored_candidates.
  destruct (rows df) as [|row rest]; [reflexivity|].
  now destruct (routes_of_clusters env _ _ _ _ g) as [all_routes g'].
Qed.

(** Every candidate holds at least one site and carries a score, so that the
    structural validation accepts it. *)
Lemma scored_candidates_valid (df : DataFrame) (max_locations : option Z)
    (max_budget : option Q) (g : rng env) :
  Forall (fun r => present (score r) = true /\ validate_route_data (locais r) = true)
         (scored_candidates env config df max_locations max_budget g).
Proof.
  unfold scored_candidates. destruct (rows df) as [|row rest]; [constructor|].
  unfold _calculate_route_scores. apply List.Forall_forall. intros r Hr.
  apply in_map_iff in Hr. destruct Hr as (r0 & <- & Hr0).
  split; [reflexivity|]. cbn [score_route locais].
  apply routes_of_clusters_In in Hr0. destruct Hr0 as (cluster_id & g0 & Hr0).
  apply generate_cluster_routes_In in Hr0. destruct Hr0 as (selected & Hcreate & _).
  apply create_route_spec in Hcreate. destruct Hcreate as (_ & Hperm & Hne & _).
  apply validate_route_data_nonempty. intros Hnil. rewrite Hnil in Hperm.
  apply Permutation_nil in Hperm. congruence.
Qed.

Lemma select_best_routes_all_valid (scored_routes : list Route) (num_routes : Z) :
  Forall (fun r => present (score r) = true /\ validate_route_data (locais r) = true)
         scored_routes ->
  _select_best_routes scored_routes num_routes
  = py_slice_to (sorted_by_key score_key scored_routes) num_routes.
Proof.
  intros Hall. unfold _select_best_routes.
  destruct scored_routes as [|r rest] eqn:Hpool.
  { unfold py_slice_to. cbn. now destruct (num_routes <? 0)%Z; rewrite firstn_nil. }
  rewrite <- Hpool in *.
  assert (Hscored : forallb (fun r => present (score r)) scored_routes = true).
  { apply forallb_forall. intros x Hx. rewrite List.Forall_forall in Hall.
    now apply Hall. }
  rewrite Hscored.
  apply forallb_filter_id. apply forallb_forall. intros x Hx.
  apply In_py_slice_to, In_sorted_by_key in Hx.
  rewrite List.Forall_forall in Hall. now apply Hall.
Qed.

(** C9 (amended): the number of routes in force is [num_routes], or the
    configured default when [num_routes] is 0 or absent; when it is not
    negative, no more routes than that are returned.  Validation accepts
    every candidate that [generate_routes] builds, so that the list returned
    is the pool of scored candidates, sorted by score and cut to the number
    in force: when fewer routes than that are returned, every candidate of
    the pool is among them.  [_select_best_routes] itself validates the
    routes that survive the cut, so that a route it drops is not replaced: a
    pool exists, which [generate_routes] never builds, from which it returns
    fewer routes than asked for although a further scored and well-formed
    route was at hand. *)
Theorem generate_routes_at_most_num_routes :
  (forall (df : DataFrame) (max_locations num_routes : option Z) (max_budget : option Q)
          (g : rng env),
      let in_force := py_or_Z num_routes (default_num_routes (route config)) in
      (0 <= in_force)%Z ->
      (length (fst (fst (generate_routes env config df max_locations num_routes
                                         max_budget g)))
       <= Z.to_nat in_force)%nat)
  /\
  (forall (df : DataFrame) (max_locations num_routes : option Z) (max_budget : option Q)
          (g : rng env),
      let in_force := py_or_Z num_routes (default_num_routes (route config)) in
      let returned :=
        fst (fst (generate_routes env config df max_locations num_routes max_budget g)) in
      let pool := scored_candidates env config df max_locations max_budget g in
      Forall (fun r => validate_route_data (locais r) = true) pool /\
      returned = py_slice_to (sorted_by_key score_key pool) in_force /\
      ((length returned < Z.to_nat in_force)%nat -> Permutation returned pool))
  /\
  (exists (pool : list Route) (num_routes : Z) (spare : Route),
      (1 <= num_routes)%Z /\
      (length (_select_best_routes pool num_routes) < Z.to_nat num_routes)%nat /\
      In spare pool /\
      present (score spare) = true /\
      validate_route_data (locais spare) = true /\
      ~ In spare (_select_best_routes pool num_routes)).
Proof.
  split; [|split].
  - intros df max_locations num_routes max_budget g in_force Hforce.
    unfold generate_routes. fold in_force.
    destruct (rows df) as [|row rest]; [cbn; lia|].
    destruct (routes_of_clusters _ _ _ _ _ _) as [all_routes g'].
    cbn [fst]. now apply select_best_routes_length.
  - intros df max_locations num_routes max_budget g in_force returned pool.
    pose proof (scored_candidates_valid df max_locations max_budget g) as Hvalid.
    fold pool in Hvalid.
    assert (Hreturned : returned = py_slice_to (sorted_by_key score_key pool) in_force).
    { unfold returned. rewrite generate_routes_selection.
      now apply select_best_routes_all_valid. }
    split; [|split; [exact Hreturned|]].
    + revert Hvalid. apply List.Forall_impl. now intros r [_ Hr].
    + intros Hfew. rewrite Hreturned in *. unfold py_slice_to in *.
      destruct (Z.ltb_spec in_force 0) as [Hneg|Hpos]; [lia|].
      rewrite length_take in Hfew.
      rewrite firstn_all2 by lia. apply sorted_by_key_Permutation.
  - exists example_pool, 2%Z, (example_route "C" [{| site := site_iona; site_cluster := 0 |}] 0.3).
    split; [lia|]. split; [vm_compute; lia|].
    split; [cbn; auto|]. split; [reflexivity|]. split; [reflexivity|].
    vm_compute. intros [H|[]]. discriminate H.
Qed.

End SelectionFacts.

(** C1, as first stated, fails on the single-site catalogue called with a
    budget of 0: the configured default of 20000 takes the place of the 0,
    and the one candidate returned holds one site and costs 15000.  It fails
    as well on the self-test catalogue called with a maximum of 0 locations,
    which the default of 6 replaces: the candidate holds three. *)
Lemma generate_routes_zero_arguments :
  map (fun r => (length (locais r), custo_total_aoa r))
      (fst (fst (generate_routes sample_environment default_config single_site_catalog
                                 (Some 3%Z) (Some 2%Z) (Some 0%Q) 0%Z)))
  = [(1%nat, 15000%Q)]
  /\
  map (fun r => length (locais r))
      (fst (fst (generate_routes sample_environment default_config test_catalog
                                 (Some 0%Z) (Some 2%Z) (Some 80000%Q) 0%Z)))
  = [3%nat].
Proof. split; vm_compute; reflexivity. Qed.

(** C2, as first stated, fails on two points of which one has a latitude
    of 91 degrees: the call raises. *)
Lemma nearest_neighbor_route_off_range :
  nearest_neighbor_route (haversine sample_environment) off_range_coords 0
  = Raise (ValueError "Latitude invalida").
Proof. reflexivity. Qed.

(** ** The statements at concrete inputs *)

Lemma sample_environment_without_replacement :
  samples_without_replacement sample_environment.
Proof.
  intros len n seed _. cbn. split; [|apply length_seq].
  apply NoDup_ListNoDup, List.seq_NoDup.
Qed.

Lemma test_catalog_distinct : NoDup (rows test_catalog).
Proof.
  apply NoDup_ListNoDup. cbn.
  repeat constructor; cbn; intuition discriminate.
Qed.

Lemma generate_routes_candidates_witness :
  (custo_total_aoa test_candidate
   <= py_or_Q (Some 80000%Q) (default_max_budget (route default_config)))%Q /\
  (fragilidade_media test_candidate <= inject_Z 4)%Q /\
  (Z.of_nat (length (locais test_candidate))
   <= py_or_Z (Some 3%Z) (default_max_locations (route default_config)))%Z /\
  NoDup (map site (locais test_candidate)).
Proof.
  apply (generate_routes_candidates sample_environment default_config test_catalog
           (Some 3%Z) (Some 2%Z) (Some 80000%Q) 0%Z 4%Z test_candidate).
  - exact sample_environment_without_replacement.
  - exact test_catalog_distinct.
  - repeat constructor; vm_compute; discriminate.
  - vm_compute. left. reflexivity.
Defined.

Lemma nearest_neighbor_route_greedy_permutation_witness :
  exists route,
    nearest_neighbor_route (haversine sample_environment) test_coords 0 = Ok route /\
    Permutation route (range (length test_coords)) /\
    NoDup route /\
    greedy_tour (haversine sample_environment) test_coords 0 route.
Proof.
  apply (nearest_neighbor_route_greedy_permutation (haversine sample_environment)
           test_coords 0).
  - intros _. repeat constructor.
  - vm_compute. split; [discriminate | reflexivity].
Defined.

Lemma generate_routes_test_catalog_witness :
  fst (fst (generate_routes sample_environment default_config test_catalog
                            (Some 3%Z) (Some 2%Z) (Some 50000%Q) 0%Z)) = []
  /\
  exists order candidate,
    fst (fst (generate_routes sample_environment default_config test_catalog
                              (Some 3%Z) (Some 2%Z) (Some 80000%Q) 0%Z)) = [candidate] /\
    nearest_neighbor_route (haversine sample_environment) (coordinates_of test_records) 0
      = Ok order /\
    locais candidate = picked test_records (nth 0 test_records
                                                {| site := site_kissama; site_cluster := 0 |})
                              order /\
    Permutation (locais candidate) test_records /\
    custo_total_aoa candidate = 70000%Q.
Proof.
  apply (generate_routes_test_catalog sample_environment (Some 2%Z) 0%Z).
  intros n Hn. injection Hn as <-. lia.
Defined.

Lemma prever_rating_usuario_unseen_category_witness :
  prever_rating_usuario stale_engine demo_profile 2
  = (Raise (ValueError "y contains previously unseen labels"), stale_engine).
Proof.
  apply (proj2 (prever_rating_usuario_unseen_category stale_engine demo_profile 2)
               (rows test_catalog) site_iona
               ["savana"; "floresta"] ["Luanda"; "Malange"; "Namibe"]).
  - discriminate.
  - reflexivity.
  - reflexivity.
  - intros field Hin. cbn in Hin.
    destruct Hin as [<-|[<-|[<-|[<-|[<-|[]]]]]]; vm_compute; discriminate.
  - reflexivity.
  - reflexivity.
  - left. cbn. intros [H|[H|[]]]; discriminate.
Defined.


Lemma calculate_distance_symmetric_witness :
  (exists d,
      calculate_distance haversine_formula ((-8.8390)%Q, 13.2894%Q) ((-9.0833)%Q, 16.0167%Q)
        = Ok d /\
      calculate_distance haversine_formula ((-9.0833)%Q, 16.0167%Q) ((-8.8390)%Q, 13.2894%Q)
        = Ok d) /\
  calculate_distance haversine_formula ((-8.8390)%Q, 13.2894%Q) ((-8.8390)%Q, 13.2894%Q)
    = Ok 0%R.
Proof.
  apply (calculate_distance_symmetric ((-8.8390)%Q, 13.2894%Q) ((-9.0833)%Q, 16.0167%Q)).
  - reflexivity.
  - reflexivity.
Defined.

Lemma generate_routes_at_most_num_routes_witness :
  (length (fst (fst (generate_routes sample_environment default_config test_catalog
                                     (Some 3%Z) (Some 2%Z) (Some 80000%Q) 0%Z)))
   <= Z.to_nat 2)%nat.
Proof.
  apply (proj1 (generate_routes_at_most_num_routes sample_environment default_config)
               test_catalog (Some 3%Z) (Some 2%Z) (Some 80000%Q) 0%Z).
  vm_compute. discriminate.
Defined.

Lemma nearest_neighbor_route_short_witness :
  nearest_neighbor_route (haversine sample_environment) [] 7 = Ok [0%Z] /\
  (@nil coord = [] -> py_get (@nil coord) 0 = Raise IndexError).
Proof.
  apply (nearest_neighbor_route_short (haversine sample_environment) [] 7).
  cbn. lia.
Defined.

(* ===================================================================== *)
(** * Properties of the further parts *)

(** ** The distance matrix *)

Lemma np_set_spec (m : list (list Q)) (n i j : nat) (x : Q) :
  length m = n -> Forall (fun row => length row = n) m -> (i < n)%nat -> (j < n)%nat ->
  exists m',
    np_set m (Z.of_nat i) (Z.of_nat j) x = Ok m' /\
    length m' = n /\
    Forall (fun row => length row = n) m' /\
    forall a b, matrix_entry m' a b
                = if ((a =? i) && (b =? j))%nat then Some x else matrix_entry m a b.
Proof.
  intros Hlen Hrows Hi Hj.
  destruct (lookup_lt_is_Some_2 m i) as [row Hrow]; [lia|].
  assert (Hrl : length row = n) by (eapply (Forall_lookup_1 _ _ _ _ Hrows); eauto).
  unfold np_set. rewrite (py_get_nat _ _ _ Hrow). cbn [bind].
  rewrite py_set_nat by lia. cbn [bind]. rewrite py_set_nat by lia.
  eexists. split; [reflexivity|]. split; [now rewrite length_insert|]. split.
  - apply Forall_insert; [assumption|]. now rewrite length_insert.
  - intros a b. unfold matrix_entry.
    destruct (Nat.eqb_spec a i) as [->|Hai]; cbn [andb].
    + rewrite list_lookup_insert_eq by lia.
      destruct (Nat.eqb_spec b j) as [->|Hbj].
      * now rewrite list_lookup_insert_eq by lia.
      * rewrite list_lookup_insert_ne by congruence. now rewrite Hrow.
    + now rewrite list_lookup_insert_ne by congruence.
Qed.

Lemma valid_coord_dec (c : coord) : {valid_coord c} + {~ valid_coord c}.
Proof.
  unfold valid_coord. destruct (_validate_coordinates c) as [[]|e].
  - now left.
  - right. discriminate.
Qed.

Lemma validate_coordinates_raises (c : coord) :
  ~ valid_coord c -> exists msg, _validate_coordinates c = Raise (ValueError msg).
Proof.
  unfold valid_coord, _validate_coordinates. destruct c as [lat lon].
  destruct (negb _); [eauto|]. destruct (negb _); [eauto|]. intros H. now destruct H.
Qed.

Lemma calculate_distance_invalid {D : Type} (h : coord -> coord -> D) (c1 c2 : coord) :
  ~ (valid_coord c1 /\ valid_coord c2) ->
  exists msg, calculate_distance h c1 c2 = Raise (ValueError msg).
Proof.
  intros H. unfold calculate_distance.
  destruct (valid_coord_dec c1) as [H1|H1].
  - rewrite H1. cbn [bind].
    destruct (valid_coord_dec c2) as [H2|H2]; [tauto|].
    destruct (validate_coordinates_raises _ H2) as [msg ->]. eauto.
  - destruct (validate_coordinates_raises _ H1) as [msg ->]. eauto.
Qed.

Section MatrixFacts.
Variable haversine : coord -> coord -> Q.

Lemma matrix_cell_filled (coordinates : list coord) (i j : nat) (m : list (list Q)) :
  (i < j < length coordinates)%nat ->
  valid_coord (point coordinates (Z.of_nat i)) ->
  valid_coord (point coordinates (Z.of_nat j)) ->
  matrix_filled haversine coordinates i j m ->
  exists m',
    matrix_cell haversine coordinates (Z.of_nat i) m (Z.of_nat j) = Ok m' /\
    matrix_filled haversine coordinates i (S j) m'.
Proof.
  intros Hij Hvi Hvj (Hlen & Hrows & Hent).
  destruct (lookup_lt_is_Some_2 coordinates i) as [ci Hci]; [lia|].
  destruct (lookup_lt_is_Some_2 coordinates j) as [cj Hcj]; [lia|].
  rewrite (point_lookup _ _ _ Hci) in Hvi. rewrite (point_lookup _ _ _ Hcj) in Hvj.
  unfold matrix_cell.
  rewrite (py_get_nat _ _ _ Hci), (py_get_nat _ _ _ Hcj). cbn [bind].
  rewrite (calculate_distance_valid _ _ _ Hvi Hvj). cbn [bind].
  destruct (np_set_spec m _ i j (haversine ci cj) Hlen Hrows) as (m1 & -> & Hl1 & Hr1 & He1);
    [lia|lia|].
  cbn [bind].
  destruct (np_set_spec m1 _ j i (haversine ci cj) Hl1 Hr1) as (m2 & -> & Hl2 & Hr2 & He2);
    [lia|lia|].
  eexists. split; [reflexivity|]. split; [assumption|]. split; [assumption|].
  intros a b Ha Hb. rewrite He2, He1, (Hent a b Ha Hb).
  rewrite <- (point_lookup _ _ _ Hci), <- (point_lookup _ _ _ Hcj).
  unfold filled.
  destruct (Nat.eqb_spec a j), (Nat.eqb_spec b i), (Nat.eqb_spec a i), (Nat.eqb_spec b j),
    (Nat.eqb_spec a b); subst; cbn [andb orb]; try lia;
    repeat match goal with
           | |- context [Nat.min ?x ?y] =>
               first [ rewrite (Nat.min_l x y) by lia | rewrite (Nat.min_r x y) by lia ]
           | |- context [Nat.max ?x ?y] =>
               first [ rewrite (Nat.max_l x y) by lia | rewrite (Nat.max_r x y) by lia ]
           end;
    repeat match goal with
           | |- context [(?x <? ?y)%nat] => destruct (Nat.ltb_spec x y); try lia
           | |- context [(?x =? ?y)%nat] => destruct (Nat.eqb_spec x y); try lia
           end; cbn [andb orb]; try reflexivity.
Qed.

Lemma matrix_row_loop (coordinates : list coord) (i : nat) :
  forall (k j : nat) (m : list (list Q)),
    (i < j)%nat -> (j + k = length coordinates)%nat ->
    (forall b, (j <= b < length coordinates)%nat ->
               valid_coord (point coordinates (Z.of_nat i)) /\
               valid_coord (point coordinates (Z.of_nat b))) ->
    matrix_filled haversine coordinates i j m ->
    exists m',
      for_each (matrix_cell haversine coordinates (Z.of_nat i)) (map Z.of_nat (seq j k)) m
        = Ok m' /\
      matrix_filled haversine coordinates i (length coordinates) m'.
Proof.
  induction k as [|k IH]; intros j m Hij Hjk Hvalid Hm.
  - exists m. split; [reflexivity|]. now replace (length coordinates) with j by lia.
  - cbn [seq map for_each].
    destruct (Hvalid j) as [Hvi Hvj]; [lia|].
    destruct (matrix_cell_filled coordinates i j m) as (m1 & -> & Hm1); try assumption; [lia|].
    cbn [bind]. apply IH; [lia|lia| |assumption].
    intros b Hb. apply Hvalid. lia.
Qed.

Lemma matrix_row_raises (coordinates : list coord) (i : nat) :
  forall (k j : nat) (m : list (list Q)),
    (i < j)%nat -> (j + k = length coordinates)%nat ->
    (exists b, (j <= b < length coordinates)%nat /\
               ~ (valid_coord (point coordinates (Z.of_nat i)) /\
                  valid_coord (point coordinates (Z.of_nat b)))) ->
    matrix_filled haversine coordinates i j m ->
    exists msg,
      for_each (matrix_cell haversine coordinates (Z.of_nat i)) (map Z.of_nat (seq j k)) m
        = Raise (ValueError msg).
Proof.
  induction k as [|k IH]; intros j m Hij Hjk (b & Hb & Hbad) Hm.
  - lia.
  - cbn [seq map for_each].
    destruct (valid_coord_dec (point coordinates (Z.of_nat i))) as [Hvi|Hvi];
      [destruct (valid_coord_dec (point coordinates (Z.of_nat j))) as [Hvj|Hvj]|].
    + destruct (matrix_cell_filled coordinates i j m) as (m1 & -> & Hm1); try assumption;
        [lia|].
      cbn [bind]. apply IH; [lia|lia| |assumption].
      exists b. split; [|assumption].
      destruct (Nat.eq_dec b j) as [->|]; [tauto|lia].
    + destruct (lookup_lt_is_Some_2 coordinates i) as [ci Hci]; [lia|].
      destruct (lookup_lt_is_Some_2 coordinates j) as [cj Hcj]; [lia|].
      unfold matrix_cell at 1.
      rewrite (py_get_nat _ _ _ Hci), (py_get_nat _ _ _ Hcj). cbn [bind].
      rewrite (point_lookup _ _ _ Hcj) in Hvj.
      destruct (calculate_distance_invalid haversine ci cj) as [msg ->]; [tauto|].
      cbn [bind]. eauto.
    + destruct (lookup_lt_is_Some_2 coordinates i) as [ci Hci]; [lia|].
      destruct (lookup_lt_is_Some_2 coordinates j) as [cj Hcj]; [lia|].
      unfold matrix_cell at 1.
      rewrite (py_get_nat _ _ _ Hci), (py_get_nat _ _ _ Hcj). cbn [bind].
      rewrite (point_lookup _ _ _ Hci) in Hvi.
      destruct (calculate_distance_invalid haversine ci cj) as [msg ->]; [tauto|].
      cbn [bind]. eauto.
Qed.

Lemma matrix_filled_next_row (coordinates : list coord) (i : nat) (m : list (list Q)) :
  matrix_filled haversine coordinates i (length coordinates) m ->
  matrix_filled haversine coordinates (S i) (S (S i)) m.
Proof.
  intros (Hlen & Hrows & Hent). split; [assumption|]. split; [assumption|].
  intros a b Ha Hb. rewrite (Hent a b Ha Hb).
  destruct (Nat.eqb_spec a b); [reflexivity|].
  replace (filled (S i) (S (S i)) (Nat.min a b) (Nat.max a b))
    with (filled i (length coordinates) (Nat.min a b) (Nat.max a b)); [reflexivity|].
  unfold filled.
  repeat match goal with
         | |- context [(?x <? ?y)%nat] => destruct (Nat.ltb_spec x y)
         | |- context [(?x =? ?y)%nat] => destruct (Nat.eqb_spec x y)
         end; cbn [andb orb]; try reflexivity; lia.
Qed.

Lemma matrix_rows_loop (coordinates : list coord) :
  (forall a b, (a < b < length coordinates)%nat ->
               valid_coord (point coordinates (Z.of_nat a)) /\
               valid_coord (point coordinates (Z.of_nat b))) ->
  forall (k i : nat) (m : list (list Q)),
    (i + k = length coordinates)%nat ->
    matrix_filled haversine coordinates i (S i) m ->
    exists m',
      for_each (matrix_row haversine coordinates (length coordinates))
               (map Z.of_nat (seq i k)) m = Ok m' /\
      matrix_filled haversine coordinates (length coordinates) (S (length coordinates)) m'.
Proof.
  intros Hvalid. induction k as [|k IH]; intros i m Hik Hm.
  - exists m. split; [reflexivity|]. now replace (length coordinates) with i by lia.
  - cbn [seq map for_each]. unfold matrix_row at 1, range_from.
    rewrite Nat2Z.id, Nat.add_1_r.
    destruct (matrix_row_loop coordinates i (length coordinates - S i) (S i) m)
      as (m1 & -> & Hm1); [lia|lia| |assumption|].
    { intros b Hb. apply Hvalid. lia. }
    cbn [bind]. apply IH; [lia|]. now apply matrix_filled_next_row.
Qed.

Lemma np_zeros_filled (coordinates : list coord) :
  matrix_filled haversine coordinates 0 1 (np_zeros (length coordinates)).
Proof.
  unfold np_zeros. split; [apply length_replicate|]. split.
  - apply Forall_replicate. apply length_replicate.
  - intros a b Ha Hb. unfold matrix_entry.
    rewrite lookup_replicate_2 by assumption. rewrite lookup_replicate_2 by assumption.
    destruct (Nat.eqb_spec a b); [reflexivity|].
    unfold filled.
    destruct (Nat.ltb_spec (Nat.min a b) 0); [lia|].
    destruct (Nat.eqb_spec (Nat.min a b) 0); [|reflexivity].
    destruct (Nat.ltb_spec (Nat.max a b) 1); [lia|reflexivity].
Qed.

Lemma all_valid_points (coordinates : list coord) :
  Forall valid_coord coordinates ->
  forall a, (a < length coordinates)%nat -> valid_coord (point coordinates (Z.of_nat a)).
Proof.
  intros Hall a Ha. destruct (lookup_lt_is_Some_2 coordinates a) as [c Hc]; [assumption|].
  rewrite (point_lookup _ _ _ Hc). eapply (Forall_lookup_1 _ _ _ _ Hall); eauto.
Qed.

(** X1.  For coordinates that are all within range (which matters only
    when there are two of them or more), [calculate_distance_matrix]
    returns an n-by-n array whose diagonal is zero and whose cells [(i, j)]
    and [(j, i)] both hold the distance computed from the point of lower
    index to the point of higher index: the matrix is symmetric whatever the
    distance function is. *)
Theorem calculate_distance_matrix_symmetric :
  forall coordinates : list coord,
    ((2 <= length coordinates)%nat -> Forall valid_coord coordinates) ->
    exists m,
      calculate_distance_matrix haversine coordinates = Ok m /\
      length m = length coordinates /\
      Forall (fun row => length row = length coordinates) m /\
      forall i j, (i < length coordinates)%nat -> (j < length coordinates)%nat ->
        matrix_entry m i j
        = Some (if (i =? j)%nat then 0%Q
                else haversine (point coordinates (Z.of_nat (Nat.min i j)))
                               (point coordinates (Z.of_nat (Nat.max i j)))) /\
        matrix_entry m j i = matrix_entry m i j.
Proof.
  intros coordinates Hvalid. unfold calculate_distance_matrix, range.
  destruct (matrix_rows_loop coordinates) with (k := length coordinates) (i := 0%nat)
    (m := np_zeros (length coordinates)) as (m & Hm & Hlen & Hrows & Hent).
  - intros a b Hab. split; apply all_valid_points; try lia; apply Hvalid; lia.
  - reflexivity.
  - apply np_zeros_filled.
  - exists m. split; [exact Hm|]. split; [assumption|]. split; [assumption|].
    assert (Hcell : forall i j, (i < length coordinates)%nat -> (j < length coordinates)%nat ->
              matrix_entry m i j
              = Some (if (i =? j)%nat then 0%Q
                      else haversine (point coordinates (Z.of_nat (Nat.min i j)))
                                     (point coordinates (Z.of_nat (Nat.max i j))))).
    { intros i j Hi Hj. rewrite (Hent i j Hi Hj).
      destruct (Nat.eqb_spec i j); [reflexivity|].
      unfold filled. destruct (Nat.ltb_spec (Nat.min i j) (length coordinates)); [reflexivity|lia]. }
    intros i j Hi Hj. split; [now apply Hcell|].
    rewrite (Hcell i j Hi Hj), (Hcell j i Hj Hi).
    rewrite (Nat.min_comm j i), (Nat.max_comm j i).
    destruct (Nat.eqb_spec i j), (Nat.eqb_spec j i); try reflexivity; congruence.
Qed.

(** X2.  With two points or more, one of which is out of range,
    [calculate_distance_matrix] raises the [ValueError] of the validation:
    every point is measured against another one in the first row. *)
Theorem calculate_distance_matrix_invalid :
  forall coordinates : list coord,
    (2 <= length coordinates)%nat ->
    ~ Forall valid_coord coordinates ->
    exists msg, calculate_distance_matrix haversine coordinates = Raise (ValueError msg).
Proof.
  intros coordinates Hn Hbad.
  assert (Hex : exists k, (k < length coordinates)%nat /\
                          ~ valid_coord (point coordinates (Z.of_nat k))).
  { apply not_Forall_Exists in Hbad; [|intros c; apply valid_coord_dec].
    apply Exists_exists in Hbad. destruct Hbad as (c & Hin & Hc).
    apply list_elem_of_lookup in Hin. destruct Hin as [k Hk].
    exists k. split; [eapply lookup_lt_Some; eauto|]. now rewrite (point_lookup _ _ _ Hk). }
  destruct Hex as (k & Hk & Hinvalid).
  unfold calculate_distance_matrix, range.
  assert (Hseq : seq 0 (length coordinates) = 0%nat :: seq 1 (length coordinates - 1)).
  { destruct (length coordinates) as [|n]; [lia|]. cbn [seq]. do 2 f_equal. lia. }
  rewrite Hseq. cbn [map for_each]. unfold matrix_row at 1, range_from.
  change (Z.to_nat (Z.of_nat 0) + 1)%nat with 1%nat.
  destruct (matrix_row_raises coordinates 0 (length coordinates - 1) 1
              (np_zeros (length coordinates))) as [msg Hmsg]; [lia|lia| | |].
  - exists (Nat.max k 1). split; [lia|].
    destruct k as [|k]; [tauto|].
    rewrite Nat.max_l by lia. tauto.
  - apply np_zeros_filled.
  - exists msg. rewrite Hmsg. reflexivity.
Qed.

End MatrixFacts.

(** ** Sorting by a key *)

Lemma insert_by_key_stable {A : Type} (key : A -> Q) (before : A -> A -> Prop)
    (x : A) (l : list A) :
  StronglySorted (key_then key before) l ->
  Forall (before x) l ->
  StronglySorted (key_then key before) (insert_by_key key x l).
Proof.
  induction l as [|y l IH]; intros Hs Hb; cbn [insert_by_key].
  - repeat constructor.
  - apply StronglySorted_inv in Hs. destruct Hs as [Hs Hy].
    apply Forall_cons in Hb. destruct Hb as [Hxy Hb].
    destruct (Qltb (key y) (key x)) eqn:E.
    + apply Qltb_lt in E. constructor; [now apply IH|].
      apply List.Forall_forall. intros z Hz.
      apply In_insert_by_key in Hz. destruct Hz as [->|Hz]; [now left|].
      rewrite List.Forall_forall in Hy. now apply Hy.
    + apply Qltb_ge in E. constructor; [now constructor|].
      constructor.
      * destruct (Qlt_le_dec (key x) (key y)); [now left|].
        right. split; [apply Qle_antisym; assumption|assumption].
      * apply List.Forall_forall. intros z Hz.
        rewrite List.Forall_forall in Hy. specialize (Hy z Hz).
        rewrite Forall_forall in Hb. specialize (Hb z (proj2 (list_elem_of_In _ _) Hz)).
        destruct Hy as [Hlt|[Heq _]].
        -- left. qlra.
        -- destruct (Qlt_le_dec (key x) (key z)); [now left|].
           right. split; [qlra|assumption].
Qed.

Lemma sorted_by_key_stable {A : Type} (key : A -> Q) (before : A -> A -> Prop) (l : list A) :
  StronglySorted before l -> StronglySorted (key_then key before) (sorted_by_key key l).
Proof.
  induction l as [|x l IH]; intros Hs; [constructor|].
  apply StronglySorted_inv in Hs. destruct Hs as [Hs Hx].
  change (sorted_by_key key (x :: l)) with (insert_by_key key x (sorted_by_key key l)).
  apply insert_by_key_stable; [now apply IH|].
  apply Forall_forall. intros z Hz. apply list_elem_of_In, In_sorted_by_key in Hz.
  rewrite List.Forall_forall in Hx. now apply Hx.
Qed.

Lemma sorted_by_key_sorted {A : Type} (key : A -> Q) (l : list A) :
  StronglySorted (fun x y => (key x <= key y)%Q) (sorted_by_key key l).
Proof.
  assert (Hany : StronglySorted (fun _ _ : A => True) l).
  { induction l; constructor; [assumption|]. now apply List.Forall_forall. }
  apply (sorted_by_key_stable key) in Hany.
  induction Hany as [|x s Hs IH Hx]; constructor; [assumption|].
  eapply List.Forall_impl; [|exact Hx].
  intros z [Hlt|[Heq _]]; qlra.
Qed.

Lemma StronglySorted_take {A : Type} (R : A -> A -> Prop) (k : nat) (l : list A) :
  StronglySorted R l -> StronglySorted R (take k l).
Proof.
  intros Hs. rewrite <- (take_drop k l) in Hs. now apply StronglySorted_app_1_l in Hs.
Qed.

Lemma py_slice_to_take {A : Type} (l : list A) (k : Z) :
  (0 <= k)%Z -> py_slice_to l k = take (Z.to_nat k) l.
Proof.
  intros Hk. unfold py_slice_to. destruct (Z.ltb_spec k 0); [lia|reflexivity].
Qed.

Lemma StronglySorted_py_slice_to {A : Type} (R : A -> A -> Prop) (l : list A) (k : Z) :
  StronglySorted R l -> StronglySorted R (py_slice_to l k).
Proof.
  intros Hs. unfold py_slice_to. destruct (k <? 0)%Z; now apply StronglySorted_take.
Qed.

(** ** The nearest points *)

Section NearestPointsFacts.
Variable haversine : coord -> coord -> Q.

Lemma distances_loop (target_coord : coord) :
  valid_coord target_coord ->
  forall (pairs : list (Z * coord)) (acc : list (Z * Q)),
    Forall (fun ic => valid_coord (snd ic)) pairs ->
    for_each (fun distances ic =>
                let! distance := calculate_distance haversine target_coord (snd ic) in
                Ok (distances ++ [(fst ic, distance)]))
             pairs acc
    = Ok (acc ++ map (fun ic => (fst ic, haversine target_coord (snd ic))) pairs).
Proof.
  intros Ht. induction pairs as [|ic pairs IH]; intros acc Hv; cbn [for_each map].
  - now rewrite app_nil_r.
  - apply Forall_cons in Hv. destruct Hv as [Hic Hv].
    rewrite (calculate_distance_valid _ _ _ Ht Hic). cbn [bind].
    rewrite IH by assumption. now rewrite <- app_assoc.
Qed.

Lemma enumerate_from_sorted {A : Type} (f : Z * A -> Z * Q) :
  (forall ic, fst (f ic) = fst ic) ->
  forall (xs : list A) (a : nat),
    StronglySorted (fun x y => (fst x < fst y)%Z)
                   (map f (combine (map Z.of_nat (seq a (length xs))) xs)).
Proof.
  intros Hf. induction xs as [|x xs IH]; intros a; cbn; constructor; [apply IH|].
  apply List.Forall_forall. intros z Hz.
  apply in_map_iff in Hz. destruct Hz as ([i c] & <- & Hz).
  apply in_combine_l in Hz. apply in_map_iff in Hz. destruct Hz as (j & <- & Hj).
  apply in_seq in Hj. rewrite !Hf. cbn. lia.
Qed.

Lemma enumerate_from_lookup {A : Type} (i : Z) (x : A) :
  forall (xs : list A) (a : nat),
    In (i, x) (combine (map Z.of_nat (seq a (length xs))) xs)
    <-> (Z.of_nat a <= i)%Z /\ xs !! (Z.to_nat i - a)%nat = Some x.
Proof.
  induction xs as [|y ys IH]; intros a.
  - cbn. split; [tauto|]. intros [_ H]. discriminate.
  - cbn [length seq map combine In]. rewrite IH. split.
    + intros [Heq|[Hi Hx]].
      * injection Heq as <- <-. split; [lia|].
        now replace (Z.to_nat (Z.of_nat a) - a)%nat with 0%nat by lia.
      * split; [lia|].
        now replace (Z.to_nat i - a)%nat with (S (Z.to_nat i - S a)) by lia.
    + intros [Hi Hx]. destruct (Z.eq_dec i (Z.of_nat a)) as [->|Hne].
      * left. replace (Z.to_nat (Z.of_nat a) - a)%nat with 0%nat in Hx by lia.
        cbn in Hx. congruence.
      * right. split; [lia|].
        now replace (Z.to_nat i - a)%nat with (S (Z.to_nat i - S a)) in Hx by lia.
Qed.

Lemma enumerate_lookup {A : Type} (xs : list A) (i : Z) (x : A) :
  In (i, x) (enumerate xs) <-> (0 <= i)%Z /\ xs !! Z.to_nat i = Some x.
Proof.
  unfold enumerate, range. rewrite enumerate_from_lookup.
  now rewrite Nat.sub_0_r.
Qed.

(** X3.  For a target and points that are all within range,
    [find_nearest_points] returns min(k, n) pairs (index, distance to the
    target), listed by increasing distance and, at equal distance, by
    increasing index; each pair carries the distance of the point it names,
    and every point left out is no closer than any point returned. *)
Theorem find_nearest_points_sorted :
  forall (target_coord : coord) (coordinates : list coord) (k : Z),
    valid_coord target_coord -> Forall valid_coord coordinates -> (0 <= k)%Z ->
    exists found,
      find_nearest_points haversine target_coord coordinates k = Ok found /\
      length found = Nat.min (Z.to_nat k) (length coordinates) /\
      StronglySorted closer found /\
      (forall i d, In (i, d) found ->
         exists c, (0 <= i)%Z /\ coordinates !! Z.to_nat i = Some c /\
                   d = haversine target_coord c) /\
      (forall j c, coordinates !! j = Some c -> ~ In (Z.of_nat j) (map fst found) ->
         forall x, In x found -> closer x (Z.of_nat j, haversine target_coord c)).
Proof.
  intros target_coord coordinates k Ht Hcs Hk. unfold find_nearest_points.
  rewrite distances_loop; [|assumption|].
  2:{ apply List.Forall_forall. intros [i c] Hic. apply enumerate_lookup in Hic.
      destruct Hic as [_ Hc]. cbn [snd]. eapply (Forall_lookup_1 _ _ _ _ Hcs); eauto. }
  cbn [bind app].
  set (f := fun ic : Z * coord => (fst ic, haversine target_coord (snd ic))).
  set (all := map f (enumerate coordinates)).
  assert (Hsorted : StronglySorted closer (sorted_by_key snd all)).
  { apply (sorted_by_key_stable snd (fun x y => (fst x < fst y)%Z)).
    subst all. unfold enumerate, range. apply enumerate_from_sorted. reflexivity. }
  eexists. split; [reflexivity|]. split; [|split; [|split]].
  - rewrite py_slice_to_take by assumption. rewrite length_take.
    rewrite (Permutation_length (sorted_by_key_Permutation snd all)).
    subst all. rewrite length_map. unfold enumerate, range.
    rewrite length_combine, length_map, length_seq, Nat.min_id. reflexivity.
  - now apply StronglySorted_py_slice_to.
  - intros i d Hin. apply In_py_slice_to, In_sorted_by_key in Hin.
    apply in_map_iff in Hin. destruct Hin as ([i' c] & Heq & Hic).
    injection Heq as <- <-. apply enumerate_lookup in Hic. destruct Hic as [Hi Hc].
    exists c. auto.
  - intros j c Hc Hout x Hx.
    rewrite py_slice_to_take in Hout, Hx by assumption.
    assert (Hj : In (Z.of_nat j, haversine target_coord c) (sorted_by_key snd all)).
    { apply In_sorted_by_key. apply in_map_iff. exists (Z.of_nat j, c). split; [reflexivity|].
      apply enumerate_lookup. split; [lia|]. now rewrite Nat2Z.id. }
    rewrite <- (take_drop (Z.to_nat k) (sorted_by_key snd all)) in Hj, Hsorted.
    apply in_app_or in Hj. destruct Hj as [Hj|Hj].
    + exfalso. apply Hout. apply in_map_iff. now exists (Z.of_nat j, haversine target_coord c).
    + eapply StronglySorted_app_1_elem_of; [exact Hsorted| |]; now apply list_elem_of_In.
Qed.

(** X4.  [find_nearest_points] validates the target and every point:
    with at least one point given, it raises the validation's [ValueError]
    as soon as the target or some point is out of range. *)
Theorem find_nearest_points_invalid :
  forall (target_coord : coord) (coordinates : list coord) (k : Z),
    coordinates <> [] ->
    ~ (valid_coord target_coord /\ Forall valid_coord coordinates) ->
    exists msg,
      find_nearest_points haversine target_coord coordinates k = Raise (ValueError msg).
Proof.
  intros target_coord coordinates k Hne Hbad. unfold find_nearest_points.
  assert (Hloop : forall (pairs : list (Z * coord)) (acc : list (Z * Q)),
             pairs <> [] ->
             ~ (valid_coord target_coord /\ Forall (fun ic => valid_coord (snd ic)) pairs) ->
             exists msg,
               for_each (fun distances ic =>
                           let! distance := calculate_distance haversine target_coord (snd ic) in
                           Ok (distances ++ [(fst ic, distance)]))
                        pairs acc = Raise (ValueError msg)).
  { induction pairs as [|ic pairs IH]; intros acc Hp Hno; [congruence|].
    cbn [for_each].
    destruct (valid_coord_dec target_coord) as [Ht|Ht];
      [destruct (valid_coord_dec (snd ic)) as [Hic|Hic]|].
    - rewrite (calculate_distance_valid _ _ _ Ht Hic). cbn [bind].
      apply IH.
      + intros ->. apply Hno. split; [assumption|]. now repeat constructor.
      + intros [_ Hall]. apply Hno. split; [assumption|]. now constructor.
    - destruct (calculate_distance_invalid haversine target_coord (snd ic)) as [msg ->];
        [tauto|]. cbn [bind]. eauto.
    - destruct (calculate_distance_invalid haversine target_coord (snd ic)) as [msg ->];
        [tauto|]. cbn [bind]. eauto. }
  destruct (Hloop (enumerate coordinates) []) as [msg ->].
  - unfold enumerate, range. destruct coordinates; [congruence|]. discriminate.
  - intros [Ht Hall]. apply Hbad. split; [assumption|].
    apply List.Forall_forall. intros c Hc. apply list_elem_of_In, list_elem_of_lookup in Hc.
    destruct Hc as [j Hj]. rewrite List.Forall_forall in Hall.
    apply (Hall (Z.of_nat j, c)). apply enumerate_lookup. split; [lia|]. now rewrite Nat2Z.id.
  - cbn [bind]. eauto.
Qed.

End NearestPointsFacts.

(** ** Start indices outside [0, n) *)

Section StartIndexFacts.
Variable haversine : coord -> coord -> Q.

(** X8.  With two points or more, a start index below [-n] or at [n] and
    beyond makes [nearest_neighbor_route] raise [IndexError], before any
    distance is computed. *)
Theorem nearest_neighbor_route_start_out_of_bounds :
  forall (coordinates : list coord) (start_index : Z),
    (2 <= length coordinates)%nat ->
    (start_index < - Z.of_nat (length coordinates)
     \/ Z.of_nat (length coordinates) <= start_index)%Z ->
    nearest_neighbor_route haversine coordinates start_index = Raise IndexError.
Proof.
  intros coordinates start_index Hn Hstart. unfold nearest_neighbor_route.
  destruct (Nat.leb_spec (length coordinates) 1); [lia|].
  unfold py_set, py_position. rewrite length_replicate.
  destruct (Z.ltb_spec start_index 0).
  - destruct (Z.ltb_spec (start_index + Z.of_nat (length coordinates)) 0); [reflexivity|lia].
  - destruct (Z.ltb_spec start_index 0); [lia|].
    destruct (Z.leb_spec (Z.of_nat (length coordinates)) start_index); [reflexivity|lia].
Qed.

Lemma for_each_ext {S X : Type} (f g : S -> X -> result S) (xs : list X) :
  (forall s x, f s x = g s x) -> forall s, for_each f xs s = for_each g xs s.
Proof.
  intros Hfg. induction xs as [|x xs IH]; intros s; cbn [for_each]; [reflexivity|].
  rewrite Hfg. destruct (g s x); cbn [bind]; [apply IH|reflexivity].
Qed.

Lemma nearest_step_same_tour (coordinates : list coord) (n : nat) (start1 start2 : Z)
    (s1 s2 : list Z * list bool * Z) :
  same_tour coordinates start1 start2 s1 s2 ->
  outcomes_agree (same_tour coordinates start1 start2)
                 (nearest_step haversine coordinates n s1)
                 (nearest_step haversine coordinates n s2).
Proof.
  destruct s1 as [[route1 visited1] current1], s2 as [[route2 visited2] current2].
  intros (<- & Hcur & tail & -> & ->). unfold nearest_step.
  rewrite (for_each_ext (nearest_scan haversine coordinates visited1 current1)
                        (nearest_scan haversine coordinates visited1 current2)).
  2:{ intros [m nx] i. unfold nearest_scan. now rewrite Hcur. }
  destruct (for_each _ (range n) (None, (-1)%Z)) as [found|e]; cbn [bind outcomes_agree];
    [|reflexivity].
  destruct (snd found =? -1)%Z.
  - cbn. split; [reflexivity|]. split; [assumption|]. eauto.
  - destruct (py_set visited1 (snd found) true) as [visited'|e]; cbn; [|reflexivity].
    split; [reflexivity|]. split; [reflexivity|]. exists (tail ++ [snd found]). auto.
Qed.

Lemma nearest_loop_same_tour (coordinates : list coord) (n : nat) (start1 start2 : Z) :
  forall (k : nat) (s1 s2 : list Z * list bool * Z),
    same_tour coordinates start1 start2 s1 s2 ->
    outcomes_agree (same_tour coordinates start1 start2)
                   (repeat_loop k (nearest_step haversine coordinates n) s1)
                   (repeat_loop k (nearest_step haversine coordinates n) s2).
Proof.
  induction k as [|k IH]; intros s1 s2 Hs; cbn [repeat_loop]; [exact Hs|].
  pose proof (nearest_step_same_tour coordinates n start1 start2 s1 s2 Hs) as Hstep.
  destruct (nearest_step haversine coordinates n s1) as [s1'|e1],
    (nearest_step haversine coordinates n s2) as [s2'|e2]; cbn in Hstep |- *;
    try contradiction.
  - now apply IH.
  - assumption.
Qed.

Lemma consecutive_distances_head (coordinates : list coord) (a b : Z) (rest : list Z)
    (total : Q) :
  py_get coordinates a = py_get coordinates b ->
  consecutive_distances haversine coordinates (a :: rest) total
  = consecutive_distances haversine coordinates (b :: rest) total.
Proof.
  intros Hab. destruct rest as [|c rest]; [reflexivity|].
  rewrite !consecutive_distances_cons. now rewrite Hab.
Qed.

Lemma py_position_wrap (n : nat) (i : Z) :
  (- Z.of_nat n <= i < 0)%Z -> py_position n i = py_position n (Z.of_nat n + i).
Proof.
  intros Hi. unfold py_position.
  destruct (Z.ltb_spec i 0); [|lia].
  destruct (Z.ltb_spec (Z.of_nat n + i) 0); [lia|].
  now rewrite (Z.add_comm i).
Qed.

(** A negative start index names the same point as its wrap-around, and
    the two runs agree but for that name. *)
Lemma nearest_neighbor_route_wrap (coordinates : list coord) (start_index : Z) :
  (2 <= length coordinates)%nat ->
  (- Z.of_nat (length coordinates) <= start_index < 0)%Z ->
  outcomes_agree
    (fun route1 route2 =>
       exists tail, route1 = start_index :: tail /\
                    route2 = (Z.of_nat (length coordinates) + start_index)%Z :: tail)
    (nearest_neighbor_route haversine coordinates start_index)
    (nearest_neighbor_route haversine coordinates
                            (Z.of_nat (length coordinates) + start_index)).
Proof.
  intros Hn Hstart. unfold nearest_neighbor_route.
  destruct (Nat.leb_spec (length coordinates) 1); [lia|].
  set (n := length coordinates) in *.
  set (p := (Z.of_nat n + start_index)%Z).
  assert (Hget : forall {A : Type} (l : list A), length l = n -> py_get l start_index = py_get l p).
  { intros A l Hl. unfold py_get. rewrite Hl. now rewrite (py_position_wrap n start_index). }
  assert (Hset : py_set (replicate n false) start_index true
                 = py_set (replicate n false) p true).
  { unfold py_set. rewrite length_replicate. now rewrite (py_position_wrap n start_index). }
  rewrite Hset. destruct (py_set (replicate n false) p true) as [visited|e];
    cbn [bind outcomes_agree]; [|reflexivity].
  assert (Hloop : outcomes_agree (same_tour coordinates start_index p)
            (repeat_loop (n - 1) (nearest_step haversine coordinates n)
                         ([start_index], visited, start_index))
            (repeat_loop (n - 1) (nearest_step haversine coordinates n) ([p], visited, p))).
  { apply nearest_loop_same_tour.
    split; [reflexivity|]. split; [now apply Hget|]. now exists []. }
  destruct (repeat_loop (n - 1) (nearest_step haversine coordinates n)
                        ([start_index], visited, start_index)) as [[[r1 v1] c1]|e1],
    (repeat_loop (n - 1) (nearest_step haversine coordinates n) ([p], visited, p))
      as [[[r2 v2] c2]|e2]; cbn [bind outcomes_agree fst] in *; try contradiction;
    [|assumption].
  destruct Hloop as (_ & _ & tail & -> & ->).
  unfold calculate_route_distance.
  rewrite (consecutive_distances_head coordinates start_index p) by now apply Hget.
  destruct (consecutive_distances haversine coordinates (p :: tail) 0); cbn; eauto.
Qed.

(** X9.  A negative start index in [-n, -1] is taken as Python takes it,
    counting from the end; the route returned is the route from the point
    [n + start_index], except that it names its first stop by the negative
    index.  The list returned is therefore not a permutation of 0..n-1:
    the index [n + start_index] is missing from it. *)
Theorem nearest_neighbor_route_negative_start :
  forall (coordinates : list coord) (start_index : Z),
    (2 <= length coordinates)%nat ->
    Forall valid_coord coordinates ->
    (- Z.of_nat (length coordinates) <= start_index < 0)%Z ->
    exists tail,
      nearest_neighbor_route haversine coordinates start_index = Ok (start_index :: tail) /\
      nearest_neighbor_route haversine coordinates
                             (Z.of_nat (length coordinates) + start_index)
      = Ok ((Z.of_nat (length coordinates) + start_index)%Z :: tail) /\
      Permutation ((Z.of_nat (length coordinates) + start_index)%Z :: tail)
                  (range (length coordinates)) /\
      ~ In (Z.of_nat (length coordinates) + start_index)%Z (start_index :: tail).
Proof.
  intros coordinates start_index Hn Hvalid Hstart.
  pose proof (nearest_neighbor_route_wrap coordinates start_index Hn Hstart) as Hwrap.
  destruct (nearest_neighbor_route_tour haversine coordinates
              (Z.of_nat (length coordinates) + start_index))
    as (route & Hroute & Hperm & Hnodup & _); [auto|lia|].
  rewrite Hroute in Hwrap.
  destruct (nearest_neighbor_route haversine coordinates start_index) as [route1|e];
    cbn in Hwrap; [|contradiction].
  destruct Hwrap as (tail & -> & ->).
  exists tail. split; [reflexivity|]. split; [assumption|]. split; [assumption|].
  apply NoDup_cons in Hnodup. destruct Hnodup as [Hnotin _].
  intros [Heq|Hin]; [lia|]. apply Hnotin. now apply list_elem_of_In.
Qed.

End StartIndexFacts.

(** ** What the validators accept *)

(** X10.  [validate_user_profile] accepts a profile exactly when its five
    fields are there, the age is between 18 and 100, the budget is strictly
    positive and the three preferences are between 0 and 1. *)
Theorem validate_user_profile_accepts :
  forall profile : gmap string Q,
    validate_user_profile profile = true <-> profile_in_range profile.
Proof.
  intros profile. unfold validate_user_profile, profile_in_range, required_fields,
    preference_fields, field_of. cbn [forallb].
  destruct (profile !! "idade") as [idade|]; cbn [present andb negb default];
    [|split; [discriminate|intros (? & ? & ? & ? & ? & ? & _); discriminate]].
  destruct (profile !! "orcamento_max") as [orcamento|]; cbn [present andb negb default];
    [|split; [discriminate|intros (? & ? & ? & ? & ? & _ & ? & _); discriminate]].
  destruct (profile !! "preferencia_sustentabilidade") as [ps|];
    cbn [present andb negb default];
    [|split; [discriminate|intros (? & ? & ? & ? & ? & _ & _ & ? & _); discriminate]].
  destruct (profile !! "preferencia_aventura") as [pa|]; cbn [present andb negb default];
    [|split; [discriminate|intros (? & ? & ? & ? & ? & _ & _ & _ & ? & _); discriminate]].
  destruct (profile !! "preferencia_cultura") as [pc|]; cbn [present andb negb default];
    [|split; [discriminate|intros (? & ? & ? & ? & ? & _ & _ & _ & _ & ? & _); discriminate]].
  unfold Datatypes.id. split.
  - intros H.
    destruct (Qle_bool 18 idade && Qle_bool idade 100) eqn:Ea; cbn [negb] in H;
      [|discriminate H].
    destruct (Qle_bool orcamento 0) eqn:Eb; [discriminate H|].
    repeat match goal with
           | H : (_ && _) = true |- _ => apply andb_prop in H; destruct H
           end.
    repeat match goal with
           | H : Qle_bool _ _ = true |- _ => apply Qle_bool_iff in H
           end.
    exists idade, orcamento, ps, pa, pc.
    repeat split; try reflexivity; try assumption.
    apply Qnot_le_lt. rewrite <- Qle_bool_iff. congruence.
  - intros (i & o & s & a & c & Hi & Ho & Hs & Ha & Hc & Hr1 & Hr2 & Hr3 & Hr4 & Hr5).
    injection Hi as <-; injection Ho as <-; injection Hs as <-; injection Ha as <-;
      injection Hc as <-.
    destruct Hr1 as [Hr1 Hr1'], Hr3 as [Hr3 Hr3'], Hr4 as [Hr4 Hr4'], Hr5 as [Hr5 Hr5'].
    apply Qle_bool_iff in Hr1, Hr1', Hr3, Hr3', Hr4, Hr4', Hr5, Hr5'.
    rewrite Hr1, Hr1', Hr3, Hr3', Hr4, Hr4', Hr5, Hr5'. cbn [andb negb].
    destruct (Qle_bool orcamento 0) eqn:Eb; [|reflexivity].
    apply Qle_bool_iff in Eb. apply Qlt_not_le in Hr2. contradiction.
Qed.

Section CostFacts.
Variable env : Environment.

(** X11.  [_create_route_from_locations] refuses a non-empty selection of
    sites whose coordinates are within range only for its cost: it returns
    no route exactly when the sum of the fees exceeds the budget.  (The fees
    are whole numbers, none negative, and their sum is below 2^53, so that
    the sum the code computes, on 64-bit integers or on floats, is their
    exact sum.) *)
Theorem create_route_refused_only_for_cost :
  forall (locations : list LocationRecord) (max_budget : Q),
    locations <> [] ->
    Forall valid_coord (coordinates_of locations) ->
    Forall (fun loc => exists fee : Z, (0 <= fee)%Z /\ taxa_aoa (site loc) = inject_Z fee)
           locations ->
    (Qsum (map (fun loc => taxa_aoa (site loc)) locations) < inject_Z (2 ^ 53))%Q ->
    (_create_route_from_locations env locations max_budget = None
     <-> (max_budget < Qsum (map (fun loc => taxa_aoa (site loc)) locations))%Q).
Proof.
  intros locations max_budget Hne Hvalid _ _.
  unfold _create_route_from_locations.
  destruct (Qltb max_budget _) eqn:E.
  - apply Qltb_lt in E. tauto.
  - apply Qltb_ge in E.
    destruct locations as [|first rest] eqn:Hl; [congruence|]. rewrite <- Hl in *.
    destruct (build_route_defined env locations first
                (Qsum (map (fun loc => taxa_aoa (site loc)) locations)))
      as (order & route_data & _ & _ & -> & _).
    + now rewrite Hl.
    + intros _. exact Hvalid.
    + split; [discriminate|]. intros Hlt. apply Qlt_not_le in Hlt. contradiction.
Qed.

End CostFacts.

(** ** Where the routes of the optimiser come from *)

Lemma cluster_records_In (df_clustered : DataFrame) (cluster_id : Z) (x : LocationRecord) :
  In x (cluster_records df_clustered cluster_id) ->
  In (site x) (rows df_clustered) /\ site_cluster x = cluster_id.
Proof.
  unfold cluster_records. destruct (cluster df_clustered) as [clusters|]; [|intros []].
  intros Hx. apply in_map_iff in Hx. destruct Hx as ([r c] & <- & Hrc).
  apply filter_In in Hrc. destruct Hrc as [Hrc Hc]. cbn [site site_cluster fst snd] in *.
  split; [now apply in_combine_l in Hrc|]. now apply Z.eqb_eq.
Qed.

Lemma df_sample_In (env : Environment) (cluster_df selected : list LocationRecord)
    (n seed : Z) (x : LocationRecord) :
  df_sample env cluster_df n seed = Ok selected -> In x selected -> In x cluster_df.
Proof.
  unfold df_sample. destruct (n <? 0)%Z; [discriminate|]. intros Hrun Hx.
  destruct (sample_lookups _ _ _ _ Hrun) as (picks & -> & Hall). cbn [app] in Hx. clear Hrun.
  induction Hall as [|p y ? ? Hp Hall IH]; [destruct Hx|].
  destruct Hx as [<-|Hx]; [|now apply IH].
  apply list_elem_of_In. now apply (list_elem_of_lookup_2 _ p).
Qed.

Section OriginFacts.
Variable env : Environment.
Variable config : Config.

(** Every route returned was scored from a route built on locations of one
    cluster of the clustered frame. *)
Lemma generate_routes_origin (df : DataFrame) (max_locations num_routes : option Z)
    (max_budget : option Q) (g : rng env) (r : Route) :
  In r (fst (fst (generate_routes env config df max_locations num_routes max_budget g))) ->
  exists r0 selected cluster_id,
    r = score_route config r0 /\
    _create_route_from_locations env selected
      (py_or_Q max_budget (default_max_budget (route config))) = Some r0 /\
    (forall x, In x selected ->
               In x (cluster_records (_create_geographic_clusters env config df) cluster_id)).
Proof.
  intros Hin. unfold generate_routes in Hin.
  set (limit := py_or_Z max_locations (default_max_locations (route config))) in *.
  set (budget := py_or_Q max_budget (default_max_budget (route config))) in *.
  destruct (rows df) as [|row0 rest] eqn:Hrows; [destruct Hin|].
  set (df_clustered := _create_geographic_clusters env config df) in *.
  destruct (routes_of_clusters env df_clustered _ limit budget g)
    as [all_routes g'] eqn:Hall.
  cbn [fst] in Hin.
  apply select_best_routes_In in Hin as [Hin _].
  unfold _calculate_route_scores in Hin. apply in_map_iff in Hin as (r0 & <- & Hin).
  assert (Hin' : In r0 (fst (routes_of_clusters env df_clustered
                               (unique (default [] (cluster df_clustered)))
                               limit budget g))) by now rewrite Hall.
  apply routes_of_clusters_In in Hin' as (cluster_id & g0 & Hcluster).
  apply generate_cluster_routes_In in Hcluster as (selected & Hcreate & Hselected).
  exists r0, selected, cluster_id. split; [reflexivity|]. split; [assumption|].
  destruct Hselected as [[-> _] | (seed & _ & Hrun)]; [auto|].
  intros x Hx. eapply df_sample_In; eauto.
Qed.

Lemma build_route_name (locations : list LocationRecord) (total_cost : Q)
    (route_data : Route) :
  build_route env locations total_cost = Ok route_data ->
  exists first,
    head locations = Some first /\
    route_nome route_data
    = ("Rota Cluster " ++ str_Z (site_cluster first + 1) ++ " - "
       ++ str_Z (Z.of_nat (length (locais route_data))) ++ " locais")%string.
Proof.
  unfold build_route. intros H.
  destruct (nearest_neighbor_route _ _ _) as [order|]; [|discriminate]. cbn [bind] in H.
  destruct (for_each _ order []) as [optimized|]; [|discriminate]. cbn [bind] in H.
  destruct (calculate_route_distance _ _ _) as [dist|]; [|discriminate]. cbn [bind] in H.
  destruct (py_get locations 0) as [first|] eqn:Hfirst; [|discriminate]. cbn [bind] in H.
  injection H as <-. exists first. split; [|reflexivity].
  destruct locations as [|l0 rest]; [discriminate Hfirst|].
  change 0%Z with (Z.of_nat 0) in Hfirst.
  rewrite (py_get_nat (l0 :: rest) 0 l0 eq_refl) in Hfirst. cbn. congruence.
Qed.

(** X12.  Every route that [generate_routes] returns is made of rows of
    the frame it was given, all carrying one and the same cluster label, and
    the route is named after that label: "Rota Cluster <label + 1> - <number
    of sites> locais". *)
Theorem generate_routes_single_cluster :
  forall (df : DataFrame) (max_locations num_routes : option Z) (max_budget : option Q)
         (g : rng env) (r : Route),
    In r (fst (fst (generate_routes env config df max_locations num_routes max_budget g))) ->
    exists cluster_id,
      Forall (fun loc => In (site loc) (rows df) /\ site_cluster loc = cluster_id)
             (locais r) /\
      route_nome r
      = ("Rota Cluster " ++ str_Z (cluster_id + 1) ++ " - "
         ++ str_Z (Z.of_nat (length (locais r))) ++ " locais")%string.
Proof.
  intros df max_locations num_routes max_budget g r Hin.
  apply generate_routes_origin in Hin as (r0 & selected & cluster_id & -> & Hcreate & Hsel).
  cbn [score_route locais route_nome].
  pose proof Hcreate as Hspec.
  apply create_route_spec in Hspec as (_ & Hperm & _ & _).
  apply create_route_inversion in Hcreate as [_ Hbuild].
  apply build_route_name in Hbuild as (first & Hfirst & Hname).
  assert (Hall : forall x, In x selected ->
                   In (site x) (rows df) /\ site_cluster x = cluster_id).
  { intros x Hx. apply Hsel, cluster_records_In in Hx.
    now rewrite create_geographic_clusters_keeps_rows in Hx. }
  exists cluster_id. split.
  - apply List.Forall_forall. intros loc Hloc. apply Hall.
    eapply Permutation_in; eauto.
  - rewrite Hname. destruct (Hall first) as [_ ->]; [|reflexivity].
    destruct selected; [discriminate|]. injection Hfirst as <-. now left.
Qed.

End OriginFacts.

(** ** Path lengths *)

Section PathLengthFacts.
Variable haversine : coord -> coord -> Q.

Lemma consecutive_distances_seq (coordinates : list coord) :
  forall (m k : nat) (total : Q),
    (k + m <= length coordinates)%nat ->
    ((2 <= m)%nat -> Forall valid_coord coordinates) ->
    exists q,
      consecutive_distances haversine coordinates (map Z.of_nat (seq k m)) total = Ok q /\
      (q == total + path_length haversine (take m (drop k coordinates)))%Q.
Proof.
  induction m as [|m IH]; intros k total Hlen Hvalid.
  - exists total. split; [reflexivity|]. rewrite take_0. cbn [path_length]. ring.
  - destruct m as [|m].
    + exists total. split; [reflexivity|].
      destruct (drop k coordinates) as [|c rest]; [rewrite take_nil|rewrite firstn_cons, take_0];
        cbn [path_length]; ring.
    + specialize (Hvalid ltac:(lia)).
      destruct (lookup_lt_is_Some_2 coordinates k) as [ck Hck]; [lia|].
      destruct (lookup_lt_is_Some_2 coordinates (S k)) as [cn Hcn]; [lia|].
      change (map Z.of_nat (seq k (S (S m))))
        with (Z.of_nat k :: Z.of_nat (S k) :: map Z.of_nat (seq (S (S k)) m)).
      rewrite consecutive_distances_cons.
      rewrite (py_get_nat _ _ _ Hck), (py_get_nat _ _ _ Hcn). cbn [bind].
      rewrite calculate_distance_valid
        by (eapply (Forall_lookup_1 _ _ _ _ Hvalid); eauto).
      cbn [bind].
      destruct (IH (S k) (total + haversine ck cn)%Q) as (q & Hq & Hsum); [lia|auto|].
      change (map Z.of_nat (seq (S k) (S m)))
        with (Z.of_nat (S k) :: map Z.of_nat (seq (S (S k)) m)) in Hq.
      exists q. split; [exact Hq|].
      rewrite Hsum. rewrite (drop_S _ _ _ Hck), (drop_S _ _ _ Hcn).
      rewrite !firstn_cons. cbn [path_length]. ring.
Qed.

Lemma calculate_route_distance_path (coordinates : list coord) :
  ((2 <= length coordinates)%nat -> Forall valid_coord coordinates) ->
  exists d,
    calculate_route_distance haversine coordinates (range (length coordinates)) = Ok d /\
    (d == path_length haversine coordinates)%Q.
Proof.
  intros Hvalid. unfold calculate_route_distance, range.
  destruct (consecutive_distances_seq coordinates (length coordinates) 0 0)
    as (q & Hq & Hsum); [lia|assumption|].
  exists q. split; [assumption|].
  rewrite Hsum. rewrite drop_0, firstn_all. ring.
Qed.

End PathLengthFacts.

(** ** The order of the routes returned *)

Lemma StronglySorted_filter {A : Type} (R : A -> A -> Prop) (f : A -> bool) (l : list A) :
  StronglySorted R l -> StronglySorted R (List.filter f l).
Proof.
  induction 1 as [|x l Hs IH Hx]; cbn [List.filter]; [constructor|].
  destruct (f x); [|assumption]. constructor; [assumption|].
  apply List.Forall_forall. intros y Hy. apply filter_In in Hy. destruct Hy as [Hy _].
  rewrite List.Forall_forall in Hx. now apply Hx.
Qed.

Section OrderFacts.
Variable env : Environment.
Variable config : Config.

(** X14.  [generate_routes] returns its routes best first: every route
    carries a score, and the scores never decrease along the list. *)
Theorem generate_routes_best_first :
  forall (df : DataFrame) (max_locations num_routes : option Z) (max_budget : option Q)
         (g : rng env),
    exists scores,
      map score (fst (fst (generate_routes env config df max_locations num_routes
                                           max_budget g)))
        = map Some scores /\
      StronglySorted Qle scores.
Proof.
  intros df max_locations num_routes max_budget g. unfold generate_routes.
  destruct (rows df) as [|row0 rest]; [exists []; split; [reflexivity|constructor]|].
  destruct (routes_of_clusters env _ _ _ _ g) as [all_routes g'].
  cbn [fst]. unfold _select_best_routes, _calculate_route_scores.
  destruct (map (score_route config) all_routes) as [|s0 scored] eqn:Hscored;
    [exists []; split; [reflexivity|constructor]|].
  rewrite <- Hscored.
  assert (Hall : forallb (fun r => present (score r)) (map (score_route config) all_routes)
                 = true).
  { apply forallb_forall. intros r Hr. apply in_map_iff in Hr.
    destruct Hr as (r0 & <- & _). reflexivity. }
  rewrite Hall.
  set (chosen := List.filter _ _).
  assert (Hsorted : StronglySorted (fun x y => (score_key x <= score_key y)%Q) chosen).
  { apply StronglySorted_filter, StronglySorted_py_slice_to, sorted_by_key_sorted. }
  assert (Hscore : forall r, In r chosen -> score r = Some (score_key r)).
  { intros r Hr. apply filter_In in Hr. destruct Hr as [Hr _].
    apply In_py_slice_to, In_sorted_by_key, in_map_iff in Hr.
    destruct Hr as (r0 & <- & _). reflexivity. }
  exists (map score_key chosen). split.
  - rewrite map_map. apply map_ext_in. exact Hscore.
  - clear Hscore. induction Hsorted as [|r l Hs IH Hr]; cbn [map]; constructor; [assumption|].
    apply Forall_map. eapply Forall_impl; [apply Forall_forall; rewrite <- Forall_forall|].
    + apply List.Forall_forall. rewrite List.Forall_forall in Hr. exact Hr.
    + auto.
Qed.

End OrderFacts.

(** ** Clusters *)

Lemma unique_zeros {A : Type} (l : list A) :
  List.filter (fun y => negb (y =? 0)%Z) (unique (map (fun _ => 0%Z) l)) = [].
Proof.
  induction l as [|x l IH]; [reflexivity|].
  cbn [map unique List.filter]. change (negb (0 =? 0)%Z) with false. cbn iota.
  now rewrite IH.
Qed.

Section ClusterFacts.
Variable env : Environment.
Variable config : Config.

Lemma create_geographic_clusters_small (df : DataFrame) :
  (length (rows df) < 4)%nat ->
  _create_geographic_clusters env config df
  = {| rows := rows df; cluster := Some (single_cluster df) |}.
Proof.
  intros Hsmall. unfold _create_geographic_clusters, single_cluster.
  set (size := Z.of_nat (length (rows df))).
  assert (size / 2 < 2)%Z by (apply Z.div_lt_upper_bound; lia).
  destruct (Z.ltb_spec (Z.min (Z.min (configured_clusters config) (size / 2)) size) 2);
    [reflexivity|lia].
Qed.

(** X15.  [_create_geographic_clusters] keeps the rows and labels every
    one of them with a cluster number that is not negative.  A frame of
    fewer than four rows is never handed to k-means, nor is any frame when
    route clustering is switched off: all rows then get the label 0. *)
Theorem create_geographic_clusters_labels :
  forall df : DataFrame,
    exists labels,
      _create_geographic_clusters env config df
        = {| rows := rows df; cluster := Some labels |} /\
      length labels = length (rows df) /\
      Forall (fun label => (0 <= label)%Z) labels /\
      ((length (rows df) < 4)%nat \/ route_clustering (route config) = false ->
       labels = single_cluster df).
Proof.
  intros df. unfold _create_geographic_clusters, single_cluster.
  assert (Hzero : length (map (fun _ : Location => 0%Z) (rows df)) = length (rows df) /\
                  Forall (fun label => (0 <= label)%Z)
                         (map (fun _ : Location => 0%Z) (rows df))).
  { split; [apply length_map|]. apply Forall_map. apply Forall_forall. intros; cbn; lia. }
  destruct Hzero as [Hlen Hpos].
  set (size := Z.of_nat (length (rows df))).
  destruct (Z.ltb_spec (Z.min (Z.min (configured_clusters config) (size / 2)) size) 2)
    as [Hfew|Hmany].
  - eexists. split; [reflexivity|]. auto.
  - assert (Hbig : ~ ((length (rows df) < 4)%nat \/ route_clustering (route config) = false)).
    { intros [Hsmall|Hoff].
      - assert (size / 2 < 2)%Z by (apply Z.div_lt_upper_bound; lia). lia.
      - unfold configured_clusters in Hmany. rewrite Hoff in Hmany. lia. }
    destruct (kmeans_fit_predict env _ _) as [clusters|e].
    + destruct (Nat.eqb_spec (length clusters) (length (rows df))) as [Hl|Hl]; cbn [andb].
      * destruct (forallb (fun c => (0 <=? c)%Z) clusters) eqn:Hnonneg.
        -- exists clusters. split; [reflexivity|]. split; [assumption|]. split; [|tauto].
           apply List.Forall_forall. intros c Hc.
           rewrite forallb_forall in Hnonneg. apply Z.leb_le. now apply Hnonneg.
        -- eexists. split; [reflexivity|]. tauto.
      * eexists. split; [reflexivity|]. tauto.
    + eexists. split; [reflexivity|]. tauto.
Qed.

Lemma sample_attempts_length (cluster_df : list LocationRecord) (max_locations : Z)
    (max_budget : Q) :
  forall (k : nat) (routes out : list Route) (g g' : rng env),
    sample_attempts env k cluster_df max_locations max_budget (routes, g) = (Ok out, g') ->
    (length out <= length routes + k)%nat.
Proof.
  induction k as [|k IH]; intros routes out g g' Hrun.
  - cbn in Hrun. injection Hrun as <- _. lia.
  - cbn [sample_attempts] in Hrun. unfold sample_attempt in Hrun.
    destruct (randint env 1000 g) as [seed g1].
    destruct (df_sample env cluster_df _ seed) as [selected|]; [|discriminate].
    destruct (_create_route_from_locations env selected max_budget) as [r1|].
    + apply IH in Hrun. rewrite length_app in Hrun. cbn in Hrun. lia.
    + apply IH in Hrun. lia.
Qed.

(** A cluster gives at most three routes, and at most one when it fits
    into a route or has fewer than four locations. *)
Lemma generate_cluster_routes_length (cluster_df : list LocationRecord) (max_locations : Z)
    (max_budget : Q) (g : rng env) :
  let routes := fst (_generate_cluster_routes env cluster_df max_locations max_budget g) in
  (length routes <= 3)%nat /\
  ((Z.of_nat (length cluster_df) <= max_locations)%Z \/ (length cluster_df < 4)%nat ->
   (length routes <= 1)%nat).
Proof.
  unfold _generate_cluster_routes.
  destruct (Z.leb_spec (Z.of_nat (length cluster_df)) max_locations) as [Hsmall|Hbig].
  - destruct (_create_route_from_locations env cluster_df max_budget); cbn; lia.
  - destruct (sample_attempts env _ cluster_df max_locations max_budget ([], g))
      as [outcome g'] eqn:Hrun.
    cbn [fst]. destruct outcome as [out|e]; cbn [except_return]; [|cbn; lia].
    apply sample_attempts_length in Hrun. cbn [length] in Hrun.
    split; [lia|]. intros [Hfit|Hfew]; [lia|].
    assert (Z.of_nat (length cluster_df) / 2 < 2)%Z by (apply Z.div_lt_upper_bound; lia).
    lia.
Qed.

(** X16.  From a catalogue of fewer than four sites [generate_routes]
    returns at most one route, whatever number of routes is asked for. *)
Theorem generate_routes_small_catalogue :
  forall (df : DataFrame) (max_locations num_routes : option Z) (max_budget : option Q)
         (g : rng env),
    (length (rows df) < 4)%nat ->
    (length (fst (fst (generate_routes env config df max_locations num_routes
                                       max_budget g))) <= 1)%nat.
Proof.
  intros df max_locations num_routes max_budget g Hsmall. unfold generate_routes.
  destruct (rows df) as [|row0 rest] eqn:Hrows; [cbn; lia|]. rewrite <- Hrows in *.
  rewrite (create_geographic_clusters_small df Hsmall).
  change (default [] (cluster {| rows := rows df; cluster := Some (single_cluster df) |}))
    with (single_cluster df).
  assert (Hunique : unique (single_cluster df) = [0%Z]).
  { unfold single_cluster. rewrite Hrows. cbn [map unique]. f_equal. apply unique_zeros. }
  rewrite Hunique. cbn [routes_of_clusters].
  destruct (_generate_cluster_routes env _ _ _ g) as [cluster_routes g1] eqn:Hcluster.
  cbn [fst app]. rewrite app_nil_r.
  pose proof (generate_cluster_routes_length
                (cluster_records {| rows := rows df; cluster := Some (single_cluster df) |} 0)
                (py_or_Z max_locations (default_max_locations (route config)))
                (py_or_Q max_budget (default_max_budget (route config))) g) as [_ Hone].
  rewrite Hcluster in Hone. cbn [fst] in Hone.
  assert (Hlen : (length cluster_routes <= 1)%nat).
  { apply Hone. right. unfold cluster_records. cbn [cluster rows].
    rewrite length_map. eapply Nat.le_lt_trans; [apply filter_length_le|].
    rewrite length_combine. lia. }
  assert (Hsel : forall pool k, (length (_select_best_routes pool k) <= length pool)%nat).
  { intros pool k. unfold _select_best_routes. destruct pool as [|p pool]; [cbn; lia|].
    assert (Hslice : forall (l : list Route), (length (py_slice_to l k) <= length l)%nat).
    { intros l. unfold py_slice_to. destruct (k <? 0)%Z; rewrite length_take; lia. }
    destruct (forallb _ (p :: pool)).
    - eapply Nat.le_trans; [apply filter_length_le|].
      eapply Nat.le_trans; [apply Hslice|].
      now rewrite (Permutation_length (sorted_by_key_Permutation _ _)).
    - apply Hslice. }
  eapply Nat.le_trans; [apply Hsel|].
  unfold _calculate_route_scores. now rewrite length_map.
Qed.

End ClusterFacts.

(** ** Re-ordering a route *)

Section ReorderFacts.
Variable env : Environment.

(** X17.  [optimize_existing_route] never loses or repeats a location: it
    returns a permutation of the locations it was given, which is the list
    itself when some coordinate is out of range.  When all coordinates are
    within range the result is the list re-ordered along the
    nearest-neighbour tour from its first location. *)
Theorem optimize_existing_route_permutation :
  forall locations : list LocationRecord,
    Permutation (optimize_existing_route env locations) locations /\
    ((2 <= length locations)%nat -> ~ Forall valid_coord (coordinates_of locations) ->
     optimize_existing_route env locations = locations) /\
    (Forall valid_coord (coordinates_of locations) ->
     forall first, head locations = Some first ->
       exists order,
         nearest_neighbor_route (haversine env) (coordinates_of locations) 0 = Ok order /\
         optimize_existing_route env locations = picked locations first order /\
         head (optimize_existing_route env locations) = Some first).
Proof.
  intros locations. unfold optimize_existing_route.
  destruct (Nat.leb_spec (length locations) 1) as [Hshort|Hlong].
  - split; [reflexivity|]. split; [intros; lia|].
    intros _ first Hfirst.
    exists [0%Z]. split.
    { unfold nearest_neighbor_route, coordinates_of. rewrite length_map.
      destruct (Nat.leb_spec (length locations) 1); [reflexivity|lia]. }
    destruct locations as [|l0 [|l1 rest]]; [discriminate|injection Hfirst as <-|cbn in Hshort; lia].
    split; [reflexivity|reflexivity].
  - assert (Hne : coordinates_of locations <> []).
    { destruct locations; [cbn in Hlong; lia|discriminate]. }
    assert (Hcl : length (coordinates_of locations) = length locations)
      by (unfold coordinates_of; apply length_map).
    destruct (nearest_neighbor_route (haversine env) (coordinates_of locations) 0)
      as [order|e] eqn:Hnn; cbn [bind except_return].
    + pose proof (nearest_neighbor_route_success_permutation _ _ _ Hne Hnn) as Hperm.
      rewrite Hcl in Hperm.
      destruct locations as [|l0 rest] eqn:Hl; [cbn in Hlong; lia|]. rewrite <- Hl in *.
      rewrite (pick_locations locations l0).
      2:{ apply List.Forall_forall. intros z Hz. eapply Permutation_in; eauto. }
      cbn [app except_return]. split; [now apply picked_permutation|]. split.
      * intros _ Hbad. exfalso. apply Hbad.
        apply (nearest_neighbor_route_success_valid (haversine env) _ order); [lia|assumption].
      * intros Hvalid first Hfirst. rewrite Hl in Hfirst. injection Hfirst as <-.
        exists order. split; [reflexivity|]. split; [reflexivity|].
        destruct (nearest_neighbor_route_tour (haversine env) (coordinates_of locations) 0)
          as (route & Hroute & _ & _ & Hhead & _); [auto|lia|].
        rewrite Hnn in Hroute. injection Hroute as <-.
        destruct order as [|o order']; [discriminate|]. injection Hhead as ->.
        cbn [picked map head]. now rewrite Hl.
    + split; [reflexivity|]. split; [reflexivity|].
      intros Hvalid first _. exfalso.
      destruct (nearest_neighbor_route_tour (haversine env) (coordinates_of locations) 0)
        as (route & Hroute & _); [auto|lia|congruence].
Qed.

End ReorderFacts.

(** ** Ratings *)

Lemma np_clip_bounds (x lo hi : Q) : (lo <= hi)%Q -> (lo <= np_clip x lo hi <= hi)%Q.
Proof.
  intros Hlh. unfold np_clip.
  destruct (Qltb x lo) eqn:E1; [split; [apply Qle_refl|assumption]|].
  apply Qltb_ge in E1.
  destruct (Qltb hi x) eqn:E2; [split; [assumption|apply Qle_refl]|].
  apply Qltb_ge in E2. auto.
Qed.

(** X18.  A rating that [prever_rating_usuario] returns lies between 1 and
    5; the rating model is asked once for it, and not at all when no model
    has been trained (the rating is then 3). *)
Theorem prever_rating_usuario_range :
  forall (engine engine' : MLEngine) (user_profile : gmap string Q) (local_id : Z)
         (rating : Q),
    prever_rating_usuario engine user_profile local_id = (Ok rating, engine') ->
    (1 <= rating <= 5)%Q /\
    ((rating_model engine = None /\ rating = 3%Q /\ engine' = engine)
     \/ (rating_model engine <> None /\ engine' = count_rating_call engine)).
Proof.
  intros engine engine' user_profile local_id rating. unfold prever_rating_usuario.
  destruct (rating_model engine) as [model|].
  - match goal with |- context [match ?p with Ok _ => _ | Raise _ => _ end] =>
      destruct p as [features|e] end; [|discriminate].
    intros H. injection H as <- <-. split; [|right; split; [discriminate|reflexivity]].
    apply np_clip_bounds. discriminate.
  - intros H. injection H as <- <-. split; [split; discriminate|]. left. auto.
Qed.

Lemma predict_ratings_spec (user_profile : gmap string Q) :
  forall (viaveis : list (Z * Location)) (engine engine' : MLEngine)
         (acc out : list RatedSite),
    predict_ratings engine user_profile viaveis acc = (Ok out, engine') ->
    exists rated,
      out = acc ++ rated /\
      map local_id rated = map fst viaveis /\
      map local rated = map snd viaveis /\
      Forall (fun item => (1 <= rating_previsto item <= 5)%Q) rated /\
      clustering_model engine' = clustering_model engine.
Proof.
  induction viaveis as [|[idx loc] viaveis IH]; intros engine engine' acc out Hrun.
  - cbn in Hrun. injection Hrun as <- <-. exists []. rewrite app_nil_r. repeat split. constructor.
  - cbn [predict_ratings] in Hrun.
    destruct (prever_rating_usuario engine user_profile idx) as [[rating|e] engine1] eqn:Hone;
      [|discriminate].
    apply IH in Hrun. destruct Hrun as (rated & -> & Hids & Hlocs & Hrange & Hmodel).
    exists ({| local_id := idx; rating_previsto := rating; local := loc |} :: rated).
    rewrite <- app_assoc. cbn [app map fst snd local_id local]. split; [reflexivity|].
    split; [now f_equal|]. split; [now f_equal|].
    unfold prever_rating_usuario in Hone.
    destruct (rating_model engine) as [model|].
    + match type of Hone with context [match ?p with Ok _ => _ | Raise _ => _ end] =>
        destruct p as [features|e] end; [|discriminate].
      injection Hone as <- <-. split; [|exact Hmodel].
      constructor; [|assumption]. cbn. apply np_clip_bounds. discriminate.
    + injection Hone as <- <-. split; [|exact Hmodel].
      constructor; [|assumption]. cbn. split; discriminate.
Qed.

(** ** Personalised routes *)

Section PersonalFacts.
Variable env : Environment.

Lemma Qsum_snoc (xs : list Q) (x : Q) : Qsum (xs ++ [x]) = (Qsum xs + x)%Q.
Proof. unfold Qsum. now rewrite fold_left_app. Qed.

Lemma assemble_fold (predict_cluster : list Q -> Z) (orcamento_max : Q) (max_locais : Z) :
  forall (items rota rota' : list RatedSite) (b b' : Q) (cl cl' : list Z),
    fold_left (assemble_step predict_cluster orcamento_max max_locais) items (rota, b, cl)
      = (rota', b', cl') ->
    b = Qsum (fees rota) ->
    (rota = [] \/ ((Z.of_nat (length rota) <= max_locais)%Z /\ (b <= orcamento_max)%Q)) ->
    exists add,
      rota' = rota ++ add /\
      sublist add items /\
      b' = Qsum (fees rota') /\
      (rota' = [] \/ ((Z.of_nat (length rota') <= max_locais)%Z /\ (b' <= orcamento_max)%Q)).
Proof.
  induction items as [|item items IH]; intros rota rota' b b' cl cl' Hrun Hb Hok.
  - cbn in Hrun. injection Hrun as <- <- <-. exists []. rewrite app_nil_r.
    repeat split; try assumption. constructor.
  - cbn [fold_left] in Hrun. unfold assemble_step at 2 in Hrun.
    destruct (Z.leb_spec max_locais (Z.of_nat (length rota))) as [Hfull|Hroom].
    { destruct (IH _ _ _ _ _ _ Hrun Hb Hok) as (add & -> & Hsub & Hb' & Hok').
      exists add. repeat split; try assumption. now constructor. }
    destruct (existsb _ cl && _).
    { destruct (IH _ _ _ _ _ _ Hrun Hb Hok) as (add & -> & Hsub & Hb' & Hok').
      exists add. repeat split; try assumption. now constructor. }
    destruct (Qle_bool (b + taxa_aoa (local item)) orcamento_max) eqn:Hfits.
    + apply Qle_bool_iff in Hfits.
      destruct (IH _ _ _ _ _ _ Hrun) as (add & -> & Hsub & Hb' & Hok').
      * unfold fees. rewrite map_app. cbn [map]. rewrite Qsum_snoc. now subst b.
      * right. rewrite length_app. cbn [length]. split; [lia|assumption].
      * exists (item :: add). rewrite <- app_assoc in *. cbn [app] in *.
        repeat split; try assumption. now constructor.
    + destruct (IH _ _ _ _ _ _ Hrun Hb Hok) as (add & -> & Hsub & Hb' & Hok').
      exists add. repeat split; try assumption. now constructor.
Qed.

Lemma assemble_routes_ok (predict_cluster : list Q -> Z) (items : list RatedSite)
    (orcamento_max : Q) (max_locais : Z) :
  forall (k : nat) (rotas : list PersonalizedRoute) (cl : list Z),
    Forall (personal_route_ok orcamento_max max_locais items) rotas ->
    Forall (personal_route_ok orcamento_max max_locais items)
           (assemble_routes env k predict_cluster items orcamento_max max_locais (rotas, cl))
    /\ (length (assemble_routes env k predict_cluster items orcamento_max max_locais
                                (rotas, cl))
        <= length rotas + k)%nat.
Proof.
  induction k as [|k IH]; intros rotas cl Hall.
  - cbn. split; [assumption|lia].
  - cbn [assemble_routes].
    destruct (fold_left _ items ([], 0%Q, cl)) as [[rota b] cl'] eqn:Hfold.
    destruct (assemble_fold _ _ _ _ _ _ _ _ _ _ Hfold eq_refl (or_introl eq_refl))
      as (add & Hrota & Hsub & Hb & Hok).
    cbn [app] in Hrota. subst add.
    destruct rota as [|item rest] eqn:Hr.
    + destruct (IH rotas cl' Hall) as [H1 H2]. split; [assumption|lia].
    + rewrite <- Hr in *.
      destruct (IH (rotas ++ [route_info env rotas rota b]) cl') as [H1 H2].
      * apply Forall_app. split; [assumption|]. repeat constructor; cbn.
        -- rewrite Hr. discriminate.
        -- assumption.
        -- destruct Hok as [Hnil|[Hlen _]]; [rewrite Hr in Hnil; discriminate|assumption].
        -- assumption.
        -- destruct Hok as [Hnil|[_ Hle]]; [rewrite Hr in Hnil; discriminate|assumption].
      * split; [assumption|]. rewrite length_app in H2. cbn in H2. lia.
Qed.

Lemma iterrows_ids (df : list Location) : NoDup (map fst (iterrows df)).
Proof.
  unfold iterrows, range.
  assert (Hmap : map fst (combine (map Z.of_nat (seq 0 (length df))) df)
                 = map Z.of_nat (seq 0 (length df))).
  { generalize 0%nat. induction df as [|x df IH]; intros a; [reflexivity|].
    cbn [length seq map combine fst]. f_equal. apply IH. }
  rewrite Hmap. apply NoDup_ListNoDup. apply Finite.Injective_map_NoDup.
  - intros x y. lia.
  - apply seq_NoDup.
Qed.

Lemma sublist_List_filter {A : Type} (f : A -> bool) (l : list A) :
  sublist (List.filter f l) l.
Proof.
  induction l as [|x l IH]; cbn [List.filter]; [constructor|].
  destruct (f x); now constructor.
Qed.

Lemma StronglySorted_impl {A : Type} (R R' : A -> A -> Prop) (l : list A) :
  (forall x y, R x y -> R' x y) -> StronglySorted R l -> StronglySorted R' l.
Proof.
  intros Himpl. induction 1 as [|x l Hs IH Hx]; constructor; [assumption|].
  eapply List.Forall_impl; [|exact Hx]. apply Himpl.
Qed.

Lemma sublist_map {A B : Type} (f : A -> B) (l1 l2 : list A) :
  sublist l1 l2 -> sublist (map f l1) (map f l2).
Proof. induction 1; cbn [map]; now constructor. Qed.

Lemma StronglySorted_sublist {A : Type} (R : A -> A -> Prop) (l1 l2 : list A) :
  sublist l1 l2 -> StronglySorted R l2 -> StronglySorted R l1.
Proof.
  induction 1 as [|x l1 l2 Hsub IH|x l1 l2 Hsub IH]; intros Hs.
  - constructor.
  - apply StronglySorted_inv in Hs. destruct Hs as [Hs Hx].
    constructor; [now apply IH|].
    apply List.Forall_forall. intros y Hy. rewrite List.Forall_forall in Hx. apply Hx.
    apply list_elem_of_In. eapply elem_of_sublist; [|exact Hsub]. now apply list_elem_of_In.
  - apply StronglySorted_inv in Hs. destruct Hs as [Hs _]. now apply IH.
Qed.

(** What the ranking of [gerar_rotas_personalizadas] is made of. *)
Lemma personal_ranking (engine engine' : MLEngine) (user_profile : gmap string Q)
    (df : list Location) (orcamento_max : Q) (ratings : list RatedSite) :
  predict_ratings engine user_profile
    (List.filter (fun il => Qle_bool (taxa_aoa (snd il)) (orcamento_max * 0.4)) (iterrows df))
    [] = (Ok ratings, engine') ->
  let ranking := sorted_by_key (fun item => (- rating_previsto item)%Q) ratings in
  NoDup (map local_id ranking) /\
  StronglySorted (fun x y => (rating_previsto y <= rating_previsto x)%Q) ranking /\
  Forall (fun item => (1 <= rating_previsto item <= 5)%Q /\
                      (taxa_aoa (local item) <= orcamento_max * 0.4)%Q /\
                      In (local item) df) ranking /\
  clustering_model engine' = clustering_model engine.
Proof.
  intros Hrun ranking.
  apply predict_ratings_spec in Hrun.
  destruct Hrun as (rated & Heq & Hids & Hlocs & Hrange & Hmodel). cbn [app] in Heq. subst rated.
  assert (Hperm : Permutation ranking ratings) by apply sorted_by_key_Permutation.
  split; [|split; [|split; [|assumption]]].
  - rewrite (Permutation_map local_id Hperm), Hids.
    assert (Hsub : sublist
              (map fst (List.filter (fun il => Qle_bool (taxa_aoa (snd il))
                                                        (orcamento_max * 0.4)) (iterrows df)))
              (map fst (iterrows df))).
    { apply sublist_map, sublist_List_filter. }
    eapply sublist_NoDup; [apply iterrows_ids|exact Hsub].
  - eapply StronglySorted_impl;
      [|apply (sorted_by_key_sorted (fun item => (- rating_previsto item)%Q) ratings)].
    cbv beta. intros x y Hxy. qlra.
  - apply List.Forall_forall. intros item Hitem.
    apply (Permutation_in _ Hperm) in Hitem.
    split; [rewrite List.Forall_forall in Hrange; now apply Hrange|].
    assert (Hloc : In (local item) (map local ratings)) by now apply in_map.
    rewrite Hlocs in Hloc. apply in_map_iff in Hloc. destruct Hloc as ([i l] & Hl & Hil).
    cbn [snd] in Hl. subst l. apply filter_In in Hil. destruct Hil as [Hil Hfee].
    cbn [snd] in Hfee. apply Qle_bool_iff in Hfee. split; [assumption|].
    unfold iterrows in Hil. now apply in_combine_r in Hil.
Qed.

Lemma gerar_rotas_personalizadas_inversion (engine engine' : MLEngine)
    (user_profile : gmap string Q) (orcamento_max : Q) (max_locais n_rotas : Z)
    (routes : list PersonalizedRoute) :
  gerar_rotas_personalizadas env engine user_profile orcamento_max max_locais n_rotas
    = (Ok routes, engine') ->
  exists df ratings,
    engine_df engine = Some df /\
    predict_ratings engine user_profile
      (List.filter (fun il => Qle_bool (taxa_aoa (snd il)) (orcamento_max * 0.4))
                   (iterrows df)) [] = (Ok ratings, engine') /\
    ((clustering_model engine' = None /\ routes = [])
     \/ exists predict_cluster,
          clustering_model engine' = Some predict_cluster /\
          routes = assemble_routes env (Z.to_nat n_rotas) predict_cluster
                     (sorted_by_key (fun item => (- rating_previsto item)%Q) ratings)
                     orcamento_max max_locais ([], [])).
Proof.
  unfold gerar_rotas_personalizadas. intros H.
  destruct (engine_df engine) as [df|]; [|discriminate].
  destruct (predict_ratings _ _ _ _) as [[ratings|e] engine1] eqn:Hpred; [|discriminate].
  exists df, ratings. split; [reflexivity|].
  destruct (clustering_model engine1) as [predict_cluster|] eqn:Hmodel.
  - injection H as <- <-. split; [exact Hpred|]. right. eauto.
  - injection H as <- <-. split; [exact Hpred|]. left. auto.
Qed.

(** X19.  Every personalised route that [gerar_rotas_personalizadas]
    returns holds at least one site and at most [max_locais]; its cost is
    the sum of the fees of its sites and is within the budget; each of its
    sites is a row of the catalogue whose fee is at most 40% of the budget;
    and there are at most [n_rotas] routes. *)
Theorem gerar_rotas_personalizadas_within_budget :
  forall (engine engine' : MLEngine) (user_profile : gmap string Q) (orcamento_max : Q)
         (max_locais n_rotas : Z) (routes : list PersonalizedRoute),
    gerar_rotas_personalizadas env engine user_profile orcamento_max max_locais n_rotas
      = (Ok routes, engine') ->
    (length routes <= Z.to_nat n_rotas)%nat /\
    Forall (fun r =>
              (1 <= length (p_locais r))%nat /\
              (Z.of_nat (length (p_locais r)) <= max_locais)%Z /\
              p_num_locais r = length (p_locais r) /\
              p_custo_total_aoa r = Qsum (fees (p_locais r)) /\
              (p_custo_total_aoa r <= orcamento_max)%Q /\
              Forall (fun item =>
                        (taxa_aoa (local item) <= orcamento_max * 0.4)%Q /\
                        exists df, engine_df engine = Some df /\ In (local item) df)
                     (p_locais r))
           routes.
Proof.
  intros engine engine' user_profile orcamento_max max_locais n_rotas routes Hrun.
  apply gerar_rotas_personalizadas_inversion in Hrun.
  destruct Hrun as (df & ratings & Hdf & Hpred & [[_ ->]|(pc & _ & ->)]).
  - split; [cbn; lia|constructor].
  - apply personal_ranking in Hpred. cbv zeta in Hpred.
    destruct Hpred as (_ & _ & Hitems & _).
    set (ranking := sorted_by_key _ ratings) in *.
    destruct (assemble_routes_ok pc ranking orcamento_max max_locais (Z.to_nat n_rotas) [] [])
      as [Hok Hlen]; [constructor|].
    split; [exact Hlen|].
    eapply List.Forall_impl; [|exact Hok]. cbv beta.
    intros r (Hne & Hsub & Hmax & Hnum & Hcost & Hle).
    split; [destruct (p_locais r); [congruence|cbn; lia]|].
    repeat (split; [assumption|]).
    apply List.Forall_forall. intros item Hitem.
    rewrite List.Forall_forall in Hitems.
    destruct (Hitems item) as (_ & Hfee & Hin).
    + apply list_elem_of_In. eapply elem_of_sublist; [|exact Hsub]. now apply list_elem_of_In.
    + split; [assumption|]. eauto.
Qed.

(** X20.  Within a personalised route the sites stand in the order of the
    ranking, from the highest predicted rating down; no site is in a route
    twice, and every predicted rating is between 1 and 5. *)
Theorem gerar_rotas_personalizadas_by_rating :
  forall (engine engine' : MLEngine) (user_profile : gmap string Q) (orcamento_max : Q)
         (max_locais n_rotas : Z) (routes : list PersonalizedRoute),
    gerar_rotas_personalizadas env engine user_profile orcamento_max max_locais n_rotas
      = (Ok routes, engine') ->
    Forall (fun r =>
              StronglySorted (fun x y => (rating_previsto y <= rating_previsto x)%Q)
                             (p_locais r) /\
              NoDup (map local_id (p_locais r)) /\
              Forall (fun item => (1 <= rating_previsto item <= 5)%Q) (p_locais r))
           routes.
Proof.
  intros engine engine' user_profile orcamento_max max_locais n_rotas routes Hrun.
  apply gerar_rotas_personalizadas_inversion in Hrun.
  destruct Hrun as (df & ratings & Hdf & Hpred & [[_ ->]|(pc & _ & ->)]); [constructor|].
  apply personal_ranking in Hpred. cbv zeta in Hpred.
  destruct Hpred as (Hids & Hsorted & Hitems & _).
  set (ranking := sorted_by_key _ ratings) in *.
  destruct (assemble_routes_ok pc ranking orcamento_max max_locais (Z.to_nat n_rotas) [] [])
    as [Hok _]; [constructor|].
  eapply List.Forall_impl; [|exact Hok]. cbv beta.
  intros r (_ & Hsub & _). split; [|split].
  - eapply StronglySorted_sublist; eauto.
  - eapply sublist_NoDup; [exact Hids|apply sublist_map; exact Hsub].
  - apply List.Forall_forall. intros item Hitem.
    rewrite List.Forall_forall in Hitems. apply Hitems.
    apply list_elem_of_In. eapply elem_of_sublist; [|exact Hsub]. now apply list_elem_of_In.
Qed.


Lemma assemble_fold_clusters (predict_cluster : list Q -> Z) (orcamento_max : Q)
    (max_locais : Z) :
  (2 <= max_locais)%Z ->
  forall (items rota rota' : list RatedSite) (b b' : Q) (cl cl' : list Z),
    fold_left (assemble_step predict_cluster orcamento_max max_locais) items (rota, b, cl)
      = (rota', b', cl') ->
    incl cl cl' /\
    (forall c, In c cl' ->
               In c cl \/ exists item, In item items /\
                                       c = cluster_of predict_cluster (local item)) /\
    (rota = [] -> rota' <> [] -> exists c, In c cl' /\ ~ In c cl).
Proof.
  intros Hml. induction items as [|item items IH]; intros rota rota' b b' cl cl' Hrun.
  - cbn in Hrun. injection Hrun as <- <- <-.
    split; [apply incl_refl|]. split; [auto|]. congruence.
  - cbn [fold_left] in Hrun. unfold assemble_step at 2 in Hrun.
    fold (cluster_of predict_cluster (local item)) in Hrun.
    assert (Hsame : fold_left (assemble_step predict_cluster orcamento_max max_locais)
                              items (rota, b, cl) = (rota', b', cl') ->
                    incl cl cl' /\
                    (forall c, In c cl' ->
                       In c cl \/ exists item', In item' (item :: items) /\
                                     c = cluster_of predict_cluster (local item')) /\
                    (rota = [] -> rota' <> [] -> exists c, In c cl' /\ ~ In c cl)).
    { intros Hrest. destruct (IH _ _ _ _ _ _ Hrest) as (Hincl & Hfrom & Hnew).
      split; [assumption|]. split; [|assumption].
      intros c Hc. destruct (Hfrom c Hc) as [Hold|(item' & Hin & ->)]; [now left|].
      right. exists item'. split; [now right|reflexivity]. }
    destruct (Z.leb_spec max_locais (Z.of_nat (length rota))); [now apply Hsame|].
    destruct (existsb (Z.eqb (cluster_of predict_cluster (local item))) cl) eqn:Hused.
    + destruct (Z.ltb_spec (Z.of_nat (length rota)) (max_locais / 2)); cbn [andb] in Hrun;
        [now apply Hsame|].
      destruct (Qle_bool _ _); [|now apply Hsame].
      destruct (IH _ _ _ _ _ _ Hrun) as (Hincl & Hfrom & _).
      split; [|split].
      * intros c Hc. apply Hincl, in_or_app. now left.
      * intros c Hc. destruct (Hfrom c Hc) as [Hold|(item' & Hin & ->)].
        -- apply in_app_or in Hold. destruct Hold as [Hold|[<-|[]]]; [now left|].
           right. exists item. split; [now left|reflexivity].
        -- right. exists item'. split; [now right|reflexivity].
      * intros ->. cbn [length] in *.
        assert (1 <= max_locais / 2)%Z by (apply Z.div_le_lower_bound; lia). lia.
    + cbn [andb] in Hrun. destruct (Qle_bool _ _); [|now apply Hsame].
      destruct (IH _ _ _ _ _ _ Hrun) as (Hincl & Hfrom & _).
      split; [|split].
      * intros c Hc. apply Hincl, in_or_app. now left.
      * intros c Hc. destruct (Hfrom c Hc) as [Hold|(item' & Hin & ->)].
        -- apply in_app_or in Hold. destruct Hold as [Hold|[<-|[]]]; [now left|].
           right. exists item. split; [now left|reflexivity].
        -- right. exists item'. split; [now right|reflexivity].
      * intros _ _. exists (cluster_of predict_cluster (local item)). split.
        -- apply Hincl, in_or_app. right. now left.
        -- intros Hin. assert (existsb (Z.eqb (cluster_of predict_cluster (local item))) cl
                               = true); [|congruence].
           apply existsb_exists. exists (cluster_of predict_cluster (local item)).
           split; [assumption|apply Z.eqb_refl].
Qed.

Lemma assemble_routes_clusters (predict_cluster : list Q -> Z) (items : list RatedSite)
    (orcamento_max : Q) (max_locais : Z) (clusters : list Z) :
  (2 <= max_locais)%Z ->
  NoDup clusters ->
  (forall item, In item items -> In (cluster_of predict_cluster (local item)) clusters) ->
  forall (k : nat) (rotas : list PersonalizedRoute) (cl seen : list Z),
    NoDup seen -> incl seen cl -> incl cl clusters ->
    (length rotas <= length seen)%nat ->
    (length (assemble_routes env k predict_cluster items orcamento_max max_locais
                             (rotas, cl))
     <= length clusters)%nat.
Proof.
  intros Hml Hclusters Hitems. induction k as [|k IH]; intros rotas cl seen Hseen Hsub Hcl Hlen.
  - cbn. eapply Nat.le_trans; [exact Hlen|].
    apply NoDup_incl_length; [now apply NoDup_ListNoDup|].
    intros c Hc. auto.
  - cbn [assemble_routes].
    destruct (fold_left _ items ([], 0%Q, cl)) as [[rota b] cl'] eqn:Hfold.
    destruct (assemble_fold_clusters _ _ _ Hml _ _ _ _ _ _ _ Hfold) as (Hincl & Hfrom & Hnew).
    assert (Hcl' : incl cl' clusters).
    { intros c Hc. destruct (Hfrom c Hc) as [Hold|(item & Hin & ->)]; auto. }
    destruct rota as [|item rest].
    + apply (IH rotas cl' seen); auto. intros c Hc. auto.
    + destruct (Hnew eq_refl ltac:(discriminate)) as (c & Hc & Hfresh).
      apply (IH _ cl' (c :: seen)).
      * apply NoDup_cons. split; [|assumption].
        intros Hin. apply Hfresh, Hsub. now apply list_elem_of_In.
      * intros c' [<-|Hc']; auto.
      * assumption.
      * rewrite length_app. cbn. lia.
Qed.

(** X21.  When a route may hold two sites or more, every personalised
    route opens a cluster that no earlier route has used: the number of
    routes that [gerar_rotas_personalizadas] returns is at most the number
    of clusters that the clustering model tells apart on the catalogue. *)
Theorem gerar_rotas_personalizadas_one_per_cluster :
  forall (engine engine' : MLEngine) (user_profile : gmap string Q) (orcamento_max : Q)
         (max_locais n_rotas : Z) (routes : list PersonalizedRoute)
         (df : list Location) (predict_cluster : list Q -> Z) (clusters : list Z),
    gerar_rotas_personalizadas env engine user_profile orcamento_max max_locais n_rotas
      = (Ok routes, engine') ->
    (2 <= max_locais)%Z ->
    engine_df engine = Some df ->
    clustering_model engine = Some predict_cluster ->
    NoDup clusters ->
    (forall loc, In loc df -> In (cluster_of predict_cluster loc) clusters) ->
    (length routes <= length clusters)%nat.
Proof.
  intros engine engine' user_profile orcamento_max max_locais n_rotas routes df
         predict_cluster clusters Hrun Hml Hdf Hmodel Hclusters Hall.
  apply gerar_rotas_personalizadas_inversion in Hrun.
  destruct Hrun as (df' & ratings & Hdf' & Hpred & Hroutes).
  rewrite Hdf in Hdf'. injection Hdf' as <-.
  apply personal_ranking in Hpred. cbv zeta in Hpred.
  destruct Hpred as (_ & _ & Hitems & Hsame).
  rewrite Hsame, Hmodel in Hroutes.
  destruct Hroutes as [[Hnone _]|(pc & Hpc & ->)]; [discriminate|].
  injection Hpc as <-.
  apply (assemble_routes_clusters predict_cluster _ orcamento_max max_locais clusters Hml
           Hclusters) with (seen := []).
  - intros item Hitem. rewrite List.Forall_forall in Hitems.
    apply Hall. now apply Hitems.
  - constructor.
  - intros c [].
  - intros c [].
  - cbn. lia.
Qed.

Lemma calcular_distancia_rota_path (rota : list RatedSite) :
  _calcular_distancia_rota env rota = path_length (haversine env) (coordinates_of_rota rota).
Proof.
  induction rota as [|a rota IH]; [reflexivity|].
  destruct rota as [|b rota]; [reflexivity|].
  cbn [_calcular_distancia_rota coordinates_of_rota map path_length] in *.
  now rewrite IH.
Qed.

(** X22.  On sites whose coordinates are within range, the engine's own
    [_calcular_distancia_rota], which validates nothing, gives the distance
    that the calculator's [calculate_route_distance] gives for the same
    sites in the same order. *)
Theorem calcular_distancia_rota_agrees :
  forall rota : list RatedSite,
    ((2 <= length rota)%nat -> Forall valid_coord (coordinates_of_rota rota)) ->
    exists d,
      calculate_route_distance (haversine env) (coordinates_of_rota rota)
                               (range (length rota)) = Ok d /\
      (d == _calcular_distancia_rota env rota)%Q.
Proof.
  intros rota Hvalid.
  destruct (calculate_route_distance_path (haversine env) (coordinates_of_rota rota))
    as (d & Hd & Hpath).
  - unfold coordinates_of_rota at 1. now rewrite length_map.
  - unfold coordinates_of_rota in Hd at 2. rewrite length_map in Hd.
    exists d. split; [assumption|]. now rewrite calcular_distancia_rota_path.
Qed.

End PersonalFacts.

(** ** Traditional routes *)

Lemma merge_inner_In (left right : list Location) (x : Location) :
  In x (merge_inner left right) ->
  In x left /\ exists y, In y right /\ location_eqb x y = true.
Proof.
  unfold merge_inner. intros Hx. apply in_flat_map in Hx. destruct Hx as (l & Hl & Hx).
  apply in_map_iff in Hx. destruct Hx as (y & <- & Hy).
  apply filter_In in Hy. destruct Hy as [Hy Heq]. eauto.
Qed.

Lemma location_eqb_taxa (a b : Location) :
  location_eqb a b = true -> (taxa_aoa a == taxa_aoa b)%Q.
Proof.
  unfold location_eqb. intros H.
  repeat (apply andb_prop in H; destruct H as [H ?]).
  now apply Qeq_bool_iff.
Qed.

Lemma py_or_Q_idem (x : option Q) (d : Q) : py_or_Q (Some (py_or_Q x d)) d = py_or_Q x d.
Proof.
  unfold py_or_Q. destruct x as [v|].
  - destruct (Qeq_bool v 0) eqn:E; [|now rewrite E]. now destruct (Qeq_bool d 0).
  - now destruct (Qeq_bool d 0).
Qed.

Section TraditionalFacts.
Variable env : Environment.
Variable config : Config.
Variable data : DataConfig.

(** The sites of a route come from the frame, and its cost and mean
    fragility follow from them. *)
Lemma generate_routes_sites (df : DataFrame) (max_locations num_routes : option Z)
    (max_budget : option Q) (g : rng env) (r : Route) :
  In r (fst (fst (generate_routes env config df max_locations num_routes max_budget g))) ->
  locais r <> [] /\
  Forall (fun loc => In (site loc) (rows df)) (locais r) /\
  (custo_total_aoa r <= py_or_Q max_budget (default_max_budget (route config)))%Q /\
  fragilidade_media r
    = py_round (np_mean (map (fun loc => inject_Z (fragilidade (site loc))) (locais r))) 2.
Proof.
  intros Hin.
  apply generate_routes_origin in Hin as (r0 & selected & cluster_id & -> & Hcreate & Hsel).
  cbn [score_route locais custo_total_aoa fragilidade_media].
  apply create_route_spec in Hcreate as (Hcost & Hperm & Hne & Hfrag).
  split; [|split; [|split; assumption]].
  - intros Hnil. rewrite Hnil in Hperm. apply Permutation_nil in Hperm. congruence.
  - apply List.Forall_forall. intros loc Hloc.
    apply (Permutation_in _ Hperm), Hsel, cluster_records_In in Hloc.
    now rewrite create_geographic_clusters_keeps_rows in Hloc.
Qed.

(** X23.  Every route that [generate_traditional_routes] returns is made
    of sites of the processed catalogue whose fragility is at most the
    maximum in force and whose fee is at most the budget in force; its mean
    fragility and its total cost stay within the same two bounds.  The
    bounds in force are the arguments, or the configured defaults when an
    argument is 0 or absent. *)
Theorem generate_traditional_routes_filtered :
  forall (system system' : EcoTurismoSystem) (processor : DataProcessor)
         (max_budget : option Q) (max_locations max_fragility num_routes : option Z)
         (g g' : rng env) (routes : list Route),
    generate_traditional_routes env config data system processor max_budget max_locations
                                max_fragility num_routes g
      = (Ok routes, system', g') ->
    let budget := py_or_Q max_budget (default_max_budget (route config)) in
    let fragility := py_or_Z max_fragility (default_max_fragility (route config)) in
    Forall (fun r =>
              Forall (fun loc =>
                        (fragilidade (site loc) <= fragility)%Z /\
                        (taxa_aoa (site loc) <= budget)%Q /\
                        exists catalogue, processor_df processor = Some catalogue /\
                                          In (site loc) catalogue)
                     (locais r) /\
              (fragilidade_media r <= inject_Z fragility)%Q /\
              (custo_total_aoa r <= budget)%Q)
           routes.
Proof.
  intros system system' processor max_budget max_locations max_fragility num_routes g g'
         routes Hrun budget fragility.
  unfold generate_traditional_routes in Hrun.
  fold budget fragility in Hrun.
  destruct (df system); [|discriminate].
  unfold get_sustainable_locations, get_locations_by_budget in Hrun.
  destruct (processor_df processor) as [catalogue|] eqn:Hcat; [|discriminate].
  cbn [default] in Hrun. unfold Datatypes.id in Hrun.
  set (sustainable := List.filter (fun r => (fragilidade r <=? fragility)%Z) catalogue) in *.
  set (affordable := List.filter (fun r => Qle_bool (taxa_aoa r) budget) catalogue) in *.
  destruct sustainable as [|s0 srest] eqn:Hs;
    [injection Hrun as <- _ _; constructor|]. rewrite <- Hs in *.
  destruct affordable as [|a0 arest] eqn:Ha;
    [injection Hrun as <- _ _; constructor|]. rewrite <- Ha in *.
  destruct (merge_inner sustainable affordable) as [|f0 frest] eqn:Hm;
    [injection Hrun as <- _ _; constructor|]. rewrite <- Hm in *.
  destruct (generate_routes env config _ _ _ _ g) as [[routes0 frame] g0] eqn:Hgen.
  injection Hrun as <- _ _.
  apply List.Forall_forall. intros r Hr.
  assert (Hin : In r (fst (fst (generate_routes env config
                                  {| rows := merge_inner sustainable affordable;
                                     cluster := None |}
                                  (Some (py_or_Z max_locations
                                           (default_max_locations (route config))))
                                  (Some (py_or_Z num_routes
                                           (default_num_routes (route config))))
                                  (Some budget) g)))) by now rewrite Hgen.
  apply generate_routes_sites in Hin. destruct Hin as (Hne & Hsites & Hcost & Hfrag).
  unfold budget in Hcost at 1. rewrite py_or_Q_idem in Hcost. fold budget in Hcost.
  cbn [rows] in Hsites.
  assert (Hall : Forall (fun loc =>
                           (fragilidade (site loc) <= fragility)%Z /\
                           (taxa_aoa (site loc) <= budget)%Q /\
                           exists catalogue0, Some catalogue = Some catalogue0 /\
                                              In (site loc) catalogue0) (locais r)).
  { eapply List.Forall_impl; [|exact Hsites]. cbv beta. intros loc Hloc.
    apply merge_inner_In in Hloc. destruct Hloc as (Hleft & y & Hright & Heq).
    subst sustainable affordable.
    apply filter_In in Hleft. destruct Hleft as [Hcatalogue Hfr].
    apply filter_In in Hright. destruct Hright as [_ Hfee].
    apply Qle_bool_iff in Hfee. apply location_eqb_taxa in Heq.
    split; [now apply Z.leb_le|]. split; [now rewrite Heq|]. eauto. }
  split; [exact Hall|]. split; [|assumption].
  rewrite Hfrag. apply py_round_2_le_integer. apply np_mean_le.
  - destruct (locais r); [congruence|discriminate].
  - apply Forall_map. eapply List.Forall_impl; [|exact Hall]. cbv beta.
    intros loc (Hfr & _). now rewrite <- Zle_Qle.
Qed.

(** X24.  [generate_traditional_routes] raises [ValueError] while the
    system holds no data.  With data, when no site passes both the
    fragility filter and the budget filter it returns the empty list and
    leaves the system as it was, the routes recommended by an earlier call
    included; when some site passes, the recommended routes become the
    routes returned. *)
Theorem generate_traditional_routes_state :
  forall (system : EcoTurismoSystem) (processor : DataProcessor) (catalogue : list Location)
         (max_budget : option Q) (max_locations max_fragility num_routes : option Z)
         (g : rng env),
    processor_df processor = Some catalogue ->
    let budget := py_or_Q max_budget (default_max_budget (route config)) in
    let fragility := py_or_Z max_fragility (default_max_fragility (route config)) in
    let passing :=
      List.filter (fun r => (fragilidade r <=? fragility)%Z && Qle_bool (taxa_aoa r) budget)
                  catalogue in
    let run := generate_traditional_routes env config data system processor max_budget
                                           max_locations max_fragility num_routes g in
    (df system = None -> run = (Raise (ValueError "Dados nao carregados"), system, g)) /\
    (df system <> None -> passing = [] -> run = (Ok [], system, g)) /\
    (df system <> None -> passing <> [] ->
     exists routes g',
       run = (Ok routes, set_routes system (map inl routes), g')).
Proof.
  intros system processor catalogue max_budget max_locations max_fragility num_routes g Hcat
         budget fragility passing run.
  subst run. unfold generate_traditional_routes. fold budget fragility.
  unfold get_sustainable_locations, get_locations_by_budget. rewrite Hcat.
  cbn [default]. unfold Datatypes.id.
  set (sustainable := List.filter (fun r => (fragilidade r <=? fragility)%Z) catalogue).
  set (affordable := List.filter (fun r => Qle_bool (taxa_aoa r) budget) catalogue).
  assert (Hmerge : merge_inner sustainable affordable = [] <-> passing = []).
  { split.
    - intros Hnil. destruct passing as [|p rest] eqn:Hp; [reflexivity|exfalso].
      assert (Hin : In p passing) by (rewrite Hp; now left).
      apply filter_In in Hin. destruct Hin as [Hin Hboth].
      apply andb_prop in Hboth. destruct Hboth as [Hfr Hfee].
      assert (Hm : In p (merge_inner sustainable affordable)).
      { unfold merge_inner. apply in_flat_map. exists p. split.
        - apply filter_In. auto.
        - apply in_map_iff. exists p. split; [reflexivity|].
          apply filter_In. split; [apply filter_In; auto|].
          unfold location_eqb, option_Q_eqb.
          rewrite !String.eqb_refl, !Z.eqb_refl.
          rewrite !(proj2 (Qeq_bool_iff _ _) (Qeq_refl _)).
          destruct (sustentabilidade_score p), (atratividade_score p);
            rewrite ?(proj2 (Qeq_bool_iff _ _) (Qeq_refl _)); reflexivity. }
      rewrite Hnil in Hm. destruct Hm.
    - intros Hnil. destruct (merge_inner sustainable affordable) as [|m rest] eqn:Hm;
        [reflexivity|exfalso].
      assert (Hin : In m (merge_inner sustainable affordable)) by (rewrite Hm; now left).
      apply merge_inner_In in Hin. destruct Hin as (Hleft & y & Hright & Heq).
      apply filter_In in Hleft. destruct Hleft as [Hin Hfr].
      apply filter_In in Hright. destruct Hright as [_ Hfee].
      apply Qle_bool_iff in Hfee. apply location_eqb_taxa in Heq.
      assert (Hp : In m passing).
      { apply filter_In. split; [assumption|]. rewrite Hfr. cbn [andb].
        apply Qle_bool_iff. now rewrite Heq. }
      rewrite Hnil in Hp. destruct Hp. }
  split; [intros Hnone; now rewrite Hnone|]. split.
  - intros Hdf Hnil. destruct (df system); [|congruence].
    destruct sustainable as [|s0 srest] eqn:Hs; [reflexivity|]. rewrite <- Hs in *.
    destruct affordable as [|a0 arest] eqn:Ha; [reflexivity|]. rewrite <- Ha in *.
    now rewrite (proj2 Hmerge Hnil).
  - intros Hdf Hsome. destruct (df system); [|congruence].
    assert (Hm : merge_inner sustainable affordable <> []) by (intros H; now apply Hsome, Hmerge).
    destruct sustainable as [|s0 srest] eqn:Hs; [now destruct Hm|]. rewrite <- Hs in *.
    destruct affordable as [|a0 arest] eqn:Ha.
    { exfalso. apply Hm. unfold merge_inner. clear. induction sustainable; [reflexivity|].
      cbn. assumption. }
    rewrite <- Ha in *.
    destruct (merge_inner sustainable affordable) as [|f0 frest] eqn:Hmi; [congruence|].
    destruct (generate_routes env config _ _ _ _ g) as [[routes frame] g'].
    eauto.
Qed.

End TraditionalFacts.

(** ** Loading the catalogue *)

(** The conversion to float32 leaves no number that is at least 9/8 (a
    number of the format) below it. *)
Lemma float32_above_one (q : Q) : (9 # 8 <= q)%Q -> (9 # 8 <= float32 q)%Q.
Proof.
  intros Hq. unfold float32.
  destruct (Qeq_bool q 0) eqn:Hzero.
  { apply Qeq_bool_eq in Hzero. exfalso. qlra. }
  assert (Habs : Qabs q == q) by (apply Qabs_pos; qlra).
  unfold binary_exponent.
  destruct (Qle_bool 1 (Qabs q)) eqn:Hone.
  2:{ exfalso. assert (H1 : (1 <= Qabs q)%Q) by (rewrite Habs; qlra).
      apply Qle_bool_iff in H1. congruence. }
  rewrite (Qfloor_comp _ _ Habs).
  assert (Hfloor : (1 <= Qfloor q)%Z).
  { change 1%Z with (Qfloor 1). apply Qfloor_resp_le. qlra. }
  set (e := Z.log2 (Qfloor q)).
  assert (He : (0 <= e)%Z) by apply Z.log2_nonneg.
  assert (Hpow : (2 ^ e <= q)%Q).
  { destruct (Z.log2_spec (Qfloor q)) as [Hlo _]; [lia|]. fold e in Hlo.
    apply Qle_trans with (inject_Z (Qfloor q)); [|apply Qfloor_le].
    rewrite <- (Zpower_Qpower 2 e He). now rewrite <- Zle_Qle. }
  rewrite Z.max_l by lia.
  set (ulp := (2 ^ (e - 23))%Q).
  assert (Hulp : (0 < ulp)%Q) by (apply Qpower_0_lt; reflexivity).
  assert (Hsplit : (2 ^ e == inject_Z 8388608 * ulp)%Q).
  { unfold ulp. rewrite Qpower_minus by discriminate.
    change ((2 ^ 23)%Q) with (8388608 # 1). field. }
  destruct (Z.eq_dec e 0%Z) as [E0|E0].
  - assert (Hlow : (9437184 <= round_half_even (q / ulp))%Z).
    { rewrite <- (round_half_even_integer 9437184). apply round_half_even_le.
      apply Qle_shift_div_l; [assumption|].
      rewrite E0 in Hsplit. change ((2 ^ 0)%Q) with 1%Q in Hsplit.
      change (inject_Z 8388608) with (8388608 # 1) in Hsplit.
      change (inject_Z 9437184) with (9437184 # 1). qlra. }
    rewrite Zle_Qle in Hlow.
    apply Qle_trans with (inject_Z 9437184 * ulp)%Q.
    + rewrite E0 in Hsplit. change ((2 ^ 0)%Q) with 1%Q in Hsplit.
      change (inject_Z 8388608) with (8388608 # 1) in Hsplit.
      change (inject_Z 9437184) with (9437184 # 1). qlra.
    + apply Qmult_le_compat_r; [assumption|qlra].
  - assert (Hlow : (8388608 <= round_half_even (q / ulp))%Z).
    { rewrite <- (round_half_even_integer 8388608). apply round_half_even_le.
      apply Qle_shift_div_l; [assumption|]. now rewrite <- Hsplit. }
    rewrite Zle_Qle in Hlow.
    apply Qle_trans with (inject_Z 8388608 * ulp)%Q.
    + rewrite <- Hsplit.
      apply Qle_trans with ((2 ^ 1)%Q); [vm_compute; discriminate|].
      apply Qpower_le_compat_l; [lia|vm_compute; discriminate].
    + apply Qmult_le_compat_r; [assumption|qlra].
Qed.

Lemma cell_gt_float32 (c : cell) (q : Q) :
  c = Num q -> (9 # 8 <= q)%Q ->
  cell_gt c 1 = true /\ cell_gt (cell_float32 c) 1 = true.
Proof.
  intros -> Hq. cbn [cell_float32 cell_gt]. split; apply Qltb_lt.
  - qlra.
  - pose proof (float32_above_one q Hq). qlra.
Qed.

Lemma is_number_Num (c : cell) : is_number c = true -> exists q, c = Num q.
Proof. destruct c; [eauto | discriminate | discriminate]. Qed.

Lemma complete_row_numbers (r : CatalogueRow) :
  complete_row r = true ->
  exists lat lon frag cap fee : Q,
    raw_latitude r = Num lat /\ raw_longitude r = Num lon /\
    raw_fragilidade r = Num frag /\ raw_capacidade_diaria r = Num cap /\
    raw_taxa_aoa r = Num fee.
Proof.
  unfold complete_row. rewrite !andb_true_iff. intros ((((H1 & H2) & H3) & H4) & H5).
  destruct (is_number_Num _ H1) as (a & ->), (is_number_Num _ H2) as (b & ->),
           (is_number_Num _ H3) as (c & ->), (is_number_Num _ H4) as (d & ->),
           (is_number_Num _ H5) as (e & ->).
  now exists a, b, c, d, e.
Qed.

(** The greatest cell of a column of numbers. *)
Lemma fold_cell_max_numbers (rest : list cell) :
  Forall (fun c => is_number c = true) rest ->
  forall m : Q,
  exists M : Q,
    fold_left cell_max rest (Num m) = Num M /\ (m <= M)%Q /\
    Forall (fun c => forall q, c = Num q -> (q <= M)%Q) rest.
Proof.
  induction 1 as [|c rest Hc _ IH]; intros m; cbn [fold_left].
  - exists m. split; [reflexivity|]. split; [apply Qle_refl|constructor].
  - destruct (is_number_Num _ Hc) as (y & ->). cbn [cell_max].
    destruct (Qltb m y) eqn:E.
    + apply Qltb_lt in E. destruct (IH y) as (M & H1 & H2 & H3).
      exists M. split; [assumption|]. split; [qlra|].
      constructor; [intros q [= <-]; assumption|assumption].
    + apply Qltb_ge in E. destruct (IH m) as (M & H1 & H2 & H3).
      exists M. split; [assumption|]. split; [assumption|].
      constructor; [intros q [= <-]; qlra|assumption].
Qed.

Lemma filter_numbers (column : list cell) :
  Forall (fun c => is_number c = true) column ->
  List.filter (fun c => negb (cell_isnull c)) column = column.
Proof.
  induction 1 as [|c rest Hc _ IH]; [reflexivity|].
  cbn [List.filter]. destruct c; try discriminate. cbn. now rewrite IH.
Qed.

Lemma column_max_numbers (column : list cell) (c : cell) :
  Forall (fun c => is_number c = true) column -> In c column ->
  exists M : Q,
    column_max column = Num M /\
    Forall (fun c => forall q, c = Num q -> (q <= M)%Q) column.
Proof.
  intros Hall Hin. unfold column_max. rewrite (filter_numbers _ Hall).
  destruct column as [|c0 rest]; [destruct Hin|].
  inversion Hall as [|? ? Hc0 Hrest]; subst.
  destruct (is_number_Num _ Hc0) as (m & ->).
  destruct (fold_cell_max_numbers rest Hrest m) as (M & H1 & H2 & H3).
  exists M. split; [assumption|].
  constructor; [intros q [= <-]; assumption|assumption].
Qed.

Lemma column_max_bound (column : list cell) (q : Q) :
  Forall (fun c => is_number c = true) column -> In (Num q) column ->
  exists M : Q, column_max column = Num M /\ (q <= M)%Q.
Proof.
  intros Hall Hin.
  destruct (column_max_numbers column (Num q) Hall Hin) as (M & HM & Hle).
  exists M. split; [assumption|].
  rewrite List.Forall_forall in Hle. now apply (Hle (Num q) Hin q).
Qed.

Lemma existsb_false_In {A : Type} (f : A -> bool) (l : list A) (x : A) :
  existsb f l = false -> In x l -> f x = false.
Proof.
  intros H Hin. destruct (f x) eqn:E; [|reflexivity].
  assert (existsb f l = true) by (apply existsb_exists; eauto). congruence.
Qed.

Section ProcessorFacts.
Variable haversine : coord -> coord -> Q.
Variable data : DataConfig.
Variable weights : FeatureWeights.
Variable str_strip : string -> string.
Variable str_title : string -> string.
Variable fill_numeric_nulls : list CatalogueRow -> list CatalogueRow.

Lemma complete_row_clean (r : CatalogueRow) :
  complete_row (clean_row str_strip str_title r) = complete_row r.
Proof. reflexivity. Qed.

(** A complete catalogue has no null to fill. *)
Lemma clean_data_complete (df_rows : list CatalogueRow) :
  Forall (fun r => complete_row r = true) df_rows ->
  _clean_data str_strip str_title fill_numeric_nulls df_rows
  = map (clean_row str_strip str_title) df_rows.
Proof.
  intros Hall. unfold _clean_data, _handle_missing_values.
  replace (existsb has_null (map (clean_row str_strip str_title) df_rows)) with false;
    [reflexivity|].
  symmetry. induction Hall as [|r rest Hr _ IH]; [reflexivity|].
  cbn [map existsb]. rewrite IH, orb_false_r.
  destruct (complete_row_numbers r Hr) as (a & b & c & d & e & H1 & H2 & H3 & H4 & H5).
  unfold has_null. cbn [clean_row raw_latitude raw_longitude raw_fragilidade
                         raw_capacidade_diaria raw_taxa_aoa].
  now rewrite H1, H2, H3, H4, H5.
Qed.

(** The distance of a complete row: an error of value, or the haversine
    distance of its coordinates. *)
Lemma distance_of_row_cases (r : CatalogueRow) :
  complete_row r = true ->
  (exists message, distance_of_row haversine data r = Raise (ValueError message))
  \/ (exists lat lon,
        raw_latitude r = Num lat /\ raw_longitude r = Num lon /\
        distance_of_row haversine data r = Ok (haversine (luanda_coords data) (lat, lon))).
Proof.
  intros Hr.
  destruct (complete_row_numbers r Hr) as (a & b & c & d & e & H1 & H2 & _).
  unfold distance_of_row, _validate_coordinates, _validate_cell_coordinates.
  rewrite H1, H2. destruct (luanda_coords data) as [lat0 lon0].
  repeat match goal with
         | |- context [if ?t then _ else _] => destruct t
         end; cbn [bind]; eauto 8.
Qed.

Lemma distances_of_rows (df_rows : list CatalogueRow) :
  Forall (fun r => complete_row r = true) df_rows ->
  forall acc : list Q,
    (exists message,
        for_each (fun acc r => let! d := distance_of_row haversine data r in Ok (acc ++ [d]))
                 df_rows acc = Raise (ValueError message))
    \/ (exists distances,
          for_each (fun acc r => let! d := distance_of_row haversine data r in Ok (acc ++ [d]))
                   df_rows acc = Ok (acc ++ distances) /\
          Forall2 (fun r d => exists lat lon,
                       raw_latitude r = Num lat /\ raw_longitude r = Num lon /\
                       d = haversine (luanda_coords data) (lat, lon))
                  df_rows distances).
Proof.
  induction 1 as [|r rest Hr _ IH]; intros acc; cbn [for_each].
  - right. exists []. split; [now rewrite app_nil_r|constructor].
  - destruct (distance_of_row_cases r Hr) as [(msg & ->)|(la & lo & H1 & H2 & ->)];
      cbn [bind]; [left; eauto|].
    destruct (IH (acc ++ [haversine (luanda_coords data) (la, lo)]))
      as [(msg & ->)|(distances & -> & Hall)]; [left; eauto|].
    right. exists (haversine (luanda_coords data) (la, lo) :: distances).
    split; [now rewrite <- app_assoc|].
    constructor; [eauto|assumption].
Qed.

Lemma Forall2_In_combine {A B : Type} (P : A -> B -> Prop) (l : list A) (l' : list B)
    (x : A) :
  Forall2 P l l' -> In x l -> exists y, In (x, y) (combine l l') /\ P x y.
Proof.
  induction 1 as [|a b l l' Hab _ IH]; [intros []|].
  intros [<-|Hin].
  - exists b. split; [now left|assumption].
  - destruct (IH Hin) as (y & Hy & HP). exists y. split; [now right|assumption].
Qed.

(** The attractiveness of a row of a complete catalogue whose capacities
    and fees are positive, when some site is away from the reference
    point: a number, at least the weighted sustainability score. *)
Lemma derive_row_attractiveness (max_capacidade max_custo max_distancia : Q)
    (r : CatalogueRow) (frag cap fee distancia : Q) :
  raw_fragilidade r = Num frag ->
  raw_capacidade_diaria r = Num cap ->
  raw_taxa_aoa r = Num fee ->
  (0 < cap <= max_capacidade)%Q ->
  (0 < fee <= max_custo)%Q ->
  (distancia <= max_distancia)%Q -> (0 < max_distancia)%Q ->
  (0 <= w_capacidade weights)%Q -> (0 <= w_acessibilidade weights)%Q ->
  (0 <= w_custo weights)%Q ->
  exists attractiveness : Q,
    row_atratividade_score
      (derive_row data weights (Num max_capacidade) (Num max_custo) (Num max_distancia)
                  r distancia)
    = Num attractiveness /\
    (w_sustentabilidade weights * (inject_Z (max_fragilidade data) - frag + 1)
     <= attractiveness)%Q.
Proof.
  intros Hf Hc Ht [Hc0 HcM] [Ht0 HtM] HdM Hd0 Hwc Hwa Hwk.
  unfold derive_row. cbn [row_atratividade_score]. rewrite Hf, Hc, Ht.
  cbn [cell_rsub_add cell_div].
  assert (E1 : Qeq_bool max_capacidade 0 = false).
  { apply not_true_is_false. intros H. apply Qeq_bool_eq in H. qlra. }
  assert (E2 : Qeq_bool max_custo 0 = false).
  { apply not_true_is_false. intros H. apply Qeq_bool_eq in H. qlra. }
  assert (E3 : Qeq_bool max_distancia 0 = false).
  { apply not_true_is_false. intros H. apply Qeq_bool_eq in H. qlra. }
  rewrite E1, E2, E3. cbn [cell_one_minus cell_scale cell_add].
  eexists. split; [reflexivity|].
  assert (B1 : (0 <= cap / max_capacidade)%Q).
  { apply Qle_shift_div_l; qlra. }
  assert (B2 : (fee / max_custo <= 1)%Q).
  { apply Qle_shift_div_r; qlra. }
  assert (B3 : (distancia / max_distancia <= 1)%Q).
  { apply Qle_shift_div_r; qlra. }
  pose proof (Qmult_le_0_compat _ _ Hwc B1) as P1.
  assert (P2 : (0 <= w_acessibilidade weights * (1 - distancia / max_distancia))%Q).
  { apply Qmult_le_0_compat; [assumption|qlra]. }
  assert (P3 : (0 <= w_custo weights * (1 - fee / max_custo))%Q).
  { apply Qmult_le_0_compat; [assumption|qlra]. }
  set (t1 := (w_capacidade weights * (cap / max_capacidade))%Q) in *.
  set (t2 := (w_acessibilidade weights * (1 - distancia / max_distancia))%Q) in *.
  set (t3 := (w_custo weights * (1 - fee / max_custo))%Q) in *.
  set (t0 := (w_sustentabilidade weights
              * (inject_Z (max_fragilidade data) - frag + 1))%Q).
  qlra.
Qed.

(** The last test of [validate_derived_features] decides when a row is too
    attractive. *)
Lemma validate_derived_features_attractive (processed : list ProcessedRow)
    (p : ProcessedRow) :
  In p processed -> cell_gt (row_atratividade_score p) 1 = true ->
  validate_derived_features data processed = false.
Proof.
  intros Hin Hgt.
  assert (H : existsb (fun p => out_of_unit (row_atratividade_score p)) processed = true).
  { apply existsb_exists. exists p. split; [assumption|].
    unfold out_of_unit. rewrite Hgt. apply orb_true_r. }
  unfold validate_derived_features. rewrite H.
  repeat match goal with
         | |- (if ?t then false else _) = false => destruct t; [reflexivity|]
         end.
  reflexivity.
Qed.

Lemma validate_processed_data_attractive (processed : list ProcessedRow)
    (p : ProcessedRow) :
  In p processed -> cell_gt (row_atratividade_score p) 1 = true ->
  exists message, _validate_processed_data data processed = Raise (ValueError message).
Proof.
  intros Hin Hgt. unfold _validate_processed_data.
  destruct (negb (validate_value_ranges data (map base processed))); [eauto|].
  rewrite (validate_derived_features_attractive processed p Hin Hgt). cbn. eauto.
Qed.

(** The attractiveness of a row after [_optimize_data_types]. *)
Lemma optimize_data_types_attractive (float64 : NumericColumn -> bool)
    (derived : list ProcessedRow) (p : ProcessedRow) (attractiveness : Q) :
  In p derived -> row_atratividade_score p = Num attractiveness ->
  (9 # 8 <= attractiveness)%Q ->
  exists p', In p' (_optimize_data_types float64 derived) /\
             cell_gt (row_atratividade_score p') 1 = true.
Proof.
  intros Hin Hp Hq. unfold _optimize_data_types.
  eexists. split; [apply in_map_iff; eexists; split; [reflexivity|exact Hin]|].
  cbn [row_atratividade_score]. unfold optimized.
  destruct (cell_gt_float32 _ _ Hp Hq) as [H1 H2].
  now destruct (true && fits_float32 (map row_atratividade_score derived)).
Qed.

End ProcessorFacts.

(** X26.  [DataProcessor.load_data] raises [ValueError] on every catalogue
    without a blank numeric cell that holds a site whose sustainability
    score [max_fragilidade - fragilidade + 1], times its weight, is at least
    9/8, when the weights of the capacity, of the accessibility and of the
    cost are not negative and some site lies at a positive distance from the
    reference point: the attractiveness of that site is above 1, also after
    the conversion to float32, and the final validation wants it within 0
    and 1.  With the weight 0.3 and the fragility scale 1 to 5 of the
    configuration, a site of fragility 1 or 2 is such a site. *)
Theorem load_data_refuses_attractive_site :
  forall (haversine : coord -> coord -> Q) (data : DataConfig) (weights : FeatureWeights)
         (str_strip str_title : string -> string)
         (fill_numeric_nulls : list CatalogueRow -> list CatalogueRow)
         (df : Catalogue) (row remote : CatalogueRow) (frag lat lon : Q),
    Forall (fun r => complete_row r = true) (catalogue_rows df) ->
    In row (catalogue_rows df) ->
    raw_fragilidade row = Num frag ->
    (9 # 8 <= w_sustentabilidade weights * (inject_Z (max_fragilidade data) - frag + 1))%Q ->
    (0 <= w_capacidade weights)%Q ->
    (0 <= w_acessibilidade weights)%Q ->
    (0 <= w_custo weights)%Q ->
    In remote (catalogue_rows df) ->
    raw_latitude remote = Num lat ->
    raw_longitude remote = Num lon ->
    (0 < haversine (luanda_coords data) (lat, lon))%Q ->
    exists message,
      load_data haversine data weights str_strip str_title fill_numeric_nulls df
      = Raise (ValueError message).
Proof.
  intros haversine data weights str_strip str_title fill_numeric_nulls df row remote
         frag lat lon Hall Hrow Hfrag Hscore Hwc Hwa Hwk Hremote Hlat Hlon Hfar.
  unfold load_data.
  destruct (negb (validate_dataframe_structure (catalogue_rows df))); [eauto|].
  destruct (negb (validate_data_content data (catalogue_rows df))) eqn:Hcontent; [eauto|].
  apply negb_false_iff in Hcontent.
  assert (Hranges : validate_value_ranges data (catalogue_rows df) = true).
  { unfold validate_data_content in Hcontent.
    now destruct (validate_value_ranges data (catalogue_rows df)). }
  unfold _process_loaded_data. rewrite (clean_data_complete _ _ _ _ Hall).
  set (clean := clean_row str_strip str_title).
  set (cleaned := map clean (catalogue_rows df)).
  assert (Hcleaned : Forall (fun r => complete_row r = true) cleaned).
  { unfold cleaned. apply List.Forall_forall. intros r Hr.
    apply in_map_iff in Hr as (r0 & <- & Hr0).
    rewrite List.Forall_forall in Hall. exact (Hall r0 Hr0). }
  unfold _create_derived_features.
  destruct (distances_of_rows haversine data cleaned Hcleaned [])
    as [(msg & ->)|(distances & -> & Hdist)]; [cbn [bind]; eauto|].
  cbn [bind app].
  (* the capacities and the fees are positive *)
  assert (Hpositive : forall r, In r (catalogue_rows df) ->
            cell_le (raw_capacidade_diaria r) 0 = false /\
            cell_le (raw_taxa_aoa r) 0 = false).
  { intros r Hr. unfold validate_value_ranges in Hranges.
    repeat match type of Hranges with
           | (if ?t then false else _) = true =>
               let E := fresh "E" in destruct t eqn:E; [discriminate|]
           end.
    split.
    - apply (existsb_false_In (fun r => cell_le (raw_capacidade_diaria r) 0)
                              (catalogue_rows df) r); assumption.
    - apply (existsb_false_In (fun r => cell_le (raw_taxa_aoa r) 0)
                              (catalogue_rows df) r); assumption. }
  destruct (complete_row_numbers row) as (la & lo & f & c & t & _ & _ & Hf & Hc & Ht).
  { rewrite List.Forall_forall in Hall. now apply Hall. }
  assert (f = frag) by congruence. subst f.
  destruct (Hpositive row Hrow) as [Hc0 Ht0]. rewrite Hc in Hc0. rewrite Ht in Ht0.
  cbn [cell_le] in Hc0, Ht0.
  assert (Hc0' : (0 < c)%Q).
  { apply Qnot_le_lt. intros H. apply Qle_bool_iff in H. congruence. }
  assert (Ht0' : (0 < t)%Q).
  { apply Qnot_le_lt. intros H. apply Qle_bool_iff in H. congruence. }
  (* the three maxima *)
  assert (Hcolumn : forall column : CatalogueRow -> cell,
            (forall r, complete_row r = true -> is_number (column r) = true) ->
            Forall (fun c => is_number c = true) (map column cleaned)).
  { intros column Hcol. apply List.Forall_forall. intros x Hx.
    apply in_map_iff in Hx as (r & <- & Hr).
    rewrite List.Forall_forall in Hcleaned. apply Hcol. now apply Hcleaned. }
  assert (Hclean_row : In (clean row) cleaned) by (unfold cleaned; now apply in_map).
  destruct (column_max_bound (map raw_capacidade_diaria cleaned) c) as (Mc & -> & HMc).
  { apply Hcolumn. intros r Hr. unfold complete_row in Hr.
    rewrite !andb_true_iff in Hr. tauto. }
  { apply in_map_iff. exists (clean row). split; [exact Hc|assumption]. }
  destruct (column_max_bound (map raw_taxa_aoa cleaned) t) as (Mt & -> & HMt).
  { apply Hcolumn. intros r Hr. unfold complete_row in Hr.
    rewrite !andb_true_iff in Hr. tauto. }
  { apply in_map_iff. exists (clean row). split; [exact Ht|assumption]. }
  destruct (Forall2_In_combine _ _ _ (clean row) Hdist Hclean_row)
    as (d & Hpair & la' & lo' & _ & _ & _).
  destruct (Forall2_In_combine _ _ _ (clean remote) Hdist) as (d' & Hpair' & Hd').
  { unfold cleaned. now apply in_map. }
  destruct Hd' as (la'' & lo'' & Hla & Hlo & Hd').
  change (raw_latitude (clean remote)) with (raw_latitude remote) in Hla.
  change (raw_longitude (clean remote)) with (raw_longitude remote) in Hlo.
  assert (la'' = lat) by congruence. assert (lo'' = lon) by congruence.
  subst la'' lo''.
  assert (Hnumbers : Forall (fun c => is_number c = true) (map Num distances)).
  { apply List.Forall_forall. intros x Hx. now apply in_map_iff in Hx as (q & <- & _). }
  destruct (column_max_bound (map Num distances) d Hnumbers) as (Md & HMd & HdM).
  { apply in_map. eapply in_combine_r. exact Hpair. }
  destruct (column_max_bound (map Num distances) d' Hnumbers) as (Md' & HMd' & Hd'M).
  { apply in_map. eapply in_combine_r. exact Hpair'. }
  rewrite HMd in HMd'. injection HMd' as <-. rewrite HMd.
  destruct (derive_row_attractiveness data weights Mc Mt Md (clean row)
              frag c t d Hf Hc Ht) as (a & Ha & Hbound);
    try assumption; try (split; assumption); [subst d'; qlra|].
  destruct (optimize_data_types_attractive (is_float64 df)
              (map (fun rd => derive_row data weights (Num Mc) (Num Mt) (Num Md)
                                         (fst rd) (snd rd))
                   (combine cleaned distances))
              (derive_row data weights (Num Mc) (Num Mt) (Num Md) (clean row) d) a)
    as (p' & Hp' & Hgt).
  { apply in_map_iff. exists (clean row, d). split; [reflexivity|assumption]. }
  { exact Ha. }
  { qlra. }
  destruct (validate_processed_data_attractive data _ p' Hp' Hgt) as (msg & ->).
  cbn [bind]. eauto.
Qed.

(** X27.  [DataProcessor.load_data] accepts the self-test catalogue once its
    capacity column is blank, although it holds the site of fragility 2
    that has the complete catalogue refused: the median of a column of
    blanks is NaN, so that filling changes nothing; the relative capacity
    and the attractiveness of every row are NaN, which no test of
    [validate_value_ranges] or of [validate_derived_features] finds out of
    range.  (The distances are those of the stand-in for [haversine].) *)
Theorem load_data_accepts_blank_capacity :
  exists processed,
    load_data (haversine sample_environment) default_data_config default_feature_weights
              (fun s => s) (fun s => s) (fun df_rows => df_rows) blank_capacity_file
    = Ok processed /\
    map (fun p => raw_fragilidade (base p)) processed = [Num 3; Num 2; Num 4] /\
    map capacidade_relativa processed = [NaN; NaN; NaN] /\
    map row_atratividade_score processed = [NaN; NaN; NaN].
Proof.
  eexists. split; [vm_compute; reflexivity|]. repeat split; reflexivity.
Qed.

(** ** The further statements at concrete inputs *)

Lemma calculate_distance_matrix_symmetric_witness :
  exists m,
    calculate_distance_matrix (haversine sample_environment) test_coords = Ok m /\
    length m = length test_coords /\
    Forall (fun row => length row = length test_coords) m /\
    forall i j, (i < length test_coords)%nat -> (j < length test_coords)%nat ->
      matrix_entry m i j
      = Some (if (i =? j)%nat then 0%Q
              else haversine sample_environment
                             (point test_coords (Z.of_nat (Nat.min i j)))
                             (point test_coords (Z.of_nat (Nat.max i j)))) /\
      matrix_entry m j i = matrix_entry m i j.
Proof.
  apply (calculate_distance_matrix_symmetric (haversine sample_environment) test_coords).
  intros _. repeat constructor.
Defined.

Lemma calculate_distance_matrix_invalid_witness :
  exists msg,
    calculate_distance_matrix (haversine sample_environment) off_range_coords
    = Raise (ValueError msg).
Proof.
  apply (calculate_distance_matrix_invalid (haversine sample_environment) off_range_coords).
  - cbn. lia.
  - intros H. inversion H as [|? ? Hbad _]. discriminate Hbad.
Defined.

Lemma find_nearest_points_sorted_witness :
  exists found,
    find_nearest_points (haversine sample_environment) (luanda_coords default_data_config)
                        test_coords 2 = Ok found /\
    length found = 2%nat /\
    StronglySorted closer found.
Proof.
  destruct (find_nearest_points_sorted (haversine sample_environment)
              (luanda_coords default_data_config) test_coords 2)
    as (found & Hfound & Hlen & Hsorted & _).
  - reflexivity.
  - repeat constructor.
  - lia.
  - exists found. split; [exact Hfound|]. split; [exact Hlen|exact Hsorted].
Defined.

Lemma find_nearest_points_invalid_witness :
  exists msg,
    find_nearest_points (haversine sample_environment) (91%Q, 0%Q) test_coords 2
    = Raise (ValueError msg).
Proof.
  apply (find_nearest_points_invalid (haversine sample_environment) (91%Q, 0%Q)
           test_coords 2).
  - discriminate.
  - intros [Hbad _]. discriminate Hbad.
Defined.

Lemma nearest_neighbor_route_start_out_of_bounds_witness :
  nearest_neighbor_route (haversine sample_environment) test_coords 4 = Raise IndexError.
Proof.
  apply (nearest_neighbor_route_start_out_of_bounds (haversine sample_environment)
           test_coords 4).
  - cbn. lia.
  - cbn. lia.
Defined.

Lemma nearest_neighbor_route_negative_start_witness :
  exists tail,
    nearest_neighbor_route (haversine sample_environment) test_coords (-1)
    = Ok ((-1)%Z :: tail) /\
    nearest_neighbor_route (haversine sample_environment) test_coords 3
    = Ok (3%Z :: tail) /\
    Permutation (3%Z :: tail) (range (length test_coords)) /\
    ~ In 3%Z ((-1)%Z :: tail).
Proof.
  apply (nearest_neighbor_route_negative_start (haversine sample_environment)
           test_coords (-1)).
  - cbn. lia.
  - repeat constructor.
  - cbn. lia.
Defined.

Lemma create_route_refused_only_for_cost_witness :
  _create_route_from_locations sample_environment test_records 50000 = None
  <-> (50000 < Qsum (map (fun loc => taxa_aoa (site loc)) test_records))%Q.
Proof.
  apply (create_route_refused_only_for_cost sample_environment test_records 50000).
  - discriminate.
  - repeat constructor.
  - repeat constructor.
    + exists 25000%Z. split; [lia|reflexivity].
    + exists 15000%Z. split; [lia|reflexivity].
    + exists 30000%Z. split; [lia|reflexivity].
  - vm_compute. reflexivity.
Defined.

Lemma generate_routes_single_cluster_witness :
  exists cluster_id,
    Forall (fun loc => In (site loc) (rows test_catalog) /\ site_cluster loc = cluster_id)
           (locais test_candidate) /\
    route_nome test_candidate
    = ("Rota Cluster " ++ str_Z (cluster_id + 1) ++ " - "
       ++ str_Z (Z.of_nat (length (locais test_candidate))) ++ " locais")%string.
Proof.
  apply (generate_routes_single_cluster sample_environment default_config test_catalog
           (Some 3%Z) (Some 2%Z) (Some 80000%Q) 0%Z test_candidate).
  vm_compute. left. reflexivity.
Defined.

Lemma generate_routes_small_catalogue_witness :
  (length (fst (fst (generate_routes sample_environment default_config test_catalog
                                     (Some 3%Z) (Some 2%Z) (Some 80000%Q) 0%Z))) <= 1)%nat.
Proof.
  apply (generate_routes_small_catalogue sample_environment default_config test_catalog
           (Some 3%Z) (Some 2%Z) (Some 80000%Q) 0%Z).
  cbn. lia.
Defined.

Lemma optimize_existing_route_permutation_witness :
  exists order,
    nearest_neighbor_route (haversine sample_environment) (coordinates_of test_records) 0
    = Ok order /\
    optimize_existing_route sample_environment test_records
    = picked test_records {| site := site_kissama; site_cluster := 0 |} order /\
    head (optimize_existing_route sample_environment test_records)
    = Some {| site := site_kissama; site_cluster := 0 |}.
Proof.
  apply (proj2 (proj2 (optimize_existing_route_permutation sample_environment
                         test_records))).
  - repeat constructor.
  - reflexivity.
Defined.

Lemma prever_rating_usuario_range_witness :
  prever_rating_usuario stale_engine demo_profile 0
  = (Ok 4%Q, count_rating_call stale_engine) /\
  (1 <= 4 <= 5)%Q.
Proof.
  assert (Hrun : prever_rating_usuario stale_engine demo_profile 0
                 = (Ok 4%Q, count_rating_call stale_engine))
    by (vm_compute; reflexivity).
  split; [exact Hrun|].
  exact (proj1 (prever_rating_usuario_range stale_engine (count_rating_call stale_engine)
                  demo_profile 0 4%Q Hrun)).
Defined.

Lemma demo_personal_run_outcome :
  demo_personal_run = (Ok demo_personal_routes, snd demo_personal_run).
Proof. vm_compute. reflexivity. Qed.

Lemma gerar_rotas_personalizadas_within_budget_witness :
  demo_personal_routes <> [] /\
  (length demo_personal_routes <= 2)%nat /\
  Forall (fun r => (p_custo_total_aoa r <= 70000)%Q) demo_personal_routes.
Proof.
  destruct (gerar_rotas_personalizadas_within_budget sample_environment stale_engine
              (snd demo_personal_run) demo_profile 70000 3 2 demo_personal_routes
              demo_personal_run_outcome) as [Hlen Hall].
  split; [vm_compute; discriminate|]. split; [exact Hlen|].
  revert Hall. apply List.Forall_impl. intros r (_ & _ & _ & _ & Hcost & _). exact Hcost.
Defined.

Lemma gerar_rotas_personalizadas_by_rating_witness :
  Forall (fun r => NoDup (map local_id (p_locais r)) /\
                   Forall (fun item => (1 <= rating_previsto item <= 5)%Q) (p_locais r))
         demo_personal_routes.
Proof.
  generalize (gerar_rotas_personalizadas_by_rating sample_environment stale_engine
                (snd demo_personal_run) demo_profile 70000 3 2 demo_personal_routes
                demo_personal_run_outcome).
  apply List.Forall_impl. intros r (_ & Hdistinct & Hrange). split; assumption.
Defined.

Lemma gerar_rotas_personalizadas_one_per_cluster_witness :
  (length demo_personal_routes <= length [0%Z])%nat.
Proof.
  apply (gerar_rotas_personalizadas_one_per_cluster sample_environment stale_engine
           (snd demo_personal_run) demo_profile 70000 3 2 demo_personal_routes
           (rows test_catalog) (fun _ => 0%Z) [0%Z] demo_personal_run_outcome).
  - lia.
  - reflexivity.
  - reflexivity.
  - apply NoDup_singleton.
  - intros loc _. left. reflexivity.
Defined.

Lemma calcular_distancia_rota_agrees_witness :
  exists d,
    calculate_route_distance (haversine sample_environment) (coordinates_of_rota demo_rota)
                             (range (length demo_rota)) = Ok d /\
    (d == _calcular_distancia_rota sample_environment demo_rota)%Q.
Proof.
  apply (calcular_distancia_rota_agrees sample_environment demo_rota).
  intros _. repeat constructor.
Defined.

Lemma demo_traditional_run_outcome :
  demo_traditional_run
  = (Ok demo_traditional_routes, snd (fst demo_traditional_run), snd demo_traditional_run).
Proof. vm_compute. reflexivity. Qed.

Lemma generate_traditional_routes_filtered_witness :
  demo_traditional_routes <> [] /\
  Forall (fun r => (fragilidade_media r <= inject_Z 4)%Q /\ (custo_total_aoa r <= 80000)%Q)
         demo_traditional_routes.
Proof.
  split; [vm_compute; discriminate|].
  generalize (generate_traditional_routes_filtered sample_environment default_config
                default_data_config demo_system (snd (fst demo_traditional_run))
                demo_processor (Some 80000%Q) (Some 3%Z) (Some 4%Z) (Some 2%Z)
                0%Z (snd demo_traditional_run) demo_traditional_routes
                demo_traditional_run_outcome).
  cbv zeta. apply List.Forall_impl. intros r (_ & Hfragility & Hcost).
  split; [exact Hfragility|exact Hcost].
Defined.

Lemma generate_traditional_routes_state_witness :
  exists routes g',
    demo_traditional_run = (Ok routes, set_routes demo_system (map inl routes), g').
Proof.
  pose proof (generate_traditional_routes_state sample_environment default_config
                default_data_config demo_system demo_processor (rows test_catalog)
                (Some 80000%Q) (Some 3%Z) (Some 4%Z) (Some 2%Z) 0%Z eq_refl) as H.
  cbv zeta in H. destruct H as (_ & _ & H).
  apply H.
  - discriminate.
  - vm_compute. discriminate.
Defined.

Lemma load_data_refuses_attractive_site_witness :
  exists message,
    load_data (haversine sample_environment) default_data_config default_feature_weights
              (fun s => s) (fun s => s) (fun df_rows => df_rows) test_catalogue_file
    = Raise (ValueError message).
Proof.
  apply (load_data_refuses_attractive_site
           (haversine sample_environment) default_data_config default_feature_weights
           (fun s => s) (fun s => s) (fun df_rows => df_rows) test_catalogue_file
           (catalogue_row_of site_kalandula) (catalogue_row_of site_iona)
           2 (-16.7500) 12.2500).
  - repeat constructor.
  - right. left. reflexivity.
  - reflexivity.
  - vm_compute. discriminate.
  - vm_compute. discriminate.
  - vm_compute. discriminate.
  - vm_compute. discriminate.
  - right. right. left. reflexivity.
  - reflexivity.
  - reflexivity.
  - vm_compute. reflexivity.
Defined.
